(** * Basket: a one-on-one basketball simulation

    Shallow embedding of the simulation core (Math, Physics, Ball, Player,
    Rules, AIController, GameScene, and the fixed-step loop, keyboard
    direction and seeded generator they run on) and the properties of its
    specification.

    Numbers.  The JavaScript sources compute on IEEE doubles; the embedding
    reads every arithmetic expression over the real numbers of the Standard
    Library ([R], with [sqrt], [sin], [cos], [atan], [PI]).  The only
    non-finite value the configuration can introduce is the "unlimited"
    shot clock ([Infinity]); the shot clock therefore lives in [xnum], the
    reals extended by that sentinel.  Counters (scores, statistics) are
    integers.  Calls to [Math.random()] are explicit arguments. *)

From Stdlib Require Import Reals Lra Lia ZArith Bool List String.
Import ListNotations.

Open Scope R_scope.

(** ** Comparisons as booleans, the way the conditions of the source use them *)

Definition Rltb (a b : R) : bool := if Rlt_dec a b then true else false.
Definition Rleb (a b : R) : bool := if Rle_dec a b then true else false.
Definition Reqb (a b : R) : bool := if Req_dec_T a b then true else false.

Notation "a <? b" := (Rltb a b) (at level 70, no associativity) : R_scope.
Notation "a <=? b" := (Rleb a b) (at level 70, no associativity) : R_scope.
Notation "a >? b" := (Rltb b a) (at level 70, no associativity) : R_scope.
Notation "a >=? b" := (Rleb b a) (at level 70, no associativity) : R_scope.
Notation "a =? b" := (Reqb a b) (at level 70, no associativity) : R_scope.

(** A division that reports a zero denominator instead of performing it. *)
Definition checked_div (a b : R) : option R :=
  if b =? 0 then None else Some (a / b).

(** ** Extended numbers: a real or JavaScript's [Infinity] *)

Inductive xnum : Type :=
| Fin (r : R)
| Infinity.

(** [a - dt] for a finite [dt]: [Infinity - dt] is [Infinity]. *)
Definition xsub (a : xnum) (dt : R) : xnum :=
  match a with
  | Fin r => Fin (r - dt)
  | Infinity => Infinity
  end.

(** [a <= c] and [a < c] against a finite bound. *)
Definition xleb (a : xnum) (c : R) : bool :=
  match a with
  | Fin r => r <=? c
  | Infinity => false
  end.

Definition xltb (a : xnum) (c : R) : bool :=
  match a with
  | Fin r => r <? c
  | Infinity => false
  end.

(** The two sides; [possession], [team], the players' ids and [holderId]
    range over the strings ['player'] and ['ai']. *)
Module Side.

Inductive t : Type := player | ai.

Definition eqb (a b : t) : bool :=
  match a, b with
  | player, player | ai, ai => true
  | _, _ => false
  end.

(** [s === 'player' ? 'ai' : 'player'] *)
Definition other (s : t) : t :=
  match s with
  | player => ai
  | ai => player
  end.

End Side.

(** ** config.js *)

Module CONFIG.

Module COURT.
Definition WIDTH : R := 15.
Definition LENGTH : R := 14.
Definition THREE_POINT_RADIUS : R := 675 / 100.
Definition FREE_THROW_DISTANCE : R := 46 / 10.
Definition KEY_WIDTH : R := 49 / 10.
Definition KEY_LENGTH : R := 58 / 10.
Definition RIM_RADIUS : R := 23 / 100.
Definition RIM_HEIGHT : R := 305 / 100.
Definition BACKBOARD_WIDTH : R := 18 / 10.
Definition BACKBOARD_HEIGHT : R := 105 / 100.
Definition BACKBOARD_DISTANCE : R := 12 / 10.
End COURT.

Record Scoring : Type := mkScoring { INSIDE : Z; THREE_POINT : Z }.

Module GAME.
Definition WIN_SCORE : Z := 11.
Definition SHOT_CLOCK_DEFAULT : xnum := Fin 24.
Definition SCORING_STREET : Scoring := mkScoring 1 2.
Definition SCORING_CLASSIC : Scoring := mkScoring 2 3.
Definition DEFAULT_SCORING : string := "street".
Definition FOUL_FREE_THROW_POINTS : Z := 1.
Definition STEAL_COOLDOWN : R := 7 / 10.
Definition STEPBACK_COOLDOWN : R := 5 / 10.
Definition STEPBACK_INVULN_TIME : R := 15 / 100.
End GAME.

Module PLAYER.
Definition BASE_SPEED : R := 36 / 10.
Definition SPRINT_MULTIPLIER : R := 2.
Definition ACCELERATION : R := 15.
Definition FRICTION : R := 12.
Definition STAMINA_MAX : R := 100.
Definition STAMINA_SPRINT_DRAIN : R := 12.
Definition STAMINA_REGEN : R := 12.
Definition STAMINA_MIN_FOR_SPRINT : R := 5.
Definition RADIUS : R := 35 / 100.
Definition LOW_STAMINA_THRESHOLD : R := 30.
Definition LOW_STAMINA_SPEED_PENALTY : R := 8 / 10.
Definition LOW_STAMINA_ACCURACY_PENALTY : R := 85 / 100.
End PLAYER.

Module BALL.
Definition RADIUS : R := 12 / 100.
Definition GRAVITY : R := 981 / 100.
Definition BOUNCE_FACTOR : R := 75 / 100.
Definition FRICTION_GROUND : R := 95 / 100.
Definition FRICTION_AIR : R := 99 / 100.
Definition MIN_SHOT_POWER : R := 2 / 10.
Definition MAX_SHOT_POWER : R := 1.
Definition POWER_CHARGE_RATE : R := 12 / 10.
Definition MAGNETIC_WINDOW : R := 8 / 100.
Definition SHOT_BASE_SPEED : R := 6.
Definition SHOT_DISTANCE_FACTOR : R := 5 / 10.
End BALL.

Record Difficulty : Type := mkDifficulty {
  REACTION_TIME : R;
  SHOT_ACCURACY : R;
  DEFENSE_DISTANCE : R;
  STEAL_CHANCE : R;
  DECISION_DELAY : R
}.

Module AI.
Definition CASUAL : Difficulty :=
    mkDifficulty (5 / 10) (6 / 10) (15 / 10) (15 / 100) (3 / 10).
Definition STANDARD : Difficulty :=
    mkDifficulty (3 / 10) (75 / 100) (12 / 10) (25 / 100) (2 / 10).
Definition COMPETITIVE : Difficulty :=
    mkDifficulty (15 / 100) (85 / 100) (9 / 10) (35 / 100) (1 / 10).
(** [CONFIG.AI.DIFFICULTIES[key] || CONFIG.AI.DIFFICULTIES.STANDARD] *)
Definition DIFFICULTIES (key : string) : Difficulty :=
    if String.eqb key "CASUAL" then CASUAL
    else if String.eqb key "COMPETITIVE" then COMPETITIVE
    else STANDARD.
Definition DEFAULT_DIFFICULTY : string := "STANDARD".
Definition DEFENSE_PRESS_DISTANCE : R := 2.
Definition OFFENSE_DRIVE_DISTANCE : R := 4.
Definition CONTEST_DISTANCE : R := 15 / 10.
Definition FORCE_SHOT_TIME : R := 5.
End AI.

Module PHYSICS.
Definition FIXED_TIMESTEP : R := 1 / 60.
Definition MAX_ACCUMULATOR : R := 1 / 15.
End PHYSICS.

End CONFIG.

(** [GameSettings]: the fields the simulation reads. *)
Module GameSettings.

Record t : Type := mk {
  difficulty : string;
  shotClockDuration : xnum;
  scoringSystem : string
}.

Definition new : t :=
  mk CONFIG.AI.DEFAULT_DIFFICULTY CONFIG.GAME.SHOT_CLOCK_DEFAULT
     CONFIG.GAME.DEFAULT_SCORING.

Definition getAIDifficulty (s : t) : CONFIG.Difficulty :=
  CONFIG.AI.DIFFICULTIES (difficulty s).

Definition getScoringSystem (s : t) : CONFIG.Scoring :=
  if String.eqb (scoringSystem s) "street"
  then CONFIG.GAME.SCORING_STREET
  else CONFIG.GAME.SCORING_CLASSIC.

End GameSettings.

(** ** core/Math.js *)

Module MathUtil.

(** [Math.atan2(y, x)], signed zeros apart. *)
Definition atan2 (y x : R) : R :=
  if 0 <? x then atan (y / x)
  else if x <? 0 then
    (if 0 <=? y then atan (y / x) + PI else atan (y / x) - PI)
  else if 0 <? y then PI / 2
  else if y <? 0 then - (PI / 2)
  else 0.

Definition clamp (value min max : R) : R := Rmin (Rmax value min) max.

Definition distance (x1 y1 x2 y2 : R) : R :=
  let dx := x2 - x1 in
  let dy := y2 - y1 in
  sqrt (dx * dx + dy * dy).

Definition angleTo (x1 y1 x2 y2 : R) : R := atan2 (y2 - y1) (x2 - x1).

Definition circleIntersect (x1 y1 r1 x2 y2 r2 : R) : bool :=
  let dist := distance x1 y1 x2 y2 in
  dist <? r1 + r2.

(** [Math.floor] *)
Definition floor (r : R) : Z := Int_part r.

End MathUtil.

(** ** game/Physics.js *)

(** The collision helpers take any object with [x] and [y] fields. *)
Class Entity (A : Type) : Type := {
  getX : A -> R;
  getY : A -> R;
  setX : R -> A -> A;
  setY : R -> A -> A
}.

Module Physics.

Section Entities.
Context {A : Type} `{Entity A}.

Definition checkPlayerCollision (p1 p2 : A) : bool :=
    MathUtil.circleIntersect
      (getX p1) (getY p1) CONFIG.PLAYER.RADIUS
      (getX p2) (getY p2) CONFIG.PLAYER.RADIUS.

(** [None] stands for a division by zero having been evaluated. *)
Definition resolvePlayerCollision (p1 p2 : A) : option (A * A) :=
    let dist := MathUtil.distance (getX p1) (getY p1) (getX p2) (getY p2) in
    let minDist := CONFIG.PLAYER.RADIUS * 2 in
    if (dist <? minDist) && (dist >? 0) then
      match checked_div (getX p2 - getX p1) dist,
            checked_div (getY p2 - getY p1) dist with
      | Some nx, Some ny =>
          let overlap := minDist - dist in
          let pushX := nx * overlap * (5 / 10) in
          let pushY := ny * overlap * (5 / 10) in
          let p1 := setX (getX p1 - pushX) p1 in
          let p1 := setY (getY p1 - pushY) p1 in
          let p2 := setX (getX p2 + pushX) p2 in
          let p2 := setY (getY p2 + pushY) p2 in
          Some (p1, p2)
      | _, _ => None
      end
    else Some (p1, p2).

Definition clampToCourtBounds (entity : A) : A :=
    let margin := CONFIG.PLAYER.RADIUS in
    let maxX := CONFIG.COURT.WIDTH - margin in
    let maxY := CONFIG.COURT.LENGTH - margin in
    let entity := if getX entity <? margin then setX margin entity else entity in
    let entity := if getX entity >? maxX then setX maxX entity else entity in
    let entity := if getY entity <? margin then setY margin entity else entity in
    let entity := if getY entity >? maxY then setY maxY entity else entity in
    entity.

End Entities.

Definition checkRimCollision (ballX ballY ballZ rimX rimY rimZ : R) : bool :=
  let heightDiff := Rabs (ballZ - rimZ) in
  if heightDiff >? CONFIG.BALL.RADIUS * 2 then false
  else
    let dist2D := MathUtil.distance ballX ballY rimX rimY in
    let threshold := CONFIG.COURT.RIM_RADIUS + CONFIG.BALL.MAGNETIC_WINDOW in
    dist2D <=? threshold.

Definition checkBackboardCollision (ballX ballY ballZ boardX boardY : R) : bool :=
  let halfWidth := CONFIG.COURT.BACKBOARD_WIDTH / 2 in
  let boardMinY := boardY - 1 / 10 in
  let boardMaxY := boardY + 1 / 10 in
  if (ballY <? boardMinY) || (ballY >? boardMaxY) then false
  else if Rabs (ballX - boardX) >? halfWidth then false
  else
    let boardBottom := CONFIG.COURT.RIM_HEIGHT in
    let boardTop := boardBottom + CONFIG.COURT.BACKBOARD_HEIGHT in
    if (ballZ <? boardBottom) || (ballZ >? boardTop) then false
    else true.

(** [{x, y, z}] of a velocity, as a triple. *)
Definition reflectFromBackboard (velocity : R * R * R) : R * R * R :=
  let '(vx, vy, vz) := velocity in
  (vx, - vy * (6 / 10), vz * (8 / 10)).

Definition calculateOptimalShotPower (distance : R) : R :=
  CONFIG.BALL.SHOT_BASE_SPEED + distance * CONFIG.BALL.SHOT_DISTANCE_FACTOR.

Definition isThreePoint (x y : R) : bool :=
  let rimX := CONFIG.COURT.WIDTH / 2 in
  let rimY := CONFIG.COURT.BACKBOARD_DISTANCE in
  let dist := MathUtil.distance x y rimX rimY in
  dist >=? CONFIG.COURT.THREE_POINT_RADIUS.

End Physics.

(** ** game/Ball.js *)

Module Ball.

Inductive State : Type := free | held | inFlight.

Definition State_eqb (a b : State) : bool :=
  match a, b with
  | free, free | held, held | inFlight, inFlight => true
  | _, _ => false
  end.

Record t : Type := mk {
  x : R; y : R; z : R;
  vx : R; vy : R; vz : R;
  state : State;
  holderId : option Side.t;
  hasScored : bool;
  isOutOfBounds : bool;
  justReleased : bool;
  dribbleTime : R
}.

(** Fields fixed by the constructor. *)
Definition rimX : R := CONFIG.COURT.WIDTH / 2.
Definition rimY : R := CONFIG.COURT.BACKBOARD_DISTANCE.
Definition rimZ : R := CONFIG.COURT.RIM_HEIGHT.
Definition dribbleBounceHeight : R := 3 / 10.

Definition set_x v b := mk v (y b) (z b) (vx b) (vy b) (vz b) (state b)
  (holderId b) (hasScored b) (isOutOfBounds b) (justReleased b) (dribbleTime b).
Definition set_y v b := mk (x b) v (z b) (vx b) (vy b) (vz b) (state b)
  (holderId b) (hasScored b) (isOutOfBounds b) (justReleased b) (dribbleTime b).
Definition set_z v b := mk (x b) (y b) v (vx b) (vy b) (vz b) (state b)
  (holderId b) (hasScored b) (isOutOfBounds b) (justReleased b) (dribbleTime b).
Definition set_vx v b := mk (x b) (y b) (z b) v (vy b) (vz b) (state b)
  (holderId b) (hasScored b) (isOutOfBounds b) (justReleased b) (dribbleTime b).
Definition set_vy v b := mk (x b) (y b) (z b) (vx b) v (vz b) (state b)
  (holderId b) (hasScored b) (isOutOfBounds b) (justReleased b) (dribbleTime b).
Definition set_vz v b := mk (x b) (y b) (z b) (vx b) (vy b) v (state b)
  (holderId b) (hasScored b) (isOutOfBounds b) (justReleased b) (dribbleTime b).
Definition set_state v b := mk (x b) (y b) (z b) (vx b) (vy b) (vz b) v
  (holderId b) (hasScored b) (isOutOfBounds b) (justReleased b) (dribbleTime b).
Definition set_holderId v b := mk (x b) (y b) (z b) (vx b) (vy b) (vz b) (state b)
  v (hasScored b) (isOutOfBounds b) (justReleased b) (dribbleTime b).
Definition set_hasScored v b := mk (x b) (y b) (z b) (vx b) (vy b) (vz b) (state b)
  (holderId b) v (isOutOfBounds b) (justReleased b) (dribbleTime b).
Definition set_isOutOfBounds v b := mk (x b) (y b) (z b) (vx b) (vy b) (vz b) (state b)
  (holderId b) (hasScored b) v (justReleased b) (dribbleTime b).
Definition set_justReleased v b := mk (x b) (y b) (z b) (vx b) (vy b) (vz b) (state b)
  (holderId b) (hasScored b) (isOutOfBounds b) v (dribbleTime b).
Definition set_dribbleTime v b := mk (x b) (y b) (z b) (vx b) (vy b) (vz b) (state b)
  (holderId b) (hasScored b) (isOutOfBounds b) (justReleased b) v.

Definition new : t :=
  mk (CONFIG.COURT.WIDTH / 2) (CONFIG.COURT.LENGTH / 2) 0
     0 0 0 free None false false false 0.

Definition attachTo (playerId : Side.t) (x' y' : R) (b : t) : t :=
  mk x' y' (12 / 10) 0 0 0 held (Some playerId) false false false
     (if dribbleTime b =? 0 then 0 else dribbleTime b).

Definition release (vx' vy' vz' : R) (b : t) : t :=
  mk (x b) (y b) (z b) vx' vy' vz' inFlight (holderId b) false
     (isOutOfBounds b) true (dribbleTime b).

Definition checkBounds (b : t) : t :=
  let margin := 3 / 10 in
  if (x b <? - margin) || (x b >? CONFIG.COURT.WIDTH + margin) ||
     (y b <? - margin) || (y b >? CONFIG.COURT.LENGTH + margin)
  then set_isOutOfBounds true b
  else b.

(** The steps of [update] for a ball that is not held, in source order. *)

(** Gravity, position, air drag. *)
Definition update_integrate (dt : R) (b : t) : t :=
  let b := set_vz (vz b - CONFIG.BALL.GRAVITY * dt) b in
  let b := set_x (x b + vx b * dt) b in
  let b := set_y (y b + vy b * dt) b in
  let b := set_z (z b + vz b * dt) b in
  let b := set_vx (vx b * CONFIG.BALL.FRICTION_AIR) b in
  let b := set_vy (vy b * CONFIG.BALL.FRICTION_AIR) b in
  b.

(** Ground contact. *)
Definition update_ground (b : t) : t :=
  if z b <=? CONFIG.BALL.RADIUS then
    let b := set_z CONFIG.BALL.RADIUS b in
    let b := set_vz (- vz b * CONFIG.BALL.BOUNCE_FACTOR) b in
    let b := set_justReleased false b in
    let b := set_vx (vx b * CONFIG.BALL.FRICTION_GROUND) b in
    let b := set_vy (vy b * CONFIG.BALL.FRICTION_GROUND) b in
    if Rabs (vz b) <? 5 / 10 then
      let b := set_vz 0 b in
      let b := set_z CONFIG.BALL.RADIUS b in
      set_state free b
    else b
  else b.

(** The guard of the rim test. *)
Definition rimContact (b : t) : bool :=
  State_eqb (state b) inFlight && (vz b <? 0) && negb (hasScored b) &&
  Physics.checkRimCollision (x b) (y b) (z b) rimX rimY rimZ.

(** Rim test, only while descending. *)
Definition update_rim (b : t) : t :=
  if State_eqb (state b) inFlight && (vz b <? 0) && negb (hasScored b) then
    if Physics.checkRimCollision (x b) (y b) (z b) rimX rimY rimZ then
      let b := set_hasScored true b in
      set_vz (vz b * (7 / 10)) b
    else b
  else b.

(** Backboard test. *)
Definition update_backboard (b : t) : t :=
  if State_eqb (state b) inFlight then
    if Physics.checkBackboardCollision (x b) (y b) (z b) rimX rimY then
      let '(rx, ry, rz) := Physics.reflectFromBackboard (vx b, vy b, vz b) in
      let b := set_vx rx b in
      let b := set_vy ry b in
      set_vz rz b
    else b
  else b.

Definition update (dt : R) (b : t) : t :=
  match state b with
  | held =>
      let b := set_dribbleTime (dribbleTime b + dt) b in
      let bounceFrequency := 2 in
      set_z (12 / 10 +
             Rabs (sin (dribbleTime b * bounceFrequency * PI)) * dribbleBounceHeight) b
  | _ =>
      checkBounds
        (update_backboard (update_rim (update_ground (update_integrate dt b))))
  end.

Definition isScore (b : t) : bool := hasScored b && (z b <? rimZ).

Definition getDistanceToRim (b : t) : R :=
  MathUtil.distance (x b) (y b) rimX rimY.

Definition reset (x' y' : R) (b : t) : t :=
  mk x' y' 0 0 0 0 free None false false (justReleased b) (dribbleTime b).

End Ball.

(** ** game/Player.js *)

Module Player.

(** Animation labels. *)
Inductive Anim : Type := idle | run | dribble | shoot | layup | defend.

Record t : Type := mk {
  id : Side.t;
  team : Side.t;
  x : R; y : R;
  vx : R; vy : R;
  facing : R;
  stamina : R;
  isSprinting : bool;
  hasBall : bool;
  state : Anim;
  stateTime : R;
  shotPower : R;
  shotCharging : bool;
  shotAngle : R;
  stealCooldown : R;
  stepBackCooldown : R;
  invulnerableTime : R
}.

(** Fields fixed by the constructor. *)
Definition rimX : R := CONFIG.COURT.WIDTH / 2.
Definition rimY : R := CONFIG.COURT.BACKBOARD_DISTANCE.

Definition set_x v p := mk (id p) (team p) v (y p) (vx p) (vy p) (facing p)
  (stamina p) (isSprinting p) (hasBall p) (state p) (stateTime p) (shotPower p)
  (shotCharging p) (shotAngle p) (stealCooldown p) (stepBackCooldown p)
  (invulnerableTime p).
Definition set_y v p := mk (id p) (team p) (x p) v (vx p) (vy p) (facing p)
  (stamina p) (isSprinting p) (hasBall p) (state p) (stateTime p) (shotPower p)
  (shotCharging p) (shotAngle p) (stealCooldown p) (stepBackCooldown p)
  (invulnerableTime p).
Definition set_vx v p := mk (id p) (team p) (x p) (y p) v (vy p) (facing p)
  (stamina p) (isSprinting p) (hasBall p) (state p) (stateTime p) (shotPower p)
  (shotCharging p) (shotAngle p) (stealCooldown p) (stepBackCooldown p)
  (invulnerableTime p).
Definition set_vy v p := mk (id p) (team p) (x p) (y p) (vx p) v (facing p)
  (stamina p) (isSprinting p) (hasBall p) (state p) (stateTime p) (shotPower p)
  (shotCharging p) (shotAngle p) (stealCooldown p) (stepBackCooldown p)
  (invulnerableTime p).
Definition set_facing v p := mk (id p) (team p) (x p) (y p) (vx p) (vy p) v
  (stamina p) (isSprinting p) (hasBall p) (state p) (stateTime p) (shotPower p)
  (shotCharging p) (shotAngle p) (stealCooldown p) (stepBackCooldown p)
  (invulnerableTime p).
Definition set_stamina v p := mk (id p) (team p) (x p) (y p) (vx p) (vy p) (facing p)
  v (isSprinting p) (hasBall p) (state p) (stateTime p) (shotPower p)
  (shotCharging p) (shotAngle p) (stealCooldown p) (stepBackCooldown p)
  (invulnerableTime p).
Definition set_isSprinting v p := mk (id p) (team p) (x p) (y p) (vx p) (vy p) (facing p)
  (stamina p) v (hasBall p) (state p) (stateTime p) (shotPower p)
  (shotCharging p) (shotAngle p) (stealCooldown p) (stepBackCooldown p)
  (invulnerableTime p).
Definition set_hasBall v p := mk (id p) (team p) (x p) (y p) (vx p) (vy p) (facing p)
  (stamina p) (isSprinting p) v (state p) (stateTime p) (shotPower p)
  (shotCharging p) (shotAngle p) (stealCooldown p) (stepBackCooldown p)
  (invulnerableTime p).
Definition set_state v p := mk (id p) (team p) (x p) (y p) (vx p) (vy p) (facing p)
  (stamina p) (isSprinting p) (hasBall p) v (stateTime p) (shotPower p)
  (shotCharging p) (shotAngle p) (stealCooldown p) (stepBackCooldown p)
  (invulnerableTime p).
Definition set_stateTime v p := mk (id p) (team p) (x p) (y p) (vx p) (vy p) (facing p)
  (stamina p) (isSprinting p) (hasBall p) (state p) v (shotPower p)
  (shotCharging p) (shotAngle p) (stealCooldown p) (stepBackCooldown p)
  (invulnerableTime p).
Definition set_shotPower v p := mk (id p) (team p) (x p) (y p) (vx p) (vy p) (facing p)
  (stamina p) (isSprinting p) (hasBall p) (state p) (stateTime p) v
  (shotCharging p) (shotAngle p) (stealCooldown p) (stepBackCooldown p)
  (invulnerableTime p).
Definition set_shotCharging v p := mk (id p) (team p) (x p) (y p) (vx p) (vy p) (facing p)
  (stamina p) (isSprinting p) (hasBall p) (state p) (stateTime p) (shotPower p)
  v (shotAngle p) (stealCooldown p) (stepBackCooldown p)
  (invulnerableTime p).
Definition set_shotAngle v p := mk (id p) (team p) (x p) (y p) (vx p) (vy p) (facing p)
  (stamina p) (isSprinting p) (hasBall p) (state p) (stateTime p) (shotPower p)
  (shotCharging p) v (stealCooldown p) (stepBackCooldown p)
  (invulnerableTime p).
Definition set_stealCooldown v p := mk (id p) (team p) (x p) (y p) (vx p) (vy p) (facing p)
  (stamina p) (isSprinting p) (hasBall p) (state p) (stateTime p) (shotPower p)
  (shotCharging p) (shotAngle p) v (stepBackCooldown p)
  (invulnerableTime p).
Definition set_stepBackCooldown v p := mk (id p) (team p) (x p) (y p) (vx p) (vy p) (facing p)
  (stamina p) (isSprinting p) (hasBall p) (state p) (stateTime p) (shotPower p)
  (shotCharging p) (shotAngle p) (stealCooldown p) v
  (invulnerableTime p).
Definition set_invulnerableTime v p := mk (id p) (team p) (x p) (y p) (vx p) (vy p) (facing p)
  (stamina p) (isSprinting p) (hasBall p) (state p) (stateTime p) (shotPower p)
  (shotCharging p) (shotAngle p) (stealCooldown p) (stepBackCooldown p)
  v.

Definition new (id' team' : Side.t) (x' y' : R) : t :=
  mk id' team' x' y' 0 0 0 CONFIG.PLAYER.STAMINA_MAX false false idle 0
     0 false 0 0 0 0.

Definition updateStamina (dt : R) (p : t) : t :=
  if isSprinting p then
    let p := set_stamina (stamina p - CONFIG.PLAYER.STAMINA_SPRINT_DRAIN * dt) p in
    if stamina p <? 0 then
      let p := set_stamina 0 p in
      set_isSprinting false p
    else p
  else
    let p := set_stamina (stamina p + CONFIG.PLAYER.STAMINA_REGEN * dt) p in
    if stamina p >? CONFIG.PLAYER.STAMINA_MAX then
      set_stamina CONFIG.PLAYER.STAMINA_MAX p
    else p.

Definition updateState (dt : R) (p : t) : t :=
  let speed := sqrt (vx p * vx p + vy p * vy p) in
  if shotCharging p then set_state shoot p
  else if speed >? 5 / 10 then
    set_state (if hasBall p then dribble else run) p
  else set_state idle p.

Definition update (dt : R) (p : t) : t :=
  let p := set_stateTime (stateTime p + dt) p in
  let p := set_stealCooldown (Rmax 0 (stealCooldown p - dt)) p in
  let p := set_stepBackCooldown (Rmax 0 (stepBackCooldown p - dt)) p in
  let p := set_invulnerableTime (Rmax 0 (invulnerableTime p - dt)) p in
  let p := set_vx (vx p * (1 - CONFIG.PLAYER.FRICTION * dt)) p in
  let p := set_vy (vy p * (1 - CONFIG.PLAYER.FRICTION * dt)) p in
  let p := set_x (x p + vx p * dt) p in
  let p := set_y (y p + vy p * dt) p in
  let p := updateStamina dt p in
  updateState dt p.

Definition getEffectiveSpeed (p : t) : R :=
  let speed := CONFIG.PLAYER.BASE_SPEED in
  let speed :=
    if isSprinting p && (stamina p >? CONFIG.PLAYER.STAMINA_MIN_FOR_SPRINT)
    then speed * CONFIG.PLAYER.SPRINT_MULTIPLIER else speed in
  let speed :=
    if stamina p <? CONFIG.PLAYER.LOW_STAMINA_THRESHOLD
    then speed * CONFIG.PLAYER.LOW_STAMINA_SPEED_PENALTY else speed in
  speed.

Definition applyMovement (dirX dirY : R) (p : t) : t :=
  let speed := getEffectiveSpeed p in
  let accel := CONFIG.PLAYER.ACCELERATION in
  let p := set_vx (vx p + dirX * accel * (1 / 60)) p in
  let p := set_vy (vy p + dirY * accel * (1 / 60)) p in
  let currentSpeed := sqrt (vx p * vx p + vy p * vy p) in
  let p :=
    if currentSpeed >? speed then
      let p := set_vx (vx p / currentSpeed * speed) p in
      set_vy (vy p / currentSpeed * speed) p
    else p in
  if negb (dirX =? 0) || negb (dirY =? 0)
  then set_facing (MathUtil.atan2 dirY dirX) p
  else p.

Definition startShot (angle : R) (p : t) : t :=
  if negb (hasBall p) then p
  else
    let p := set_shotCharging true p in
    let p := set_shotPower 0 p in
    set_shotAngle angle p.

Definition chargeShot (dt : R) (p : t) : t :=
  if negb (shotCharging p) then p
  else
    let p := set_shotPower (shotPower p + CONFIG.BALL.POWER_CHARGE_RATE * dt) p in
    set_shotPower
      (MathUtil.clamp (shotPower p) CONFIG.BALL.MIN_SHOT_POWER
         CONFIG.BALL.MAX_SHOT_POWER) p.

(** The launch vector [{vx, vy, vz, power}]. *)
Record ShotData : Type := mkShot {
  shot_vx : R; shot_vy : R; shot_vz : R; shot_power : R
}.

(** The local [accuracy] of [executeShot]. *)
Definition shotAccuracy (p : t) : R :=
  if stamina p <? CONFIG.PLAYER.LOW_STAMINA_THRESHOLD
  then CONFIG.PLAYER.LOW_STAMINA_ACCURACY_PENALTY
  else 1.

(** The local [horizontalSpeed] of [executeShot]. *)
Definition horizontalSpeed (p : t) : R :=
  let distToRim := MathUtil.distance (x p) (y p) rimX rimY in
  let optimalPower := Physics.calculateOptimalShotPower distToRim in
  shotPower p * optimalPower * shotAccuracy p.

(** [None] is the source's [null]. *)
Definition executeShot (p : t) : option ShotData * t :=
  if negb (shotCharging p) || negb (hasBall p) then (None, p)
  else
    let angleToRim := MathUtil.angleTo (x p) (y p) rimX rimY in
    let vx' := cos angleToRim * horizontalSpeed p in
    let vy' := sin angleToRim * horizontalSpeed p in
    let vz' :=
      sqrt (2 * CONFIG.BALL.GRAVITY * CONFIG.COURT.RIM_HEIGHT) *
      (8 / 10 + shotPower p * (4 / 10)) in
    let p := set_shotCharging false p in
    let p := set_hasBall false p in
    (Some (mkShot vx' vy' vz' (shotPower p)), p).

Definition performStepBack (p : t) : bool * t :=
  if stepBackCooldown p >? 0 then (false, p)
  else
    let backAngle := facing p + PI in
    let stepDistance := 15 / 10 in
    let p := set_x (x p + cos backAngle * stepDistance) p in
    let p := set_y (y p + sin backAngle * stepDistance) p in
    let p := set_stepBackCooldown CONFIG.GAME.STEPBACK_COOLDOWN p in
    let p := set_invulnerableTime CONFIG.GAME.STEPBACK_INVULN_TIME p in
    (true, p).

(** The local [successChance] of [attemptSteal]. *)
Definition successChance (p target : t) : R :=
  let dist := MathUtil.distance (x p) (y p) (x target) (y target) in
  3 / 10 * (1 - dist / (CONFIG.PLAYER.RADIUS * 3)).

(** [random] is the value [Math.random()] returns when it is called.
    The result is the returned boolean and the attacker afterwards; the
    target is only read. *)
Definition attemptSteal (random : R) (target : t) (p : t) : bool * t :=
  if stealCooldown p >? 0 then (false, p)
  else if negb (hasBall target) then (false, p)
  else if invulnerableTime target >? 0 then (false, p)
  else
    let dist := MathUtil.distance (x p) (y p) (x target) (y target) in
    if dist >? CONFIG.PLAYER.RADIUS * 3 then (false, p)
    else
      let p := set_stealCooldown CONFIG.GAME.STEAL_COOLDOWN p in
      (random <? successChance p target, p).

Definition getBallPosition (p : t) : R * R * R := (x p, y p, 12 / 10).

End Player.

#[export] Instance Player_Entity : Entity Player.t := {
  getX := Player.x;
  getY := Player.y;
  setX := Player.set_x;
  setY := Player.set_y
}.

(** ** game/Rules.js *)

Module Rules.

Inductive GameState : Type := checkBall | liveBall | freeThrow | gameOver.

Definition GameState_eqb (a b : GameState) : bool :=
  match a, b with
  | checkBall, checkBall | liveBall, liveBall
  | freeThrow, freeThrow | gameOver, gameOver => true
  | _, _ => false
  end.

Record Stats : Type := mkStats {
  playerShots : Z;
  playerMakes : Z;
  aiShots : Z;
  aiMakes : Z;
  fouls : Z
}.

Record t : Type := mk {
  settings : GameSettings.t;
  playerScore : Z;
  aiScore : Z;
  possession : Side.t;
  needsCheckBall : bool;
  shotClock : xnum;
  shotClockActive : bool;
  gameState : GameState;
  stats : Stats
}.

Definition set_playerScore v r := mk (settings r) v (aiScore r) (possession r)
  (needsCheckBall r) (shotClock r) (shotClockActive r) (gameState r) (stats r).
Definition set_aiScore v r := mk (settings r) (playerScore r) v (possession r)
  (needsCheckBall r) (shotClock r) (shotClockActive r) (gameState r) (stats r).
Definition set_possession v r := mk (settings r) (playerScore r) (aiScore r) v
  (needsCheckBall r) (shotClock r) (shotClockActive r) (gameState r) (stats r).
Definition set_needsCheckBall v r := mk (settings r) (playerScore r) (aiScore r)
  (possession r) v (shotClock r) (shotClockActive r) (gameState r) (stats r).
Definition set_shotClock v r := mk (settings r) (playerScore r) (aiScore r)
  (possession r) (needsCheckBall r) v (shotClockActive r) (gameState r) (stats r).
Definition set_shotClockActive v r := mk (settings r) (playerScore r) (aiScore r)
  (possession r) (needsCheckBall r) (shotClock r) v (gameState r) (stats r).
Definition set_gameState v r := mk (settings r) (playerScore r) (aiScore r)
  (possession r) (needsCheckBall r) (shotClock r) (shotClockActive r) v (stats r).
Definition set_stats v r := mk (settings r) (playerScore r) (aiScore r)
  (possession r) (needsCheckBall r) (shotClock r) (shotClockActive r) (gameState r) v.

Definition new (settings' : GameSettings.t) : t :=
  mk settings' 0 0 Side.player false (GameSettings.shotClockDuration settings') false
     checkBall (mkStats 0 0 0 0 0).

Definition resetShotClock (r : t) : t :=
  set_shotClock (GameSettings.shotClockDuration (settings r)) r.

Definition changePossession (newPossession : Side.t) (r : t) : t :=
  let r := set_possession newPossession r in
  let r := set_needsCheckBall true r in
  resetShotClock r.

Definition handleShotClockViolation (r : t) : t :=
  let newPossession := Side.other (possession r) in
  let r := changePossession newPossession r in
  let r := set_gameState checkBall r in
  set_shotClockActive false r.

Definition update (dt : R) (r : t) : t :=
  if shotClockActive r && GameState_eqb (gameState r) liveBall then
    let r := set_shotClock (xsub (shotClock r) dt) r in
    if xleb (shotClock r) 0 then handleShotClockViolation r else r
  else r.

Definition scorePoints (team : Side.t) (shotX shotY : R) (r : t) : t :=
  let scoringSystem := GameSettings.getScoringSystem (settings r) in
  let points :=
    if Physics.isThreePoint shotX shotY
    then CONFIG.THREE_POINT scoringSystem
    else CONFIG.INSIDE scoringSystem in
  let r :=
    match team with
    | Side.player =>
        let r := set_playerScore (playerScore r + points)%Z r in
        let s := stats r in
        set_stats (mkStats (playerShots s) (playerMakes s + 1)%Z (aiShots s)
                     (aiMakes s) (fouls s)) r
    | Side.ai =>
        let r := set_aiScore (aiScore r + points)%Z r in
        let s := stats r in
        set_stats (mkStats (playerShots s) (playerMakes s) (aiShots s)
                     (aiMakes s + 1)%Z (fouls s)) r
    end in
  let r := changePossession team r in
  let r := set_needsCheckBall true r in
  let r := set_gameState checkBall r in
  let r := set_shotClockActive false r in
  if (playerScore r >=? CONFIG.GAME.WIN_SCORE)%Z then set_gameState gameOver r
  else if (aiScore r >=? CONFIG.GAME.WIN_SCORE)%Z then set_gameState gameOver r
  else r.

Definition startLiveBall (r : t) : t :=
  let r := set_gameState liveBall r in
  let r := set_needsCheckBall false r in
  let r := set_shotClockActive true r in
  resetShotClock r.

Definition resetToCheckBall (r : t) : t :=
  let r := set_gameState checkBall r in
  let r := set_needsCheckBall true r in
  let r := set_shotClockActive false r in
  resetShotClock r.

Definition needsClearBall (ballX ballY : R) (r : t) : bool :=
  Physics.isThreePoint ballX ballY.

Definition getPossession (r : t) : Side.t := possession r.

Definition getGameState (r : t) : GameState := gameState r.

Definition getWinner (r : t) : option Side.t :=
  if negb (GameState_eqb (gameState r) gameOver) then None
  else if (playerScore r >=? CONFIG.GAME.WIN_SCORE)%Z then Some Side.player
  else if (aiScore r >=? CONFIG.GAME.WIN_SCORE)%Z then Some Side.ai
  else None.

Definition registerShotAttempt (team : Side.t) (r : t) : t :=
  let s := stats r in
  match team with
  | Side.player =>
      set_stats (mkStats (playerShots s + 1)%Z (playerMakes s) (aiShots s)
                   (aiMakes s) (fouls s)) r
  | Side.ai =>
      set_stats (mkStats (playerShots s) (playerMakes s) (aiShots s + 1)%Z
                   (aiMakes s) (fouls s)) r
  end.

Definition handleFoul (foulOn : Side.t) (r : t) : bool * t :=
  let st := stats r in
  let r :=
    set_stats (mkStats (playerShots st) (playerMakes st) (aiShots st) (aiMakes st)
                 (fouls st + 1)%Z) r in
  let r := set_gameState freeThrow r in
  let r := changePossession foulOn r in
  (true, r).

Definition processFreeThrow (made : bool) (r : t) : t :=
  let r :=
    if made then
      match possession r with
      | Side.player =>
          set_playerScore (playerScore r + CONFIG.GAME.FOUL_FREE_THROW_POINTS)%Z r
      | Side.ai =>
          set_aiScore (aiScore r + CONFIG.GAME.FOUL_FREE_THROW_POINTS)%Z r
      end
    else r in
  let r := set_gameState checkBall r in
  let r := set_needsCheckBall true r in
  if (playerScore r >=? CONFIG.GAME.WIN_SCORE)%Z ||
     (aiScore r >=? CONFIG.GAME.WIN_SCORE)%Z
  then set_gameState gameOver r
  else r.

Definition getPlayerAccuracy (r : t) : R :=
  if (playerShots (stats r) =? 0)%Z then 0
  else IZR (playerMakes (stats r)) / IZR (playerShots (stats r)).

Definition getAIAccuracy (r : t) : R :=
  if (aiShots (stats r) =? 0)%Z then 0
  else IZR (aiMakes (stats r)) / IZR (aiShots (stats r)).

Definition reset (r : t) : t :=
  let r := set_playerScore 0 r in
  let r := set_aiScore 0 r in
  let r := set_possession Side.player r in
  let r := set_needsCheckBall true r in
  let r := set_gameState checkBall r in
  let r := resetShotClock r in
  let r := set_shotClockActive false r in
  set_stats (mkStats 0 0 0 0 0) r.

End Rules.

(** ** game/AIController.js *)

Module AIController.

Inductive Behavior : Type :=
  | idle | attack_drive | attack_probe | shoot | layup
  | defend_press | defend_contest | rebound.

(** The controller's own fields; the [Player] it drives is passed along. *)
Record t : Type := mk {
  difficulty : string;
  params : CONFIG.Difficulty;
  state : Behavior;
  stateTime : R;
  decisionTimer : R;
  targetX : R;
  targetY : R
}.

Definition rimX : R := CONFIG.COURT.WIDTH / 2.
Definition rimY : R := CONFIG.COURT.BACKBOARD_DISTANCE.

Definition set_state v c := mk (difficulty c) (params c) v (stateTime c)
  (decisionTimer c) (targetX c) (targetY c).
Definition set_stateTime v c := mk (difficulty c) (params c) (state c) v
  (decisionTimer c) (targetX c) (targetY c).
Definition set_decisionTimer v c := mk (difficulty c) (params c) (state c)
  (stateTime c) v (targetX c) (targetY c).
Definition set_targetX v c := mk (difficulty c) (params c) (state c)
  (stateTime c) (decisionTimer c) v (targetY c).
Definition set_targetY v c := mk (difficulty c) (params c) (state c)
  (stateTime c) (decisionTimer c) (targetX c) v.

(** The values [Math.random()] returns to the controller in one update. *)
Record Random : Type := mkRandom {
  shootRoll : R;
  probeRoll : R
}.

Definition new (p : Player.t) (difficulty' : string) : t :=
  mk difficulty' (CONFIG.AI.DIFFICULTIES difficulty') idle 0 0
     (Player.x p) (Player.y p).

Definition calculateShootChance (distToRim distToOpponent : R) : R :=
  let chance := 3 / 10 in
  let chance :=
    if distToRim <? 4 then chance + 3 / 10
    else if distToRim <? 6 then chance + 2 / 10
    else chance in
  let chance := if distToOpponent >? 25 / 10 then chance + 2 / 10 else chance in
  Rmin chance (8 / 10).

Definition calculateOptimalPowerForDistance (distance : R) (c : t) : R :=
  let baseSpeed := Physics.calculateOptimalShotPower distance in
  let normalized :=
    baseSpeed /
    (CONFIG.BALL.SHOT_BASE_SPEED + 7 * CONFIG.BALL.SHOT_DISTANCE_FACTOR) in
  Rmin (normalized * CONFIG.SHOT_ACCURACY (params c)) CONFIG.BALL.MAX_SHOT_POWER.

(** [globalRandom.choice(angles)] with [angles = [-45, -30, 0, 30, 45]]. *)
Definition chooseProbeTarget (rnd : Random) (p : Player.t) (c : t) : t :=
  let angles := [-45; -30; 0; 30; 45] in
  let index := Z.to_nat (MathUtil.floor (probeRoll rnd * 5)) in
  let chosenAngle := nth index angles 0 * PI / 180 in
  let angleToRim := MathUtil.angleTo (Player.x p) (Player.y p) rimX rimY in
  let finalAngle := angleToRim + chosenAngle in
  let dist := 15 / 10 in
  let c := set_targetX (Player.x p + cos finalAngle * dist) c in
  set_targetY (Player.y p + sin finalAngle * dist) c.

Definition decideOffense (rnd : Random) (opponent : Player.t) (shotClock : xnum)
    (p : Player.t) (c : t) : t :=
  let distToRim := MathUtil.distance (Player.x p) (Player.y p) rimX rimY in
  let distToOpponent :=
    MathUtil.distance (Player.x p) (Player.y p) (Player.x opponent) (Player.y opponent) in
  if xltb shotClock CONFIG.AI.FORCE_SHOT_TIME then set_state shoot c
  else if (distToRim <? 2) && (distToOpponent >? 15 / 10) then set_state layup c
  else
    let isOpen := distToOpponent >? CONFIG.AI.CONTEST_DISTANCE in
    let inRange := distToRim <? 7 in
    if isOpen && inRange &&
       (shootRoll rnd <? calculateShootChance distToRim distToOpponent)
    then set_state shoot c
    else if distToRim >? 3 then
      let c := set_state attack_drive c in
      let c := set_targetX rimX c in
      set_targetY (rimY + 2) c
    else
      let c := set_state attack_probe c in
      chooseProbeTarget rnd p c.

Definition decideDefense (ball : Ball.t) (opponent : Player.t)
    (p : Player.t) (c : t) : t :=
  let distToOpponent :=
    MathUtil.distance (Player.x p) (Player.y p) (Player.x opponent) (Player.y opponent) in
  if Ball.State_eqb (Ball.state ball) Ball.free then
    let c := set_state rebound c in
    let c := set_targetX (Ball.x ball) c in
    set_targetY (Ball.y ball) c
  else if Player.hasBall opponent then
    if Player.shotCharging opponent then
      let c := set_state defend_contest c in
      let c := set_targetX (Player.x opponent) c in
      set_targetY (Player.y opponent) c
    else if distToOpponent >? CONFIG.AI.DEFENSE_PRESS_DISTANCE then
      let c := set_state defend_press c in
      let c := set_targetX (Player.x opponent) c in
      set_targetY (Player.y opponent) c
    else
      let c := set_state defend_press c in
      let angleToRim :=
        MathUtil.angleTo (Player.x opponent) (Player.y opponent) rimX rimY in
      let c := set_targetX (Player.x opponent + cos angleToRim * (12 / 10)) c in
      set_targetY (Player.y opponent + sin angleToRim * (12 / 10)) c
  else c.

Definition makeDecision (rnd : Random) (ball : Ball.t) (opponent : Player.t)
    (shotClock : xnum) (p : Player.t) (c : t) : t :=
  if Player.hasBall p then decideOffense rnd opponent shotClock p c
  else decideDefense ball opponent p c.

Definition moveToTarget (p : Player.t) (c : t) : Player.t :=
  let dist := MathUtil.distance (Player.x p) (Player.y p) (targetX c) (targetY c) in
  if dist <? 5 / 10 then p
  else
    let angle := MathUtil.angleTo (Player.x p) (Player.y p) (targetX c) (targetY c) in
    let dirX := cos angle in
    let dirY := sin angle in
    let p := Player.set_isSprinting (dist >? 3) p in
    Player.applyMovement dirX dirY p.

(** The shoot and layup protocols act on the controller, its player and
    the ball of the world. *)
Definition executeShoot (ball : Ball.t) (p : Player.t) (c : t)
    : t * Player.t * Ball.t :=
  if negb (Player.hasBall p) then (set_state idle c, p, ball)
  else
    let p :=
      if negb (Player.shotCharging p) then
        Player.startShot (MathUtil.angleTo (Player.x p) (Player.y p) rimX rimY) p
      else p in
    let distToRim := MathUtil.distance (Player.x p) (Player.y p) rimX rimY in
    let optimalPower := calculateOptimalPowerForDistance distToRim c in
    let p := Player.chargeShot (1 / 60) p in
    if Player.shotPower p >=? optimalPower - 1 / 10 then
      match Player.executeShot p with
      | (Some shotData, p) =>
          let ball :=
            Ball.release (Player.shot_vx shotData) (Player.shot_vy shotData)
              (Player.shot_vz shotData) ball in
          (set_state idle c, p, ball)
      | (None, p) => (c, p, ball)
      end
    else (c, p, ball).

Definition executeLayup (ball : Ball.t) (p : Player.t) (c : t)
    : t * Player.t * Ball.t :=
  if negb (Player.hasBall p) then (set_state idle c, p, ball)
  else
    let c := set_targetX rimX c in
    let c := set_targetY (rimY + 5 / 10) c in
    let p := moveToTarget p c in
    let distToRim := MathUtil.distance (Player.x p) (Player.y p) rimX rimY in
    if distToRim <? 15 / 10 then
      let p :=
        Player.startShot (MathUtil.angleTo (Player.x p) (Player.y p) rimX rimY) p in
      let p := Player.set_shotPower (6 / 10) p in
      match Player.executeShot p with
      | (Some shotData, p) =>
          let ball :=
            Ball.release (Player.shot_vx shotData) (Player.shot_vy shotData)
              (Player.shot_vz shotData) ball in
          (set_state idle c, p, ball)
      | (None, p) => (c, p, ball)
      end
    else (c, p, ball).

Definition executeState (dt : R) (ball : Ball.t) (p : Player.t) (c : t)
    : t * Player.t * Ball.t :=
  match state c with
  | attack_drive | attack_probe | defend_press | defend_contest | rebound =>
      (c, moveToTarget p c, ball)
  | shoot => executeShoot ball p c
  | layup => executeLayup ball p c
  | idle => (c, p, ball)
  end.

(** [world = {ball, opponent, shotClock}]; the opponent is only read. *)
Definition update (dt : R) (rnd : Random) (ball : Ball.t) (opponent : Player.t)
    (shotClock : xnum) (p : Player.t) (c : t) : t * Player.t * Ball.t :=
  let c := set_stateTime (stateTime c + dt) c in
  let c := set_decisionTimer (decisionTimer c - dt) c in
  let c :=
    if decisionTimer c <=? 0 then
      let c := makeDecision rnd ball opponent shotClock p c in
      set_decisionTimer (CONFIG.DECISION_DELAY (params c)) c
    else c in
  executeState dt ball p c.

End AIController.

(** ** scenes/GameScene.js *)

Module GameScene.

(** What the scene reads from [game.input] during one update. *)
Record Input : Type := mkInput {
  dirX : R;                  (* getMovementDirection().x *)
  dirY : R;                  (* getMovementDirection().y *)
  sprintPressed : bool;      (* isSprintPressed() *)
  pointerIsDown : bool;      (* pointer.isDown *)
  rightJustPressed : bool    (* pointer.rightJustPressed *)
}.

(** The values [Math.random()] returns during one update. *)
Record Random : Type := mkRandom {
  stealRoll : R;
  aiRandom : AIController.Random
}.

(** [null] and [undefined] timers are [None]. *)
Record t : Type := mk {
  player : Player.t;
  ai : Player.t;
  ball : Ball.t;
  aiController : AIController.t;
  rules : Rules.t;
  settings : GameSettings.t;
  outOfBoundsTimer : option R;
  checkBallTimer : option R;
  sneakerSoundTimer : R
}.

Definition set_player v s := mk v (ai s) (ball s) (aiController s) (rules s)
  (settings s) (outOfBoundsTimer s) (checkBallTimer s) (sneakerSoundTimer s).
Definition set_ai v s := mk (player s) v (ball s) (aiController s) (rules s)
  (settings s) (outOfBoundsTimer s) (checkBallTimer s) (sneakerSoundTimer s).
Definition set_ball v s := mk (player s) (ai s) v (aiController s) (rules s)
  (settings s) (outOfBoundsTimer s) (checkBallTimer s) (sneakerSoundTimer s).
Definition set_aiController v s := mk (player s) (ai s) (ball s) v (rules s)
  (settings s) (outOfBoundsTimer s) (checkBallTimer s) (sneakerSoundTimer s).
Definition set_rules v s := mk (player s) (ai s) (ball s) (aiController s) v
  (settings s) (outOfBoundsTimer s) (checkBallTimer s) (sneakerSoundTimer s).
Definition set_outOfBoundsTimer v s := mk (player s) (ai s) (ball s)
  (aiController s) (rules s) (settings s) v (checkBallTimer s) (sneakerSoundTimer s).
Definition set_checkBallTimer v s := mk (player s) (ai s) (ball s)
  (aiController s) (rules s) (settings s) (outOfBoundsTimer s) v (sneakerSoundTimer s).
Definition set_sneakerSoundTimer v s := mk (player s) (ai s) (ball s)
  (aiController s) (rules s) (settings s) (outOfBoundsTimer s) (checkBallTimer s) v.

Definition setupInitialPositions (s : t) : t :=
  let checkX := CONFIG.COURT.WIDTH / 2 in
  let checkY := CONFIG.COURT.FREE_THROW_DISTANCE + CONFIG.COURT.BACKBOARD_DISTANCE in
  let s := set_player (Player.set_hasBall false (player s)) s in
  let s := set_ai (Player.set_hasBall false (ai s)) s in
  let currentPossession := Rules.getPossession (rules s) in
  match currentPossession with
  | Side.player =>
      let s := set_player (Player.set_x checkX (player s)) s in
      let s := set_player (Player.set_y (checkY + 2) (player s)) s in
      let s := set_ai (Player.set_x checkX (ai s)) s in
      let s := set_ai (Player.set_y (checkY - 2) (ai s)) s in
      let s := set_player (Player.set_hasBall true (player s)) s in
      let '(bx, by_, _) := Player.getBallPosition (player s) in
      set_ball (Ball.attachTo Side.player bx by_ (ball s)) s
  | Side.ai =>
      let s := set_ai (Player.set_x checkX (ai s)) s in
      let s := set_ai (Player.set_y (checkY + 2) (ai s)) s in
      let s := set_player (Player.set_x checkX (player s)) s in
      let s := set_player (Player.set_y (checkY - 2) (player s)) s in
      let s := set_ai (Player.set_hasBall true (ai s)) s in
      let '(bx, by_, _) := Player.getBallPosition (ai s) in
      set_ball (Ball.attachTo Side.ai bx by_ (ball s)) s
  end.

(** [createEntities], [new Rules], [setupInitialPositions] and the timers
    of [enter].  [checkBallTimer] is not assigned by [enter]: it keeps the
    value the scene object had. *)
Definition enter (settings' : GameSettings.t) (checkBallTimer' : option R) : t :=
  let player' :=
    Player.new Side.player Side.player (CONFIG.COURT.WIDTH / 2)
      (CONFIG.COURT.LENGTH * (7 / 10)) in
  let ai' :=
    Player.new Side.ai Side.ai (CONFIG.COURT.WIDTH / 2)
      (CONFIG.COURT.LENGTH * (3 / 10)) in
  let aiController' := AIController.new ai' (GameSettings.difficulty settings') in
  let s :=
    mk player' ai' Ball.new aiController' (Rules.new settings') settings'
       None checkBallTimer' 0 in
  let s := setupInitialPositions s in
  let s := set_outOfBoundsTimer None s in
  set_sneakerSoundTimer 0 s.

(** The successful branch of the steal, in [handlePlayerInput]. *)
Definition stealSucceeded (s : t) : t :=
  let s := set_ai (Player.set_hasBall false (ai s)) s in
  let s := set_player (Player.set_hasBall true (player s)) s in
  let s := set_ball (Ball.set_state Ball.held (ball s)) s in
  set_ball (Ball.set_holderId (Some Side.player) (ball s)) s.

(** The four blocks of [handlePlayerInput], in source order: movement,
  sprint, shot (left button), step-back or steal (right button). *)
Definition inputMovement (dt : R) (input : Input) (s : t) : t :=
  if negb (dirX input =? 0) || negb (dirY input =? 0) then
    let s := set_player (Player.applyMovement (dirX input) (dirY input) (player s)) s in
    let s := set_sneakerSoundTimer (sneakerSoundTimer s - dt) s in
    if sneakerSoundTimer s <=? 0 then set_sneakerSoundTimer (12 / 10) s else s
  else set_sneakerSoundTimer 0 s.

Definition inputSprint (input : Input) (s : t) : t :=
  set_player
    (Player.set_isSprinting
       (sprintPressed input &&
        (Player.stamina (player s) >? CONFIG.PLAYER.STAMINA_MIN_FOR_SPRINT))
       (player s)) s.

Definition inputShot (dt : R) (input : Input) (s : t) : t :=
  if Player.hasBall (player s) then
    let s :=
      if pointerIsDown input && negb (Player.shotCharging (player s)) then
        let angleToRim :=
          MathUtil.atan2 (Ball.rimY - Player.y (player s))
            (Ball.rimX - Player.x (player s)) in
        set_player (Player.startShot angleToRim (player s)) s
      else s in
    if Player.shotCharging (player s) then
      if pointerIsDown input then
        set_player (Player.chargeShot dt (player s)) s
      else
        match Player.executeShot (player s) with
        | (Some shotData, p) =>
            let s := set_player p s in
            let s := set_rules (Rules.registerShotAttempt Side.player (rules s)) s in
            set_ball
              (Ball.release (Player.shot_vx shotData) (Player.shot_vy shotData)
                 (Player.shot_vz shotData) (ball s)) s
        | (None, p) => set_player p s
        end
    else s
  else s.

Definition inputRightClick (input : Input) (rnd : Random) (s : t) : t :=
  if rightJustPressed input then
    if Player.hasBall (player s) then
      let '(_, p) := Player.performStepBack (player s) in
      set_player p s
    else
      let '(success, p) := Player.attemptSteal (stealRoll rnd) (ai s) (player s) in
      let s := set_player p s in
      if success then stealSucceeded s else s
  else s.

Definition handlePlayerInput (dt : R) (input : Input) (rnd : Random) (s : t) : t :=
  let s := inputMovement dt input s in
  let s := inputSprint input s in
  let s := inputShot dt input s in
  inputRightClick input rnd s.

Definition updateBallPosition (s : t) : t :=
  if Player.hasBall (player s) && Ball.State_eqb (Ball.state (ball s)) Ball.held then
    let '(px, py, _) := Player.getBallPosition (player s) in
    let s := set_ball (Ball.set_x px (ball s)) s in
    set_ball (Ball.set_y py (ball s)) s
  else if Player.hasBall (ai s) && Ball.State_eqb (Ball.state (ball s)) Ball.held then
    let '(px, py, _) := Player.getBallPosition (ai s) in
    let s := set_ball (Ball.set_x px (ball s)) s in
    set_ball (Ball.set_y py (ball s)) s
  else if Player.hasBall (player s) &&
          negb (Ball.State_eqb (Ball.state (ball s)) Ball.held) then
    let '(px, py, _) := Player.getBallPosition (player s) in
    set_ball (Ball.attachTo Side.player px py (ball s)) s
  else if Player.hasBall (ai s) &&
          negb (Ball.State_eqb (Ball.state (ball s)) Ball.held) then
    let '(px, py, _) := Player.getBallPosition (ai s) in
    set_ball (Ball.attachTo Side.ai px py (ball s)) s
  else s.

(** The two pickup tests of [handleBallPickup], in source order. *)
Definition pickupByPlayer (s : t) : t :=
  let s := set_player (Player.set_hasBall true (player s)) s in
  let s := set_ai (Player.set_hasBall false (ai s)) s in
  let s := set_ball (Ball.set_state Ball.held (ball s)) s in
  let s := set_ball (Ball.set_holderId (Some Side.player) (ball s)) s in
  let s := set_ball (Ball.set_isOutOfBounds false (ball s)) s in
  if negb (Side.eqb (Rules.getPossession (rules s)) Side.player)
  then set_rules (Rules.changePossession Side.player (rules s)) s
  else s.

Definition pickupByAI (s : t) : t :=
  let s := set_ai (Player.set_hasBall true (ai s)) s in
  let s := set_player (Player.set_hasBall false (player s)) s in
  let s := set_ball (Ball.set_state Ball.held (ball s)) s in
  let s := set_ball (Ball.set_holderId (Some Side.ai) (ball s)) s in
  let s := set_ball (Ball.set_isOutOfBounds false (ball s)) s in
  if negb (Side.eqb (Rules.getPossession (rules s)) Side.ai)
  then set_rules (Rules.changePossession Side.ai (rules s)) s
  else s.

Definition handleBallPickup (s : t) : t :=
  let pickupRadius := CONFIG.PLAYER.RADIUS * 3 in
  let distToPlayer :=
    MathUtil.distance (Ball.x (ball s)) (Ball.y (ball s))
      (Player.x (player s)) (Player.y (player s)) in
  let s := if distToPlayer <? pickupRadius then pickupByPlayer s else s in
  let distToAI :=
    MathUtil.distance (Ball.x (ball s)) (Ball.y (ball s))
      (Player.x (ai s)) (Player.y (ai s)) in
  if distToAI <? pickupRadius then pickupByAI s else s.

(** [aiController.update(dt, {ball, opponent: player, shotClock})] *)
Definition updateAI (dt : R) (rnd : Random) (s : t) : t :=
  let '(c, a, b) :=
    AIController.update dt (aiRandom rnd) (ball s) (player s)
      (Rules.shotClock (rules s)) (ai s) (aiController s) in
  let s := set_aiController c s in
  let s := set_ai a s in
  set_ball b s.

(** The AI in [checkBall]: the controller when the AI has possession, a
  scripted defensive position otherwise. *)
Definition checkBallAI (dt : R) (rnd : Random) (s : t) : t :=
  match Rules.getPossession (rules s) with
  | Side.ai => updateAI dt rnd s
  | Side.player =>
      let defenseX := CONFIG.COURT.WIDTH / 2 in
      let defenseY := CONFIG.COURT.BACKBOARD_DISTANCE + 3 in
      let dist :=
        MathUtil.distance (Player.x (ai s)) (Player.y (ai s)) defenseX defenseY in
      if dist >? 5 / 10 then
        let angle :=
          MathUtil.atan2 (defenseY - Player.y (ai s)) (defenseX - Player.x (ai s)) in
        set_ai (Player.applyMovement (cos angle) (sin angle) (ai s)) s
      else s
  end.

(** [player.update(dt); ai.update(dt)] *)
Definition updatePlayers (dt : R) (s : t) : t :=
  let s := set_player (Player.update dt (player s)) s in
  set_ai (Player.update dt (ai s)) s.

(** [clampToCourtBounds(player); clampToCourtBounds(ai)] *)
Definition clampPlayers (s : t) : t :=
  let s := set_player (Physics.clampToCourtBounds (player s)) s in
  set_ai (Physics.clampToCourtBounds (ai s)) s.

(** The wait of [checkBall] for the ball-handler's first move, or for the
  AI's delay of one second. *)
Definition checkBallStart (dt : R) (s : t) : t :=
  if Side.eqb (Rules.getPossession (rules s)) Side.player &&
     Player.hasBall (player s) then
    let speed :=
      sqrt (Player.vx (player s) * Player.vx (player s) +
            Player.vy (player s) * Player.vy (player s)) in
    if speed >? 5 / 10 then set_rules (Rules.startLiveBall (rules s)) s else s
  else if Side.eqb (Rules.getPossession (rules s)) Side.ai &&
          Player.hasBall (ai s) then
    let timer :=
      match checkBallTimer s with
      | None => 1
      | Some v => v
      end in
    let timer := timer - dt in
    if timer <=? 0 then
      let s := set_rules (Rules.startLiveBall (rules s)) s in
      set_checkBallTimer None s
    else set_checkBallTimer (Some timer) s
  else s.

(** [ball.update(dt, audio)] *)
Definition updateBall (dt : R) (s : t) : t :=
  set_ball (Ball.update dt (ball s)) s.

(** [if (ball.state === 'free') handleBallPickup()] *)
Definition pickupIfFree (s : t) : t :=
  if Ball.State_eqb (Ball.state (ball s)) Ball.free then handleBallPickup s else s.

Definition handleCheckBall (dt : R) (input : Input) (rnd : Random) (s : t) : t :=
  let s := handlePlayerInput dt input rnd s in
  let s := checkBallAI dt rnd s in
  let s := updatePlayers dt s in
  let s := clampPlayers s in
  let s := checkBallStart dt s in
  let s := updateBallPosition s in
  let s := updateBall dt s in
  pickupIfFree s.

(** The expiry branch of the out-of-bounds countdown. *)
Definition outOfBoundsExpired (s : t) : t :=
  let lastPossession :=
    match Ball.holderId (ball s) with
    | Some h => h
    | None => Rules.getPossession (rules s)
    end in
  let newPossession := Side.other lastPossession in
  let s := set_rules (Rules.changePossession newPossession (rules s)) s in
  let s := set_player (Player.set_hasBall false (player s)) s in
  let s := set_ai (Player.set_hasBall false (ai s)) s in
  let s := setupInitialPositions s in
  set_outOfBoundsTimer None s.

(** The scoring branch of [handleLiveBall]. *)
Definition scored (s : t) : t :=
  let shooter :=
    match Ball.holderId (ball s) with
    | Some h => h
    | None => if Player.hasBall (player s) then Side.player else Side.ai
    end in
  let shooterEntity :=
    match shooter with
    | Side.player => player s
    | Side.ai => ai s
    end in
  let s :=
    set_rules
      (Rules.scorePoints shooter (Player.x shooterEntity) (Player.y shooterEntity)
         (rules s)) s in
  let s := set_player (Player.set_hasBall false (player s)) s in
  let s := set_ai (Player.set_hasBall false (ai s)) s in
  let s := set_outOfBoundsTimer None s in
  setupInitialPositions s.

(** The scoring test and the pickup test that end [handleLiveBall]. *)
Definition scoreOrPickup (s : t) : t :=
  if Ball.isScore (ball s) then scored s
  else pickupIfFree s.

(** The part of [handleLiveBall] from the out-of-bounds test on: the
  countdown starts at 3 s on the first tick with the flag set, runs down
  on the following ones, and is dropped when the flag is clear.  The
  expiry branch returns from [handleLiveBall]. *)
Definition liveBallChecks (dt : R) (s : t) : t :=
  if Ball.isOutOfBounds (ball s) then
    match outOfBoundsTimer s with
    | None => scoreOrPickup (set_outOfBoundsTimer (Some 3) s)
    | Some timer =>
        let s := set_outOfBoundsTimer (Some (timer - dt)) s in
        if timer - dt <=? 0 then outOfBoundsExpired s
        else scoreOrPickup s
    end
  else
    match outOfBoundsTimer s with
    | Some _ => scoreOrPickup (set_outOfBoundsTimer None s)
    | None => scoreOrPickup s
    end.

(** [if (checkPlayerCollision(player, ai)) resolvePlayerCollision(player, ai)] *)
Definition collidePlayers (s : t) : t :=
  if Physics.checkPlayerCollision (player s) (ai s) then
    match Physics.resolvePlayerCollision (player s) (ai s) with
    | Some (p, a) => set_ai a (set_player p s)
    | None => s
    end
  else s.

Definition handleLiveBall (dt : R) (input : Input) (rnd : Random) (s : t) : t :=
  let s := handlePlayerInput dt input rnd s in
  let s := updateAI dt rnd s in
  let s := updatePlayers dt s in
  let s := collidePlayers s in
  let s := clampPlayers s in
  let s := updateBallPosition s in
  let s := updateBall dt s in
  liveBallChecks dt s.

(** One fixed-step tick. In [gameOver] the scene only asks for the switch
    to the game-over scene. *)
Definition update (dt : R) (input : Input) (rnd : Random) (s : t) : t :=
  if Rules.GameState_eqb (Rules.getGameState (rules s)) Rules.gameOver then s
  else
    let prevState := Rules.getGameState (rules s) in
    let s := set_rules (Rules.update dt (rules s)) s in
    let s :=
      if Rules.GameState_eqb prevState Rules.liveBall &&
         Rules.GameState_eqb (Rules.getGameState (rules s)) Rules.checkBall
      then setupInitialPositions s
      else s in
    match Rules.getGameState (rules s) with
    | Rules.checkBall => handleCheckBall dt input rnd s
    | Rules.liveBall => handleLiveBall dt input rnd s
    | _ => s
    end.

(** [handlePause] on the key [R]: the manual reset. *)
Definition handleKeyR (s : t) : t :=
  let lastPossession :=
    if Player.hasBall (player s) then Side.player
    else if Player.hasBall (ai s) then Side.ai
    else match Ball.holderId (ball s) with
         | Some h => h
         | None =>
             if Ball.State_eqb (Ball.state (ball s)) Ball.held then
               let distToPlayer :=
                 sqrt ((Ball.x (ball s) - Player.x (player s)) ^ 2 +
                       (Ball.y (ball s) - Player.y (player s)) ^ 2) in
               let distToAI :=
                 sqrt ((Ball.x (ball s) - Player.x (ai s)) ^ 2 +
                       (Ball.y (ball s) - Player.y (ai s)) ^ 2) in
               if distToPlayer <? distToAI then Side.player else Side.ai
             else Rules.getPossession (rules s)
         end in
  let newPossession := Side.other lastPossession in
  let currentPossession := newPossession in
  let s := set_player (Player.set_hasBall false (player s)) s in
  let s := set_ai (Player.set_hasBall false (ai s)) s in
  let s := set_player (Player.set_vx 0 (player s)) s in
  let s := set_player (Player.set_vy 0 (player s)) s in
  let s := set_ai (Player.set_vx 0 (ai s)) s in
  let s := set_ai (Player.set_vy 0 (ai s)) s in
  let s := set_ball (Ball.set_vx 0 (ball s)) s in
  let s := set_ball (Ball.set_vy 0 (ball s)) s in
  let s := set_ball (Ball.set_vz 0 (ball s)) s in
  let s := set_ball (Ball.set_isOutOfBounds false (ball s)) s in
  let s := set_ball (Ball.set_hasScored false (ball s)) s in
  let s := set_rules (Rules.set_possession currentPossession (rules s)) s in
  let s := set_rules (Rules.resetToCheckBall (rules s)) s in
  let s :=
    match currentPossession with
    | Side.player =>
        let s := set_player (Player.set_hasBall true (player s)) s in
        let '(bx, by_, _) := Player.getBallPosition (player s) in
        set_ball (Ball.attachTo Side.player bx by_ (ball s)) s
    | Side.ai =>
        let s := set_ai (Player.set_hasBall true (ai s)) s in
        let '(bx, by_, _) := Player.getBallPosition (ai s) in
        set_ball (Ball.attachTo Side.ai bx by_ (ball s)) s
    end in
  let s := set_checkBallTimer None s in
  set_outOfBoundsTimer None s.

End GameScene.

(** ** core/GameLoop.js *)

Module GameLoop.

(** The timing fields of the loop. *)
Record t : Type := mk {
  lastTime : R;
  accumulator : R
}.

Definition fixedDelta : R := CONFIG.PHYSICS.FIXED_TIMESTEP.
Definition maxAccumulator : R := CONFIG.PHYSICS.MAX_ACCUMULATOR.

Section Loop.

(** The state [updateFn] works on, and [updateFn] itself. *)
Variable World : Type.
Variable updateFn : R -> World -> World.

(** [while (accumulator >= fixedDelta) { updateFn(fixedDelta); accumulator -= fixedDelta; }]
    with a bound on the number of iterations: [None] when the bound is
    reached with the loop still running.  The result counts the calls of
    [updateFn]. *)
Fixpoint drain (fuel : nat) (acc : R) (w : World) : option (nat * R * World) :=
  if acc >=? fixedDelta then
    match fuel with
    | O => None
    | S fuel' =>
        match drain fuel' (acc - fixedDelta) (updateFn fixedDelta w) with
        | Some (n, acc', w') => Some (S n, acc', w')
        | None => None
        end
    end
  else Some (O, acc, w).

(** [loop(currentTime)] of a running loop, up to the render call: the
    number of ticks run, the loop afterwards, the world afterwards and the
    interpolation factor [alpha]. *)
Definition loop (fuel : nat) (currentTime : R) (l : t) (w : World)
    : option (nat * t * World * R) :=
  let deltaTime := (currentTime - lastTime l) / 1000 in
  let deltaTime := if deltaTime >? maxAccumulator then maxAccumulator else deltaTime in
  match drain fuel (accumulator l + deltaTime) w with
  | Some (n, acc, w') => Some (n, mk currentTime acc, w', acc / fixedDelta)
  | None => None
  end.

End Loop.

End GameLoop.

(** ** core/InputManager.js, the keyboard part *)

Module InputManager.

(** [keys]: the codes of the keys that are down. *)
Definition Keys : Type := list string.

Definition has (key : string) (keys : Keys) : bool :=
  existsb (String.eqb key) keys.

(** [handleKeyDown] and [handleKeyUp] on [keys]. *)
Definition handleKeyDown (key : string) (keys : Keys) : Keys :=
  if negb (has key keys) then key :: keys else keys.

Definition handleKeyUp (key : string) (keys : Keys) : Keys :=
  filter (fun k => negb (String.eqb key k)) keys.

Definition isAnyKeyDown (keyCodes : list string) (keys : Keys) : bool :=
  existsb (fun key => has key keys) keyCodes.

Definition isUpPressed (keys : Keys) : bool := isAnyKeyDown ["KeyW"; "ArrowUp"]%string keys.
Definition isDownPressed (keys : Keys) : bool := isAnyKeyDown ["KeyS"; "ArrowDown"]%string keys.
Definition isLeftPressed (keys : Keys) : bool := isAnyKeyDown ["KeyA"; "ArrowLeft"]%string keys.
Definition isRightPressed (keys : Keys) : bool := isAnyKeyDown ["KeyD"; "ArrowRight"]%string keys.
Definition isSprintPressed (keys : Keys) : bool :=
  isAnyKeyDown ["ShiftLeft"; "ShiftRight"]%string keys.

Definition getMovementDirection (keys : Keys) : R * R :=
  let x := 0 in
  let y := 0 in
  let x := if isLeftPressed keys then x - 1 else x in
  let x := if isRightPressed keys then x + 1 else x in
  let y := if isUpPressed keys then y - 1 else y in
  let y := if isDownPressed keys then y + 1 else y in
  if negb (x =? 0) && negb (y =? 0) then
    let len := sqrt (x * x + y * y) in
    (x / len, y / len)
  else (x, y).

End InputManager.

(** ** core/Math.js, the seeded generator *)

Module Random.

(** [ToInt32] and [ToUint32] on integers. *)
Definition toInt32 (z : Z) : Z := ((z + 2 ^ 31) mod 2 ^ 32 - 2 ^ 31)%Z.
Definition toUint32 (z : Z) : Z := (z mod 2 ^ 32)%Z.

(** [a ^ (a << n)] and [a ^ (a >> n)] on a 32-bit signed [a]. *)
Definition xorShiftLeft (a : Z) (n : Z) : Z :=
  Z.lxor (toInt32 a) (toInt32 (Z.shiftl (toInt32 a) n)).
Definition xorShiftRight (a : Z) (n : Z) : Z :=
  Z.lxor (toInt32 a) (Z.shiftr (toInt32 a) n).

(** The generator's [state] (its [seed] field is never read again). *)
Definition t : Type := Z.

Definition new (seed : Z) : t := seed.

(** [next()]: the value returned and the generator afterwards. *)
Definition next (g : t) : R * t :=
  let x := g in
  let x := xorShiftLeft x 13 in
  let x := xorShiftRight x 17 in
  let x := xorShiftLeft x 5 in
  (IZR (toUint32 x) / IZR 4294967295, x).

(** [int(min, max)] *)
Definition int (min max : Z) (g : t) : Z * t :=
  let '(u, g') := next g in
  ((MathUtil.floor (u * IZR (max - min + 1)) + min)%Z, g').

(** [float(min, max)] *)
Definition float (min max : R) (g : t) : R * t :=
  let '(u, g') := next g in
  (u * (max - min) + min, g').

(** [bool(probability)] *)
Definition bool_ (probability : R) (g : t) : bool * t :=
  let '(u, g') := next g in
  (u <? probability, g').

End Random.

(** * Properties *)

(** ** Reflection of the boolean comparisons *)

Lemma Rltb_true (a b : R) : (a <? b) = true <-> a < b.
Proof. unfold Rltb; destruct (Rlt_dec a b); split; intros; try easy. Qed.

Lemma Rltb_false (a b : R) : (a <? b) = false <-> b <= a.
Proof.
  unfold Rltb; destruct (Rlt_dec a b); split; intros; try easy; lra.
Qed.

Lemma Rleb_true (a b : R) : (a <=? b) = true <-> a <= b.
Proof. unfold Rleb; destruct (Rle_dec a b); split; intros; try easy. Qed.

Lemma Rleb_false (a b : R) : (a <=? b) = false <-> b < a.
Proof.
  unfold Rleb; destruct (Rle_dec a b); split; intros; try easy; lra.
Qed.

Lemma Reqb_true (a b : R) : (a =? b) = true <-> a = b.
Proof. unfold Reqb; destruct (Req_dec_T a b); split; intros; try easy. Qed.

Lemma Reqb_false (a b : R) : (a =? b) = false <-> a <> b.
Proof. unfold Reqb; destruct (Req_dec_T a b); split; intros; try easy. Qed.

(** Turns the boolean tests among the hypotheses and in the goal into
    propositions on reals. *)
Ltac reflect_tests :=
  repeat match goal with
  | H : (_ <? _) = true |- _ => apply Rltb_true in H
  | H : (_ <? _) = false |- _ => apply Rltb_false in H
  | H : (_ <=? _) = true |- _ => apply Rleb_true in H
  | H : (_ <=? _) = false |- _ => apply Rleb_false in H
  | H : (_ =? _) = true |- _ => apply Reqb_true in H
  | H : (_ =? _) = false |- _ => apply Reqb_false in H
  | H : (_ && _) = true |- _ => apply andb_true_iff in H; destruct H
  | H : (_ || _) = false |- _ => apply orb_false_iff in H; destruct H
  | H : negb _ = true |- _ => apply negb_true_iff in H
  | H : negb _ = false |- _ => apply negb_false_iff in H
  end.

(** ** Distances *)

Lemma distance_nonneg (x1 y1 x2 y2 : R) : 0 <= MathUtil.distance x1 y1 x2 y2.
Proof. unfold MathUtil.distance; apply sqrt_pos. Qed.

Lemma distance_sqr (x1 y1 x2 y2 : R) :
  MathUtil.distance x1 y1 x2 y2 * MathUtil.distance x1 y1 x2 y2 =
  (x2 - x1) * (x2 - x1) + (y2 - y1) * (y2 - y1).
Proof.
  unfold MathUtil.distance; cbv zeta; apply sqrt_sqrt.
  pose proof (Rle_0_sqr (x2 - x1)) as Hx; pose proof (Rle_0_sqr (y2 - y1)) as Hy.
  unfold Rsqr in Hx, Hy; lra.
Qed.

(** A distance whose square is known. *)
Lemma distance_of_square (x1 y1 x2 y2 d : R) :
  0 <= d ->
  (x2 - x1) * (x2 - x1) + (y2 - y1) * (y2 - y1) = d * d ->
  MathUtil.distance x1 y1 x2 y2 = d.
Proof.
  intros Hd Hsq; unfold MathUtil.distance; cbv zeta.
  rewrite Hsq; apply sqrt_square; exact Hd.
Qed.

Lemma distance_same (x1 y1 : R) : MathUtil.distance x1 y1 x1 y1 = 0.
Proof. apply distance_of_square; lra. Qed.

(** ** Player-player collision (Physics.resolvePlayerCollision) *)

Section Collision.

Variables p1 p2 : Player.t.

Let dist : R :=
    MathUtil.distance (Player.x p1) (Player.y p1) (Player.x p2) (Player.y p2).
Let minDist : R := CONFIG.PLAYER.RADIUS * 2.

(** The players after the push: each moved by half the overlap along the
      unit normal from [p1] to [p2], in opposite directions. *)
Definition pushedApart : Player.t * Player.t :=
    let nx := (Player.x p2 - Player.x p1) / dist in
    let ny := (Player.y p2 - Player.y p1) / dist in
    let half := (minDist - dist) / 2 in
    (Player.set_y (Player.y p1 - ny * half) (Player.set_x (Player.x p1 - nx * half) p1),
     Player.set_y (Player.y p2 + ny * half) (Player.set_x (Player.x p2 + nx * half) p2)).

Lemma resolve_not_overlapping :
    minDist <= dist -> Physics.resolvePlayerCollision p1 p2 = Some (p1, p2).
Proof.
    intros Hge. unfold Physics.resolvePlayerCollision; cbn.
    fold dist. fold minDist.
    replace (dist <? minDist) with false; [reflexivity|].
    symmetry; apply Rltb_false; exact Hge.
Qed.

Lemma resolve_same_position :
    dist = 0 -> Physics.resolvePlayerCollision p1 p2 = Some (p1, p2).
Proof.
    intros H0. unfold Physics.resolvePlayerCollision; cbn.
    fold dist. rewrite H0.
    replace (0 <? 0) with false; [rewrite andb_false_r; reflexivity|].
    symmetry; apply Rltb_false; lra.
Qed.

Lemma resolve_overlapping :
    0 < dist < minDist -> Physics.resolvePlayerCollision p1 p2 = Some pushedApart.
Proof.
    intros [Hpos Hlt]. unfold Physics.resolvePlayerCollision, pushedApart; cbn.
    fold dist. fold minDist.
    replace (dist <? minDist) with true by (symmetry; apply Rltb_true; exact Hlt).
    replace (0 <? dist) with true by (symmetry; apply Rltb_true; exact Hpos).
    cbn. unfold checked_div.
    replace (dist =? 0) with false by (symmetry; apply Reqb_false; lra).
    do 2 f_equal; unfold Player.set_x, Player.set_y; cbn; f_equal; field; lra.
Qed.

Lemma pushedApart_distance :
    0 < dist ->
    MathUtil.distance (Player.x (fst pushedApart)) (Player.y (fst pushedApart))
      (Player.x (snd pushedApart)) (Player.y (snd pushedApart)) = minDist.
Proof.
    intros Hpos. unfold pushedApart; cbn.
    assert (Hsq := distance_sqr (Player.x p1) (Player.y p1) (Player.x p2) (Player.y p2)).
    fold dist in Hsq.
    apply distance_of_square.
    - unfold minDist, CONFIG.PLAYER.RADIUS; lra.
    - set (dx := Player.x p2 - Player.x p1) in *.
      set (dy := Player.y p2 - Player.y p1) in *.
      transitivity ((dx * dx + dy * dy) * (minDist * minDist) / (dist * dist)).
      + unfold dx, dy; field; lra.
      + rewrite <- Hsq; field; lra.
Qed.

Lemma pushedApart_midpoint :
    Player.x (fst pushedApart) + Player.x (snd pushedApart) = Player.x p1 + Player.x p2 /\
    Player.y (fst pushedApart) + Player.y (snd pushedApart) = Player.y p1 + Player.y p2.
Proof. unfold pushedApart; cbn; split; ring. Qed.

End Collision.

(** C9. [resolvePlayerCollision] is total and guarded: it never divides by
    zero ([None] is never returned); two players at the same position
    (distance 0) are left as they are; with [0 < distance < 2 * RADIUS] each
    player is moved by half the overlap along the connecting normal, in
    opposite directions, so that afterwards their distance is exactly
    [2 * RADIUS] and the sum of their positions (twice the midpoint) is
    unchanged; with [distance >= 2 * RADIUS] nothing changes. *)
Theorem resolvePlayerCollision_guarded (p1 p2 : Player.t) :
  let dist :=
    MathUtil.distance (Player.x p1) (Player.y p1) (Player.x p2) (Player.y p2) in
  let minDist := CONFIG.PLAYER.RADIUS * 2 in
  (exists r, Physics.resolvePlayerCollision p1 p2 = Some r) /\
  (dist = 0 -> Physics.resolvePlayerCollision p1 p2 = Some (p1, p2)) /\
  (0 < dist < minDist ->
   exists p1' p2',
     Physics.resolvePlayerCollision p1 p2 = Some (p1', p2') /\
     (p1', p2') = pushedApart p1 p2 /\
     MathUtil.distance (Player.x p1') (Player.y p1') (Player.x p2') (Player.y p2')
       = minDist /\
     Player.x p1' + Player.x p2' = Player.x p1 + Player.x p2 /\
     Player.y p1' + Player.y p2' = Player.y p1 + Player.y p2) /\
  (minDist <= dist -> Physics.resolvePlayerCollision p1 p2 = Some (p1, p2)).
Proof.
  intros dist minDist.
  assert (Hsame : dist = 0 -> Physics.resolvePlayerCollision p1 p2 = Some (p1, p2))
    by apply resolve_same_position.
  assert (Hfar : minDist <= dist ->
                 Physics.resolvePlayerCollision p1 p2 = Some (p1, p2))
    by apply resolve_not_overlapping.
  assert (Hpush : 0 < dist < minDist ->
                  Physics.resolvePlayerCollision p1 p2 = Some (pushedApart p1 p2))
    by apply resolve_overlapping.
  repeat split; try assumption.
  - destruct (Rlt_le_dec dist minDist) as [Hlt | Hge].
    + destruct (Rle_lt_or_eq_dec 0 dist (distance_nonneg _ _ _ _)) as [Hpos | Hz].
      * eexists; apply Hpush; split; assumption.
      * eexists; apply Hsame; symmetry; exact Hz.
    + eexists; apply Hfar; exact Hge.
  - intros Hin.
    exists (fst (pushedApart p1 p2)), (snd (pushedApart p1 p2)).
    rewrite <- surjective_pairing.
    split; [apply Hpush; exact Hin|].
    split; [reflexivity|].
    split; [apply pushedApart_distance; apply Hin|].
    apply pushedApart_midpoint.
Qed.

(** The theorem at three pairs of players: overlapping at distance 1/2,
    at the same position, and apart at distance 5. *)
Lemma resolvePlayerCollision_guarded_witness :
  let a := Player.new Side.player Side.player 0 0 in
  let b := Player.new Side.ai Side.ai (3 / 10) (4 / 10) in
  let c := Player.new Side.ai Side.ai 3 4 in
  (exists a' b',
     Physics.resolvePlayerCollision a b = Some (a', b') /\
     MathUtil.distance (Player.x a') (Player.y a') (Player.x b') (Player.y b')
       = CONFIG.PLAYER.RADIUS * 2) /\
  Physics.resolvePlayerCollision a a = Some (a, a) /\
  Physics.resolvePlayerCollision a c = Some (a, c).
Proof.
  intros a b c.
  assert (Hab : MathUtil.distance (Player.x a) (Player.y a) (Player.x b) (Player.y b)
                = 1 / 2) by (apply distance_of_square; cbn; lra).
  assert (Hac : MathUtil.distance (Player.x a) (Player.y a) (Player.x c) (Player.y c)
                = 5) by (apply distance_of_square; cbn; lra).
  split; [|split].
  - destruct (resolvePlayerCollision_guarded a b) as (_ & _ & Hpush & _).
    destruct Hpush as (a' & b' & Hres & _ & Hdist & _).
    + rewrite Hab; unfold CONFIG.PLAYER.RADIUS; lra.
    + exists a', b'; split; assumption.
  - destruct (resolvePlayerCollision_guarded a a) as (_ & Hsame & _).
    apply Hsame; apply distance_same.
  - destruct (resolvePlayerCollision_guarded a c) as (_ & _ & _ & Hfar).
    apply Hfar; rewrite Hac; unfold CONFIG.PLAYER.RADIUS; lra.
Defined.

(** ** Free-ball pickup (GameScene.handleBallPickup) *)

Lemma pickupByPlayer_positions (s : GameScene.t) :
  let s' := GameScene.pickupByPlayer s in
  Ball.x (GameScene.ball s') = Ball.x (GameScene.ball s) /\
  Ball.y (GameScene.ball s') = Ball.y (GameScene.ball s) /\
  Player.x (GameScene.ai s') = Player.x (GameScene.ai s) /\
  Player.y (GameScene.ai s') = Player.y (GameScene.ai s).
Proof.
  unfold GameScene.pickupByPlayer; cbn.
  destruct (Side.eqb _ _); cbn; repeat split; reflexivity.
Qed.

Lemma pickupByAI_holder (s : GameScene.t) :
  let s' := GameScene.pickupByAI s in
  Player.hasBall (GameScene.ai s') = true /\
  Player.hasBall (GameScene.player s') = false /\
  Ball.state (GameScene.ball s') = Ball.held /\
  Ball.holderId (GameScene.ball s') = Some Side.ai.
Proof.
  unfold GameScene.pickupByAI; cbn.
  destruct (Side.eqb _ _); cbn; repeat split; reflexivity.
Qed.

Lemma pickupByPlayer_holder (s : GameScene.t) :
  let s' := GameScene.pickupByPlayer s in
  Player.hasBall (GameScene.player s') = true /\
  Player.hasBall (GameScene.ai s') = false /\
  Ball.state (GameScene.ball s') = Ball.held /\
  Ball.holderId (GameScene.ball s') = Some Side.player.
Proof.
  unfold GameScene.pickupByPlayer; cbn.
  destruct (Side.eqb _ _); cbn; repeat split; reflexivity.
Qed.

(** C10. When both players are within the pickup radius ([3 * RADIUS]) of
    the ball, [handleBallPickup] leaves the ball with the AI: the AI's test
    runs second and overwrites the human's pickup.  (The callers invoke
    [handleBallPickup] only for a free ball; the result does not depend on
    that.) *)
Theorem handleBallPickup_both_in_range (s : GameScene.t) :
  let pickupRadius := CONFIG.PLAYER.RADIUS * 3 in
  let b := GameScene.ball s in
  MathUtil.distance (Ball.x b) (Ball.y b)
    (Player.x (GameScene.player s)) (Player.y (GameScene.player s)) < pickupRadius ->
  MathUtil.distance (Ball.x b) (Ball.y b)
    (Player.x (GameScene.ai s)) (Player.y (GameScene.ai s)) < pickupRadius ->
  let s' := GameScene.handleBallPickup s in
  Player.hasBall (GameScene.ai s') = true /\
  Player.hasBall (GameScene.player s') = false /\
  Ball.state (GameScene.ball s') = Ball.held /\
  Ball.holderId (GameScene.ball s') = Some Side.ai.
Proof.
  intros pickupRadius b Hp Ha.
  unfold GameScene.handleBallPickup; cbv zeta.
  apply Rltb_true in Hp. subst b pickupRadius. rewrite Hp.
  destruct (pickupByPlayer_positions s) as (Hbx & Hby & Hax & Hay).
  rewrite Hbx, Hby, Hax, Hay.
  apply Rltb_true in Ha. rewrite Ha.
  apply pickupByAI_holder.
Qed.

(** A free ball at (7, 7) with the human at (7, 7.5) and the AI at
    (7.5, 7). *)
Lemma handleBallPickup_both_in_range_witness :
  let s :=
    GameScene.mk
      (Player.new Side.player Side.player 7 (75 / 10))
      (Player.new Side.ai Side.ai (75 / 10) 7)
      (Ball.mk 7 7 (CONFIG.BALL.RADIUS) 0 0 0 Ball.free None false false false 0)
      (AIController.new (Player.new Side.ai Side.ai (75 / 10) 7) "STANDARD")
      (Rules.new GameSettings.new) GameSettings.new None None 0 in
  let s' := GameScene.handleBallPickup s in
  Player.hasBall (GameScene.ai s') = true /\
  Player.hasBall (GameScene.player s') = false /\
  Ball.state (GameScene.ball s') = Ball.held /\
  Ball.holderId (GameScene.ball s') = Some Side.ai.
Proof.
  intros s.
  apply (handleBallPickup_both_in_range s).
  - cbn. rewrite (distance_of_square 7 7 7 (75 / 10) (1 / 2)) by lra.
    unfold CONFIG.PLAYER.RADIUS; lra.
  - cbn. rewrite (distance_of_square 7 7 (75 / 10) 7 (1 / 2)) by lra.
    unfold CONFIG.PLAYER.RADIUS; lra.
Defined.

(** ** Scoring detection (Ball.isScore, the rim test of Ball.update) *)

(** The ball as the rim test of [update] sees it: after gravity, motion
    and ground contact of the same tick. *)
Definition beforeRimTest (dt : R) (b : Ball.t) : Ball.t :=
  Ball.update_ground (Ball.update_integrate dt b).

(** Number of ticks of a flight (updates with no [release], [attachTo] or
    [reset] in between) in which [hasScored] goes from unset to set. *)
Fixpoint scoreSets (dts : list R) (b : Ball.t) : nat :=
  match dts with
  | [] => 0
  | dt :: rest =>
      (if negb (Ball.hasScored b) && Ball.hasScored (Ball.update dt b) then 1 else 0)
      + scoreSets rest (Ball.update dt b)
  end.

Lemma update_rim_spec (b : Ball.t) :
  Ball.update_rim b =
  if Ball.rimContact b
  then Ball.set_vz (Ball.vz b * (7 / 10)) (Ball.set_hasScored true b)
  else b.
Proof.
  unfold Ball.update_rim, Ball.rimContact.
  destruct (Ball.State_eqb _ _ && _ && _); cbn; [|reflexivity].
  destruct (Physics.checkRimCollision _ _ _ _ _ _); reflexivity.
Qed.

Lemma State_eqb_eq (a b : Ball.State) : Ball.State_eqb a b = true <-> a = b.
Proof. destruct a, b; cbn; split; intros; congruence. Qed.

Lemma checkRimCollision_true (bx by_ bz rx ry rz : R) :
  Physics.checkRimCollision bx by_ bz rx ry rz = true <->
  Rabs (bz - rz) <= CONFIG.BALL.RADIUS * 2 /\
  MathUtil.distance bx by_ rx ry <= CONFIG.COURT.RIM_RADIUS + CONFIG.BALL.MAGNETIC_WINDOW.
Proof.
  unfold Physics.checkRimCollision; cbv zeta.
  destruct (_ <? Rabs _) eqn:Hh; reflect_tests.
  - split; [discriminate | intros [Hc _]; lra].
  - rewrite Rleb_true; split; [intros; split; assumption | intros [_ Hd]; exact Hd].
Qed.

Lemma rimContact_true (b : Ball.t) :
  Ball.rimContact b = true <->
  Ball.state b = Ball.inFlight /\ Ball.vz b < 0 /\ Ball.hasScored b = false /\
  Rabs (Ball.z b - Ball.rimZ) <= CONFIG.BALL.RADIUS * 2 /\
  MathUtil.distance (Ball.x b) (Ball.y b) Ball.rimX Ball.rimY
    <= CONFIG.COURT.RIM_RADIUS + CONFIG.BALL.MAGNETIC_WINDOW.
Proof.
  unfold Ball.rimContact.
  rewrite !andb_true_iff, State_eqb_eq, Rltb_true, negb_true_iff,
    checkRimCollision_true.
  tauto.
Qed.

Lemma update_integrate_flags (dt : R) (b : Ball.t) :
  Ball.hasScored (Ball.update_integrate dt b) = Ball.hasScored b /\
  Ball.state (Ball.update_integrate dt b) = Ball.state b.
Proof. split; reflexivity. Qed.

Lemma update_ground_flags (b : Ball.t) :
  Ball.hasScored (Ball.update_ground b) = Ball.hasScored b /\
  (Ball.state (Ball.update_ground b) = Ball.inFlight -> Ball.state b = Ball.inFlight).
Proof.
  unfold Ball.update_ground.
  destruct (_ <=? _); cbn; [|tauto].
  destruct (_ <? _); cbn; split; try reflexivity; try tauto; discriminate.
Qed.

Lemma update_backboard_flags (b : Ball.t) :
  Ball.hasScored (Ball.update_backboard b) = Ball.hasScored b /\
  Ball.state (Ball.update_backboard b) = Ball.state b /\
  (Ball.vz b < 0 -> Ball.vz (Ball.update_backboard b) < 0).
Proof.
  unfold Ball.update_backboard.
  destruct (Ball.State_eqb _ _); [|tauto].
  destruct (Physics.checkBackboardCollision _ _ _ _ _); cbn; [|tauto].
  repeat split; intros; lra.
Qed.

Lemma checkBounds_flags (b : Ball.t) :
  Ball.hasScored (Ball.checkBounds b) = Ball.hasScored b /\
  Ball.state (Ball.checkBounds b) = Ball.state b /\
  Ball.vz (Ball.checkBounds b) = Ball.vz b.
Proof.
  unfold Ball.checkBounds; cbv zeta.
  destruct (_ || _); cbn; repeat split; reflexivity.
Qed.

(** [update] never clears [hasScored]. *)
Lemma update_hasScored_sticky (dt : R) (b : Ball.t) :
  Ball.hasScored b = true -> Ball.hasScored (Ball.update dt b) = true.
Proof.
  intros Hs. unfold Ball.update.
  destruct (Ball.state b) eqn:Hst; cbn; try exact Hs.
  all: destruct (checkBounds_flags
           (Ball.update_backboard (Ball.update_rim
              (Ball.update_ground (Ball.update_integrate dt b))))) as (-> & _).
  all: destruct (update_backboard_flags
           (Ball.update_rim (Ball.update_ground (Ball.update_integrate dt b))))
         as (-> & _).
  all: rewrite update_rim_spec.
  all: destruct (Ball.rimContact _); cbn; [reflexivity|].
  all: destruct (update_ground_flags (Ball.update_integrate dt b)) as (-> & _).
  all: exact Hs.
Qed.

Lemma scoreSets_after_scored (dts : list R) :
  forall b, Ball.hasScored b = true -> scoreSets dts b = 0%nat.
Proof.
  induction dts as [|dt rest IH]; intros b Hs; cbn; [reflexivity|].
  rewrite Hs; cbn.
  apply IH, update_hasScored_sticky, Hs.
Qed.

Lemma scoreSets_le_1 (dts : list R) :
  forall b, (scoreSets dts b <= 1)%nat.
Proof.
  induction dts as [|dt rest IH]; intros b; cbn; [lia|].
  destruct (negb (Ball.hasScored b) && Ball.hasScored (Ball.update dt b)) eqn:Hset.
  - apply andb_true_iff in Hset; destruct Hset as [_ Hnow].
    rewrite (scoreSets_after_scored rest _ Hnow); lia.
  - specialize (IH (Ball.update dt b)); lia.
Qed.

(** What a tick that sets [hasScored] looks like. *)
Lemma update_sets_hasScored (dt : R) (b : Ball.t) :
  Ball.hasScored b = false ->
  Ball.hasScored (Ball.update dt b) = true ->
  let m := beforeRimTest dt b in
  Ball.state b = Ball.inFlight /\
  Ball.rimContact m = true /\
  Ball.update dt b =
    Ball.checkBounds (Ball.update_backboard
      (Ball.set_vz (Ball.vz m * (7 / 10)) (Ball.set_hasScored true m))).
Proof.
  intros Hno Hyes m. unfold Ball.update in *.
  destruct (update_integrate_flags dt b) as (Hi1 & Hi2).
  destruct (update_ground_flags (Ball.update_integrate dt b)) as (Hg1 & Hg2).
  fold (beforeRimTest dt b) in *. fold m in Hg1, Hg2.
  assert (Hrim : Ball.state b <> Ball.held -> Ball.rimContact m = true).
  { intros Hnh.
    destruct (Ball.rimContact m) eqn:Hc; [reflexivity|].
    assert (Hs : Ball.hasScored
                   (Ball.checkBounds (Ball.update_backboard (Ball.update_rim m)))
                 = true).
    { destruct (Ball.state b); [exact Hyes | congruence | exact Hyes]. }
    destruct (checkBounds_flags (Ball.update_backboard (Ball.update_rim m)))
      as (Hc1 & _).
    destruct (update_backboard_flags (Ball.update_rim m)) as (Hb1 & _).
    rewrite Hc1, Hb1, update_rim_spec, Hc, Hg1, Hi1 in Hs. congruence. }
  assert (Hnh : Ball.state b <> Ball.held).
  { intros Hh. rewrite Hh in Hyes. cbn in Hyes. congruence. }
  specialize (Hrim Hnh).
  pose proof (proj1 (rimContact_true m) Hrim) as (Hfl & _).
  split; [apply Hg2 in Hfl; rewrite Hi2 in Hfl; exact Hfl|].
  split; [exact Hrim|].
  fold m. rewrite update_rim_spec, Hrim.
  destruct (Ball.state b); [reflexivity | congruence | reflexivity].
Qed.

(** Constants of the configuration, for [autounfold]. *)
Create HintDb config.
#[export] Hint Unfold
  CONFIG.COURT.WIDTH CONFIG.COURT.LENGTH CONFIG.COURT.THREE_POINT_RADIUS
  CONFIG.COURT.FREE_THROW_DISTANCE CONFIG.COURT.RIM_RADIUS CONFIG.COURT.RIM_HEIGHT
  CONFIG.COURT.BACKBOARD_WIDTH CONFIG.COURT.BACKBOARD_HEIGHT
  CONFIG.COURT.BACKBOARD_DISTANCE
  CONFIG.GAME.STEAL_COOLDOWN CONFIG.GAME.STEPBACK_COOLDOWN
  CONFIG.GAME.STEPBACK_INVULN_TIME
  CONFIG.PLAYER.BASE_SPEED CONFIG.PLAYER.SPRINT_MULTIPLIER CONFIG.PLAYER.ACCELERATION
  CONFIG.PLAYER.FRICTION CONFIG.PLAYER.STAMINA_MAX CONFIG.PLAYER.STAMINA_SPRINT_DRAIN
  CONFIG.PLAYER.STAMINA_REGEN CONFIG.PLAYER.STAMINA_MIN_FOR_SPRINT CONFIG.PLAYER.RADIUS
  CONFIG.PLAYER.LOW_STAMINA_THRESHOLD CONFIG.PLAYER.LOW_STAMINA_SPEED_PENALTY
  CONFIG.PLAYER.LOW_STAMINA_ACCURACY_PENALTY
  CONFIG.BALL.RADIUS CONFIG.BALL.GRAVITY CONFIG.BALL.BOUNCE_FACTOR
  CONFIG.BALL.FRICTION_GROUND CONFIG.BALL.FRICTION_AIR CONFIG.BALL.MIN_SHOT_POWER
  CONFIG.BALL.MAX_SHOT_POWER CONFIG.BALL.POWER_CHARGE_RATE CONFIG.BALL.MAGNETIC_WINDOW
  CONFIG.BALL.SHOT_BASE_SPEED CONFIG.BALL.SHOT_DISTANCE_FACTOR
  Ball.rimX Ball.rimY Ball.rimZ Player.rimX Player.rimY
  : config.

(** Decides one comparison of the goal whose operands are rational
    constants. *)
Ltac decide_test :=
  match goal with
  | |- context [?a <? ?b] =>
      first [ replace (a <? b) with true
                by (symmetry; apply Rltb_true; autounfold with config; lra)
            | replace (a <? b) with false
                by (symmetry; apply Rltb_false; autounfold with config; lra) ]
  | |- context [?a <=? ?b] =>
      first [ replace (a <=? b) with true
                by (symmetry; apply Rleb_true; autounfold with config; lra)
            | replace (a <=? b) with false
                by (symmetry; apply Rleb_false; autounfold with config; lra) ]
  | |- context [?a =? ?b] =>
      first [ replace (a =? b) with true
                by (symmetry; apply Reqb_true; autounfold with config; lra)
            | replace (a =? b) with false
                by (symmetry; apply Reqb_false; autounfold with config; lra) ]
  end.

(** C5. [isScore()] is true exactly when [hasScored] is set and the ball is
    below rim height.  A tick of [update] sets [hasScored] only for a ball
    in flight whose state at the rim test of that tick is: in flight,
    descending, not yet scored, within [RIM_RADIUS + MAGNETIC_WINDOW] of the
    rim centre in the plane and within [2 * RADIUS] of rim height; the rim
    step then only multiplies [vz] by 0.7, and at the end of the tick the
    ball is still in flight and still descending.  Over a flight,
    [hasScored] is set at most once. *)
Theorem isScore_and_rim_contact :
  (forall b, Ball.isScore b = true <->
             Ball.hasScored b = true /\ Ball.z b < Ball.rimZ) /\
  (forall dt b,
     Ball.hasScored b = false ->
     Ball.hasScored (Ball.update dt b) = true ->
     let m := beforeRimTest dt b in
     Ball.state b = Ball.inFlight /\
     Ball.state m = Ball.inFlight /\ Ball.vz m < 0 /\ Ball.hasScored m = false /\
     MathUtil.distance (Ball.x m) (Ball.y m) Ball.rimX Ball.rimY
       <= CONFIG.COURT.RIM_RADIUS + CONFIG.BALL.MAGNETIC_WINDOW /\
     Rabs (Ball.z m - Ball.rimZ) <= CONFIG.BALL.RADIUS * 2 /\
     Ball.update_rim m =
       Ball.set_vz (Ball.vz m * (7 / 10)) (Ball.set_hasScored true m) /\
     Ball.state (Ball.update dt b) = Ball.inFlight /\
     Ball.vz (Ball.update dt b) < 0) /\
  (forall dts b, (scoreSets dts b <= 1)%nat).
Proof.
  split; [|split].
  - intros b. unfold Ball.isScore.
    rewrite andb_true_iff, Rltb_true. tauto.
  - intros dt b Hno Hyes m.
    destruct (update_sets_hasScored dt b Hno Hyes) as (Hfl & Hrim & Hupd).
    fold m in Hrim, Hupd.
    pose proof (proj1 (rimContact_true m) Hrim) as (Hst & Hvz & Hns & Hz & Hd).
    repeat split; try assumption.
    + rewrite update_rim_spec, Hrim; reflexivity.
    + rewrite Hupd.
      destruct (checkBounds_flags
                  (Ball.update_backboard
                     (Ball.set_vz (Ball.vz m * (7 / 10)) (Ball.set_hasScored true m))))
        as (_ & -> & _).
      destruct (update_backboard_flags
                  (Ball.set_vz (Ball.vz m * (7 / 10)) (Ball.set_hasScored true m)))
        as (_ & -> & _).
      exact Hst.
    + rewrite Hupd.
      destruct (checkBounds_flags
                  (Ball.update_backboard
                     (Ball.set_vz (Ball.vz m * (7 / 10)) (Ball.set_hasScored true m))))
        as (_ & _ & ->).
      apply update_backboard_flags. cbn. lra.
  - intros dts b; apply scoreSets_le_1.
Qed.

(** A ball in flight 10 cm above the centre of the rim, falling at 1 m/s,
    advanced by one tick of 1/60 s. *)
Lemma isScore_and_rim_contact_witness :
  let b :=
    Ball.mk (15 / 2) (12 / 10) (315 / 100) 0 0 (-1) Ball.inFlight (Some Side.player)
      false false true 0 in
  Ball.hasScored b = false /\
  Ball.hasScored (Ball.update (1 / 60) b) = true /\
  Ball.state (Ball.update (1 / 60) b) = Ball.inFlight /\
  Ball.vz (Ball.update (1 / 60) b) < 0.
Proof.
  intros b.
  assert (Hm : beforeRimTest (1 / 60) b =
               Ball.mk (15 / 2 + 0 * (1 / 60)) (12 / 10 + 0 * (1 / 60))
                 (315 / 100 + (-1 - CONFIG.BALL.GRAVITY * (1 / 60)) * (1 / 60))
                 (0 * CONFIG.BALL.FRICTION_AIR) (0 * CONFIG.BALL.FRICTION_AIR)
                 (-1 - CONFIG.BALL.GRAVITY * (1 / 60)) Ball.inFlight
                 (Some Side.player) false false true 0).
  { unfold beforeRimTest, Ball.update_integrate, Ball.update_ground; cbn.
    decide_test. reflexivity. }
  assert (Hyes : Ball.hasScored (Ball.update (1 / 60) b) = true).
  { unfold Ball.update; cbn [Ball.state b].
    fold (beforeRimTest (1 / 60) b).
    destruct (checkBounds_flags
                (Ball.update_backboard (Ball.update_rim (beforeRimTest (1 / 60) b))))
      as (-> & _).
    destruct (update_backboard_flags (Ball.update_rim (beforeRimTest (1 / 60) b)))
      as (-> & _).
    rewrite update_rim_spec.
    replace (Ball.rimContact (beforeRimTest (1 / 60) b)) with true; [reflexivity|].
    symmetry; apply rimContact_true. rewrite Hm; cbn.
    repeat split.
    - unfold CONFIG.BALL.GRAVITY; lra.
    - autounfold with config. apply Rabs_le. lra.
    - rewrite (distance_of_square _ _ _ _ 0); autounfold with config; lra. }
  destruct isScore_and_rim_contact as (_ & Hset & _).
  destruct (Hset (1 / 60) b eq_refl Hyes) as (_ & _ & _ & _ & _ & _ & _ & Hst & Hvz).
  repeat split; assumption.
Defined.

(** ** Shot release (Player.executeShot) *)

(** The call [this.player.executeShot()] in a scene: the method works on
    the player object alone. *)
Definition callExecuteShot (s : GameScene.t) : option Player.ShotData * GameScene.t :=
  let '(shot, p) := Player.executeShot (GameScene.player s) in
  (shot, GameScene.set_player p s).

Lemma planar_speed (angle h : R) :
  sqrt ((cos angle * h) * (cos angle * h) + (sin angle * h) * (sin angle * h)) = Rabs h.
Proof.
  rewrite <- sqrt_Rsqr_abs. f_equal.
  pose proof (sin2_cos2 angle) as Hsc. unfold Rsqr in *.
  replace (cos angle * h * (cos angle * h) + sin angle * h * (sin angle * h))
    with ((sin angle * sin angle + cos angle * cos angle) * (h * h)) by ring.
  rewrite Hsc; ring.
Qed.

Lemma shotAccuracy_cases (p : Player.t) :
  (Player.stamina p < CONFIG.PLAYER.LOW_STAMINA_THRESHOLD ->
   Player.shotAccuracy p = CONFIG.PLAYER.LOW_STAMINA_ACCURACY_PENALTY) /\
  (CONFIG.PLAYER.LOW_STAMINA_THRESHOLD <= Player.stamina p ->
   Player.shotAccuracy p = 1).
Proof.
  unfold Player.shotAccuracy.
  destruct (_ <? _) eqn:Ht; reflect_tests; split; intros; try reflexivity; lra.
Qed.

Lemma horizontalSpeed_nonneg (p : Player.t) :
  0 <= Player.shotPower p -> 0 <= Player.horizontalSpeed p.
Proof.
  intros Hp. unfold Player.horizontalSpeed, Physics.calculateOptimalShotPower; cbv zeta.
  pose proof (distance_nonneg (Player.x p) (Player.y p) Player.rimX Player.rimY) as Hd.
  apply Rmult_le_pos; [apply Rmult_le_pos; [exact Hp|]|].
  - autounfold with config in *. lra.
  - unfold Player.shotAccuracy. destruct (_ <? _); autounfold with config; lra.
Qed.

(** C6. [executeShot()] returns [null] and leaves the player as it is unless
    [shotCharging] and [hasBall] both hold.  Otherwise it returns a launch
    vector [(cos a * h, sin a * h, vz)] with
    [h = shotPower * (SHOT_BASE_SPEED + distToRim * SHOT_DISTANCE_FACTOR) * accuracy],
    where [accuracy] is the low-stamina penalty exactly when stamina is
    below the threshold and 1 otherwise; the length of the horizontal part
    is [|h|], which is [h] for a non-negative [shotPower]; the player
    afterwards differs only in [hasBall] and [shotCharging], both cleared;
    and the call touches no field of the scene's ball. *)
Theorem executeShot_contract (p : Player.t) :
  (Player.shotCharging p && Player.hasBall p = false ->
   Player.executeShot p = (None, p)) /\
  (Player.shotCharging p = true -> Player.hasBall p = true ->
   exists shot,
     Player.executeShot p =
       (Some shot, Player.set_hasBall false (Player.set_shotCharging false p)) /\
     let distToRim := MathUtil.distance (Player.x p) (Player.y p) Player.rimX Player.rimY in
     let accuracy :=
       if Player.stamina p <? CONFIG.PLAYER.LOW_STAMINA_THRESHOLD
       then CONFIG.PLAYER.LOW_STAMINA_ACCURACY_PENALTY else 1 in
     let h :=
       Player.shotPower p *
       (CONFIG.BALL.SHOT_BASE_SPEED + distToRim * CONFIG.BALL.SHOT_DISTANCE_FACTOR) *
       accuracy in
     let a := MathUtil.angleTo (Player.x p) (Player.y p) Player.rimX Player.rimY in
     Player.shot_vx shot = cos a * h /\
     Player.shot_vy shot = sin a * h /\
     sqrt (Player.shot_vx shot * Player.shot_vx shot +
           Player.shot_vy shot * Player.shot_vy shot) = Rabs h /\
     (0 <= Player.shotPower p ->
      sqrt (Player.shot_vx shot * Player.shot_vx shot +
            Player.shot_vy shot * Player.shot_vy shot) = h)) /\
  (Player.stamina p < CONFIG.PLAYER.LOW_STAMINA_THRESHOLD <->
   Player.shotAccuracy p < 1) /\
  (forall s, GameScene.ball (snd (callExecuteShot s)) = GameScene.ball s).
Proof.
  split; [|split; [|split]].
  - intros Hnot. unfold Player.executeShot.
    apply andb_false_iff in Hnot.
    destruct Hnot as [-> | ->]; cbn; [reflexivity|].
    rewrite orb_true_r; reflexivity.
  - intros Hc Hb. unfold Player.executeShot. rewrite Hc, Hb; cbn.
    eexists; split; [reflexivity|]. cbn.
    fold (Player.shotAccuracy p).
    change (Player.shotPower p *
            (CONFIG.BALL.SHOT_BASE_SPEED +
             MathUtil.distance (Player.x p) (Player.y p) Player.rimX Player.rimY *
             CONFIG.BALL.SHOT_DISTANCE_FACTOR) * Player.shotAccuracy p)
      with (Player.horizontalSpeed p).
    repeat split.
    + apply planar_speed.
    + intros Hp. rewrite planar_speed.
      apply Rabs_pos_eq, horizontalSpeed_nonneg, Hp.
  - unfold Player.shotAccuracy.
    destruct (_ <? _) eqn:Ht; reflect_tests; autounfold with config in *; split; lra.
  - intros s. unfold callExecuteShot.
    destruct (Player.executeShot (GameScene.player s)); reflexivity.
Qed.

(** A charging ball-holder 3 m in front of the rim with power 0.6, and the
    same player without the ball. *)
Lemma executeShot_contract_witness :
  let p :=
    Player.mk Side.player Side.player (15 / 2) (42 / 10) 0 0 0 100 false true
      Player.shoot 0 (6 / 10) true 0 0 0 0 in
  (exists shot,
     Player.executeShot p =
       (Some shot, Player.set_hasBall false (Player.set_shotCharging false p)) /\
     sqrt (Player.shot_vx shot * Player.shot_vx shot +
           Player.shot_vy shot * Player.shot_vy shot) = 6 / 10 * (6 + 3 * (5 / 10)) * 1) /\
  Player.executeShot (Player.set_hasBall false p) = (None, Player.set_hasBall false p).
Proof.
  intros p. split.
  - destruct (executeShot_contract p) as (_ & Hshot & _).
    destruct (Hshot eq_refl eq_refl) as (shot & Hres & _ & _ & _ & Hlen).
    exists shot; split; [exact Hres|].
    rewrite Hlen by (cbn; lra). cbn.
    rewrite (distance_of_square _ _ _ _ 3) by (autounfold with config; lra).
    replace (100 <? CONFIG.PLAYER.LOW_STAMINA_THRESHOLD) with false
      by (symmetry; apply Rltb_false; autounfold with config; lra).
    autounfold with config; reflexivity.
  - destruct (executeShot_contract (Player.set_hasBall false p)) as (Hnull & _).
    apply Hnull; reflexivity.
Defined.

(** ** Steal attempts (Player.attemptSteal) *)

Section Steal.

Variables (random : R) (target p : Player.t).

Let dist : R :=
  MathUtil.distance (Player.x p) (Player.y p) (Player.x target) (Player.y target).

(** One of the four guards of [attemptSteal] fires. *)
Definition stealRejected : Prop :=
  Player.stealCooldown p > 0 \/
  Player.hasBall target = false \/
  Player.invulnerableTime target > 0 \/
  dist > CONFIG.PLAYER.RADIUS * 3.

Lemma attemptSteal_rejected :
  stealRejected -> Player.attemptSteal random target p = (false, p).
Proof.
  unfold stealRejected, Player.attemptSteal; cbv zeta; fold dist.
  intros Hrej.
  destruct (Player.stealCooldown p >? 0) eqn:H1; [reflexivity|].
  destruct (Player.hasBall target) eqn:H2; cbn; [|reflexivity].
  destruct (Player.invulnerableTime target >? 0) eqn:H3; [reflexivity|].
  destruct (dist >? CONFIG.PLAYER.RADIUS * 3) eqn:H4; [reflexivity|].
  reflect_tests.
  destruct Hrej as [H | [H | [H | H]]]; try discriminate; lra.
Qed.

Lemma attemptSteal_attempted :
  ~ stealRejected ->
  Player.attemptSteal random target p =
    (random <? 3 / 10 * (1 - dist / (CONFIG.PLAYER.RADIUS * 3)),
     Player.set_stealCooldown CONFIG.GAME.STEAL_COOLDOWN p).
Proof.
  unfold stealRejected, Player.attemptSteal; cbv zeta; fold dist.
  intros Hnot.
  destruct (Player.stealCooldown p >? 0) eqn:H1;
    [reflect_tests; exfalso; apply Hnot; left; lra|].
  destruct (Player.hasBall target) eqn:H2; cbn;
    [|exfalso; apply Hnot; right; left; reflexivity].
  destruct (Player.invulnerableTime target >? 0) eqn:H3;
    [reflect_tests; exfalso; apply Hnot; right; right; left; lra|].
  destruct (dist >? CONFIG.PLAYER.RADIUS * 3) eqn:H4;
    [reflect_tests; exfalso; apply Hnot; right; right; right; lra|].
  reflexivity.
Qed.

Lemma stealRejected_dec : stealRejected \/ ~ stealRejected.
Proof.
  unfold stealRejected.
  destruct (Rlt_le_dec 0 (Player.stealCooldown p)); [left; left; lra|].
  destruct (Player.hasBall target); [|left; right; left; reflexivity].
  destruct (Rlt_le_dec 0 (Player.invulnerableTime target));
    [left; right; right; left; lra|].
  destruct (Rlt_le_dec (CONFIG.PLAYER.RADIUS * 3) dist);
    [left; right; right; right; lra|].
  right; intros [H | [H | [H | H]]]; try discriminate; lra.
Qed.

Lemma successChance_range :
  dist <= CONFIG.PLAYER.RADIUS * 3 ->
  0 <= 3 / 10 * (1 - dist / (CONFIG.PLAYER.RADIUS * 3)) <= 3 / 10.
Proof.
  intros Hle. pose proof (distance_nonneg (Player.x p) (Player.y p)
                            (Player.x target) (Player.y target)) as Hd.
  fold dist in Hd. autounfold with config in *.
  replace (dist / (35 / 100 * 3)) with (dist * (100 / 105)) by field.
  lra.
Qed.

End Steal.

(** C7. [attemptSteal(target)] returns [false] and leaves the attacker's
    [stealCooldown] as it was if and only if one of the four guards fires
    (attacker's cooldown active, target without the ball, target
    invulnerable, distance above [3 * RADIUS]); a rejected call changes
    nothing in the attacker.  Otherwise the attacker's cooldown becomes
    [STEAL_COOLDOWN] and the call succeeds exactly when the value drawn from
    [Math.random()] is below [0.3 * (1 - dist / (3 * RADIUS))], a chance
    between 0 and 0.3 that is 0.3 at distance 0, decreases with the
    distance at the constant rate [0.3 / (3 * RADIUS)] and is 0 at the
    cutoff. *)
Theorem attemptSteal_contract (random : R) (target p : Player.t) :
  let dist :=
    MathUtil.distance (Player.x p) (Player.y p) (Player.x target) (Player.y target) in
  let chance := 3 / 10 * (1 - dist / (CONFIG.PLAYER.RADIUS * 3)) in
  let result := Player.attemptSteal random target p in
  ((fst result = false /\
    Player.stealCooldown (snd result) = Player.stealCooldown p)
   <-> stealRejected target p) /\
  (stealRejected target p -> result = (false, p)) /\
  (~ stealRejected target p ->
   snd result = Player.set_stealCooldown CONFIG.GAME.STEAL_COOLDOWN p /\
   (fst result = true <-> random < chance) /\
   0 <= chance <= 3 / 10) /\
  chance = 3 / 10 - 3 / 10 / (CONFIG.PLAYER.RADIUS * 3) * dist /\
  (dist = CONFIG.PLAYER.RADIUS * 3 -> chance = 0).
Proof.
  intros dist chance result.
  assert (Hyes : ~ stealRejected target p ->
                 result = (random <? chance,
                           Player.set_stealCooldown CONFIG.GAME.STEAL_COOLDOWN p))
    by apply attemptSteal_attempted.
  assert (Hno : stealRejected target p -> result = (false, p))
    by apply attemptSteal_rejected.
  split; [|split; [|split; [|split]]].
  - split.
    + intros [_ Hcd].
      destruct (stealRejected_dec target p) as [Hrej | Hnot]; [exact Hrej|].
      exfalso. rewrite (Hyes Hnot) in Hcd. cbn in Hcd.
      assert (Hle : Player.stealCooldown p <= 0).
      { destruct (Rlt_le_dec 0 (Player.stealCooldown p)) as [Hgt | Hle];
          [|exact Hle].
        exfalso; apply Hnot; left; lra. }
      unfold CONFIG.GAME.STEAL_COOLDOWN in Hcd. lra.
    + intros Hrej. rewrite (Hno Hrej). split; reflexivity.
  - exact Hno.
  - intros Hnot. rewrite (Hyes Hnot); cbn.
    split; [reflexivity|]. split; [apply Rltb_true|].
    apply successChance_range.
    destruct (Rlt_le_dec (CONFIG.PLAYER.RADIUS * 3) dist) as [Hgt | Hle];
      [|exact Hle].
    exfalso; apply Hnot; right; right; right. exact Hgt.
  - unfold chance. autounfold with config. field.
  - intros Hcut. unfold chance. rewrite Hcut. autounfold with config. field.
Qed.

(** An attacker at the origin off cooldown, a ball-holder at (0.3, 0.4)
    and the draw 0.1: the steal succeeds; against the same target without
    the ball it is rejected. *)
Lemma attemptSteal_contract_witness :
  let p := Player.new Side.player Side.player 0 0 in
  let target := Player.set_hasBall true (Player.new Side.ai Side.ai (3 / 10) (4 / 10)) in
  let noBall := Player.new Side.ai Side.ai (3 / 10) (4 / 10) in
  Player.attemptSteal (1 / 10) target p =
    (true, Player.set_stealCooldown CONFIG.GAME.STEAL_COOLDOWN p) /\
  Player.attemptSteal (1 / 10) noBall p = (false, p).
Proof.
  intros p target noBall.
  assert (Hd : MathUtil.distance (Player.x p) (Player.y p)
                 (Player.x target) (Player.y target) = 1 / 2)
    by (apply distance_of_square; cbn; lra).
  split.
  - destruct (attemptSteal_contract (1 / 10) target p) as (_ & _ & Hok & _).
    assert (Hnot : ~ stealRejected target p).
    { unfold stealRejected. rewrite Hd. cbn. autounfold with config.
      intros [H | [H | [H | H]]]; try discriminate; lra. }
    destruct (Hok Hnot) as (Hcd & Hres & _).
    rewrite (surjective_pairing (Player.attemptSteal (1 / 10) target p)).
    rewrite Hcd. f_equal. apply Hres.
    rewrite Hd. autounfold with config. lra.
  - destruct (attemptSteal_contract (1 / 10) noBall p) as (_ & Hrej & _).
    apply Hrej. right; left; reflexivity.
Defined.

(** ** Shot clock and possession (Rules.update, Rules.changePossession) *)

(** The first half of the claim as it is worded: whenever the clock is
    armed in live play, [update(dt)] leaves [shotClock - dt] in
    [shotClock]. *)
Definition update_decrements_by_dt (dt : R) (r : Rules.t) : Prop :=
  Rules.shotClockActive r = true /\ Rules.gameState r = Rules.liveBall ->
  Rules.shotClock (Rules.update dt r) = xsub (Rules.shotClock r) dt.

Lemma GameState_eqb_eq (a b : Rules.GameState) :
  Rules.GameState_eqb a b = true <-> a = b.
Proof. destruct a, b; cbn; split; intros; congruence. Qed.

Lemma changePossession_shotClock (side : Side.t) (r : Rules.t) :
  Rules.shotClock (Rules.changePossession side r) =
  GameSettings.shotClockDuration (Rules.settings r).
Proof. reflexivity. Qed.

(** A live game with one hundredth of a second left on a 24 s clock. *)
Definition lastInstant : Rules.t :=
  Rules.mk GameSettings.new 0 0 Side.player false (Fin (1 / 100)) true Rules.liveBall
    (Rules.mkStats 0 0 0 0 0).

(** The wording fails on the tick in which the clock runs out: the
    violation handler resets the clock within the same [update]. *)
Lemma update_decrements_by_dt_counterexample :
  Rules.shotClock (Rules.update (1 / 60) lastInstant) = Fin 24 /\
  ~ update_decrements_by_dt (1 / 60) lastInstant.
Proof.
  assert (Hupd : Rules.shotClock (Rules.update (1 / 60) lastInstant) = Fin 24).
  { unfold Rules.update, lastInstant; cbn.
    decide_test. reflexivity. }
  split; [exact Hupd|].
  unfold update_decrements_by_dt. intros Hclaim.
  rewrite Hupd in Hclaim.
  specialize (Hclaim (conj eq_refl eq_refl)). cbn in Hclaim.
  injection Hclaim as Heq. lra.
Qed.

(** C3, amended. With the clock armed in live play, [update(dt)] subtracts
    [dt]; when the result is at most 0 the violation handler runs in the
    same call (possession flips, [checkBall], clock disarmed and reset to
    the configured duration), otherwise the clock is left at
    [shotClock - dt], which is smaller than before for a finite clock and a
    positive [dt] and still [Infinity] for an unlimited one.  In every
    other state [update] changes nothing.  [changePossession] always resets
    the clock to [settings.shotClockDuration] and keeps the settings, so an
    unlimited clock stays unlimited. *)
Theorem shotClock_update_and_reset (dt : R) (r : Rules.t) :
  let armed := Rules.shotClockActive r && Rules.GameState_eqb (Rules.gameState r) Rules.liveBall in
  let ticked := xsub (Rules.shotClock r) dt in
  (armed = true -> xleb ticked 0 = false ->
   Rules.update dt r = Rules.set_shotClock ticked r) /\
  (armed = true -> xleb ticked 0 = true ->
   Rules.update dt r = Rules.handleShotClockViolation (Rules.set_shotClock ticked r) /\
   Rules.shotClock (Rules.update dt r) = GameSettings.shotClockDuration (Rules.settings r) /\
   Rules.possession (Rules.update dt r) = Side.other (Rules.possession r) /\
   Rules.gameState (Rules.update dt r) = Rules.checkBall /\
   Rules.shotClockActive (Rules.update dt r) = false) /\
  (armed = false -> Rules.update dt r = r) /\
  (forall c, Rules.shotClock r = Fin c -> 0 < dt -> ticked = Fin (c - dt) /\ c - dt < c) /\
  (Rules.shotClock r = Infinity -> ticked = Infinity /\ xleb ticked 0 = false) /\
  (forall side,
     Rules.shotClock (Rules.changePossession side r) =
       GameSettings.shotClockDuration (Rules.settings r) /\
     Rules.settings (Rules.changePossession side r) = Rules.settings r /\
     Rules.possession (Rules.changePossession side r) = side).
Proof.
  intros armed ticked.
  split; [|split; [|split; [|split; [|split]]]].
  - intros Ha Hpos. unfold Rules.update. fold armed. rewrite Ha. cbn.
    fold ticked. rewrite Hpos. reflexivity.
  - intros Ha Hexp. unfold Rules.update. fold armed. rewrite Ha. cbn.
    fold ticked. rewrite Hexp. repeat split; reflexivity.
  - intros Ha. unfold Rules.update. fold armed. rewrite Ha. reflexivity.
  - intros c Hc Hdt. unfold ticked. rewrite Hc. cbn. split; [reflexivity | lra].
  - intros Hinf. unfold ticked. rewrite Hinf. split; reflexivity.
  - intros side. repeat split; reflexivity.
Qed.

(** The amended statement at the last instant of a 24 s clock, at a clock
    with 10 s left and at an idle clock. *)
Lemma shotClock_update_and_reset_witness :
  Rules.shotClock (Rules.update (1 / 60) lastInstant) = Fin 24 /\
  Rules.possession (Rules.update (1 / 60) lastInstant) = Side.ai /\
  Rules.shotClock (Rules.update (1 / 60) (Rules.set_shotClock (Fin 10) lastInstant))
    = Fin (10 - 1 / 60) /\
  Rules.update (1 / 60) (Rules.set_shotClockActive false lastInstant)
    = Rules.set_shotClockActive false lastInstant.
Proof.
  split; [|split; [|split]].
  - destruct (shotClock_update_and_reset (1 / 60) lastInstant) as (_ & Hexp & _).
    destruct Hexp as (_ & Hclock & _); [reflexivity | | exact Hclock].
    cbn. apply Rleb_true. lra.
  - destruct (shotClock_update_and_reset (1 / 60) lastInstant) as (_ & Hexp & _).
    destruct Hexp as (_ & _ & Hposs & _); [reflexivity | | exact Hposs].
    cbn. apply Rleb_true. lra.
  - destruct (shotClock_update_and_reset (1 / 60)
                (Rules.set_shotClock (Fin 10) lastInstant)) as (Hrun & _).
    rewrite Hrun; [reflexivity | reflexivity |].
    cbn. apply Rleb_false. lra.
  - destruct (shotClock_update_and_reset (1 / 60)
                (Rules.set_shotClockActive false lastInstant)) as (_ & _ & Hidle & _).
    apply Hidle. reflexivity.
Defined.

(** ** Scoring (Rules.scorePoints) *)

Definition scoreOf (side : Side.t) (r : Rules.t) : Z :=
  match side with
  | Side.player => Rules.playerScore r
  | Side.ai => Rules.aiScore r
  end.

Definition makesOf (side : Side.t) (r : Rules.t) : Z :=
  match side with
  | Side.player => Rules.playerMakes (Rules.stats r)
  | Side.ai => Rules.aiMakes (Rules.stats r)
  end.

Lemma isThreePoint_true (x y : R) :
  Physics.isThreePoint x y = true <->
  MathUtil.distance x y (CONFIG.COURT.WIDTH / 2) CONFIG.COURT.BACKBOARD_DISTANCE
    >= CONFIG.COURT.THREE_POINT_RADIUS.
Proof.
  unfold Physics.isThreePoint; cbv zeta. rewrite Rleb_true. split; lra.
Qed.

(** C4. [scorePoints(team, x, y)] adds to the scoring team's score the
    preset's [THREE_POINT] value when the shot location is at distance at
    least [THREE_POINT_RADIUS] from the rim and its [INSIDE] value
    otherwise, leaves the other score alone, credits one make to the team,
    gives possession to the scoring team, disarms the shot clock, and ends
    in [gameOver] when one of the updated scores has reached [WIN_SCORE]
    and in [checkBall] otherwise. *)
Theorem scorePoints_contract (team : Side.t) (x y : R) (r : Rules.t) :
  let r' := Rules.scorePoints team x y r in
  let preset := GameSettings.getScoringSystem (Rules.settings r) in
  let points :=
    if Rle_dec CONFIG.COURT.THREE_POINT_RADIUS
         (MathUtil.distance x y (CONFIG.COURT.WIDTH / 2) CONFIG.COURT.BACKBOARD_DISTANCE)
    then CONFIG.THREE_POINT preset else CONFIG.INSIDE preset in
  scoreOf team r' = (scoreOf team r + points)%Z /\
  scoreOf (Side.other team) r' = scoreOf (Side.other team) r /\
  makesOf team r' = (makesOf team r + 1)%Z /\
  makesOf (Side.other team) r' = makesOf (Side.other team) r /\
  Rules.possession r' = team /\
  Rules.shotClockActive r' = false /\
  Rules.needsCheckBall r' = true /\
  Rules.shotClock r' = GameSettings.shotClockDuration (Rules.settings r) /\
  Rules.gameState r' =
    (if (Rules.playerScore r' >=? CONFIG.GAME.WIN_SCORE)%Z ||
        (Rules.aiScore r' >=? CONFIG.GAME.WIN_SCORE)%Z
     then Rules.gameOver else Rules.checkBall) /\
  (preset = CONFIG.GAME.SCORING_STREET \/ preset = CONFIG.GAME.SCORING_CLASSIC).
Proof.
  intros r' preset points.
  assert (Hpts : points =
                 if Physics.isThreePoint x y
                 then CONFIG.THREE_POINT preset else CONFIG.INSIDE preset).
  { unfold points, Physics.isThreePoint, Rleb; cbv zeta.
    destruct (Rle_dec _ _); reflexivity. }
  rewrite Hpts. clear Hpts points.
  unfold r', Rules.scorePoints; cbv zeta. fold preset.
  set (pts := if Physics.isThreePoint x y
             then CONFIG.THREE_POINT preset else CONFIG.INSIDE preset).
  assert (Hpreset : preset = CONFIG.GAME.SCORING_STREET \/
                    preset = CONFIG.GAME.SCORING_CLASSIC).
  { unfold preset, GameSettings.getScoringSystem.
    destruct (String.eqb _ _); auto. }
  destruct team; cbn -[Z.geb Z.add].
  - destruct (Rules.playerScore r + pts >=? CONFIG.GAME.WIN_SCORE)%Z eqn:H1;
      [|destruct (Rules.aiScore r >=? CONFIG.GAME.WIN_SCORE)%Z eqn:H2];
      cbn -[Z.geb Z.add]; rewrite ?H1, ?H2; cbn -[Z.geb Z.add];
      repeat split; try reflexivity; exact Hpreset.
  - destruct (Rules.playerScore r >=? CONFIG.GAME.WIN_SCORE)%Z eqn:H1;
      [|destruct (Rules.aiScore r + pts >=? CONFIG.GAME.WIN_SCORE)%Z eqn:H2];
      cbn -[Z.geb Z.add]; rewrite ?H1, ?H2; cbn -[Z.geb Z.add];
      repeat split; try reflexivity; exact Hpreset.
Qed.

(** ** Who holds the ball *)

(** Splits on the tests of the goal until none is left. *)
Ltac split_tests :=
  repeat match goal with
  | |- context [if ?c then _ else _] => destruct c
  end.

Lemma applyMovement_hasBall (dx dy : R) (p : Player.t) :
  Player.hasBall (Player.applyMovement dx dy p) = Player.hasBall p.
Proof. unfold Player.applyMovement; cbv zeta; split_tests; reflexivity. Qed.

Lemma startShot_hasBall (angle : R) (p : Player.t) :
  Player.hasBall (Player.startShot angle p) = Player.hasBall p.
Proof. unfold Player.startShot; split_tests; reflexivity. Qed.

Lemma chargeShot_hasBall (dt : R) (p : Player.t) :
  Player.hasBall (Player.chargeShot dt p) = Player.hasBall p.
Proof. unfold Player.chargeShot; split_tests; reflexivity. Qed.

Lemma executeShot_hasBall (p : Player.t) :
  Player.hasBall (snd (Player.executeShot p)) = true -> Player.hasBall p = true.
Proof. unfold Player.executeShot; split_tests; cbn; congruence. Qed.

Lemma performStepBack_hasBall (p : Player.t) :
  Player.hasBall (snd (Player.performStepBack p)) = Player.hasBall p.
Proof. unfold Player.performStepBack; split_tests; reflexivity. Qed.

Lemma attemptSteal_hasBall (random : R) (target p : Player.t) :
  Player.hasBall (snd (Player.attemptSteal random target p)) = Player.hasBall p.
Proof. unfold Player.attemptSteal; cbv zeta; split_tests; reflexivity. Qed.

Lemma Player_update_hasBall (dt : R) (p : Player.t) :
  Player.hasBall (Player.update dt p) = Player.hasBall p.
Proof.
  unfold Player.update, Player.updateState, Player.updateStamina; cbv zeta.
  cbn. split_tests; reflexivity.
Qed.

Lemma clampToCourtBounds_hasBall (p : Player.t) :
  Player.hasBall (Physics.clampToCourtBounds p) = Player.hasBall p.
Proof. unfold Physics.clampToCourtBounds; cbv zeta; cbn; split_tests; reflexivity. Qed.

Lemma resolvePlayerCollision_hasBall (p1 p2 p1' p2' : Player.t) :
  Physics.resolvePlayerCollision p1 p2 = Some (p1', p2') ->
  Player.hasBall p1' = Player.hasBall p1 /\ Player.hasBall p2' = Player.hasBall p2.
Proof.
  unfold Physics.resolvePlayerCollision; cbv zeta; cbn.
  destruct (_ && _).
  - destruct (checked_div _ _); [|discriminate].
    destruct (checked_div _ _); [|discriminate].
    intros [= <- <-]; split; reflexivity.
  - intros [= <- <-]; split; reflexivity.
Qed.

Lemma moveToTarget_hasBall (p : Player.t) (c : AIController.t) :
  Player.hasBall (AIController.moveToTarget p c) = Player.hasBall p.
Proof.
  unfold AIController.moveToTarget; cbv zeta.
  destruct (_ <? _); [reflexivity|].
  rewrite applyMovement_hasBall; reflexivity.
Qed.

(** The controller never gives its player the ball. *)
Lemma AIController_update_hasBall (dt : R) (rnd : AIController.Random)
    (ball : Ball.t) (opponent : Player.t) (shotClock : xnum)
    (p : Player.t) (c : AIController.t) :
  Player.hasBall (snd (fst (AIController.update dt rnd ball opponent shotClock p c)))
    = true ->
  Player.hasBall p = true.
Proof.
  unfold AIController.update; cbv zeta.
  match goal with |- context [AIController.executeState dt ball p ?c'] => generalize c' end.
  intros c'. unfold AIController.executeState.
  destruct (AIController.state c'); cbn [fst snd];
    rewrite ?moveToTarget_hasBall; try (intros H; exact H).
  - unfold AIController.executeShoot; cbv zeta.
    destruct (Player.hasBall p) eqn:Hb; cbn [negb fst snd]; [reflexivity|].
    rewrite Hb; intros H; exact H.
  - unfold AIController.executeLayup; cbv zeta.
    destruct (Player.hasBall p) eqn:Hb; cbn [negb fst snd]; [reflexivity|].
    rewrite Hb; intros H; exact H.
Qed.

(** At most one of the two players has [hasBall]. *)
Definition atMostOneHolder (s : GameScene.t) : Prop :=
  Player.hasBall (GameScene.player s) && Player.hasBall (GameScene.ai s) = false.

(** Exactly the player of side [h] has [hasBall]. *)
Definition onlyHolder (h : Side.t) (s : GameScene.t) : Prop :=
  Player.hasBall (GameScene.player s) = Side.eqb h Side.player /\
  Player.hasBall (GameScene.ai s) = Side.eqb h Side.ai.

(** No player has the ball in [s'] who did not have it in [s]. *)
Definition noNewHolder (s s' : GameScene.t) : Prop :=
  (Player.hasBall (GameScene.player s') = true ->
   Player.hasBall (GameScene.player s) = true) /\
  (Player.hasBall (GameScene.ai s') = true ->
   Player.hasBall (GameScene.ai s) = true).

Lemma noNewHolder_refl (s : GameScene.t) : noNewHolder s s.
Proof. split; intros H; exact H. Qed.

Lemma noNewHolder_trans (s1 s2 s3 : GameScene.t) :
  noNewHolder s1 s2 -> noNewHolder s2 s3 -> noNewHolder s1 s3.
Proof. unfold noNewHolder; tauto. Qed.

Lemma noNewHolder_keeps (s s' : GameScene.t) :
  noNewHolder s s' -> atMostOneHolder s -> atMostOneHolder s'.
Proof.
  unfold noNewHolder, atMostOneHolder. intros [Hp Ha] Hs.
  destruct (Player.hasBall (GameScene.player s')); [|reflexivity].
  destruct (Player.hasBall (GameScene.ai s')); [|reflexivity].
  rewrite Hp, Ha in Hs by reflexivity. discriminate.
Qed.

Lemma onlyHolder_atMostOne (h : Side.t) (s : GameScene.t) :
  onlyHolder h s -> atMostOneHolder s.
Proof.
  unfold onlyHolder, atMostOneHolder. intros [-> ->]. destruct h; reflexivity.
Qed.

Lemma inputMovement_holders (dt : R) (input : GameScene.Input) (s : GameScene.t) :
  noNewHolder s (GameScene.inputMovement dt input s).
Proof.
  unfold GameScene.inputMovement, noNewHolder; cbv zeta.
  split_tests; cbn; rewrite ?applyMovement_hasBall; tauto.
Qed.

Lemma inputSprint_holders (input : GameScene.Input) (s : GameScene.t) :
  noNewHolder s (GameScene.inputSprint input s).
Proof. unfold GameScene.inputSprint, noNewHolder; cbn; tauto. Qed.

Lemma inputShot_holders (dt : R) (input : GameScene.Input) (s : GameScene.t) :
  noNewHolder s (GameScene.inputShot dt input s).
Proof.
  unfold GameScene.inputShot, noNewHolder; cbv zeta.
  destruct (Player.hasBall (GameScene.player s)) eqn:Hb; [|rewrite Hb; tauto].
  split; [intros _; reflexivity|].
  destruct (GameScene.pointerIsDown input && _); cbn.
  - destruct (Player.shotCharging (Player.startShot _ _)); [|cbn; tauto].
    destruct (GameScene.pointerIsDown input); [cbn; tauto|].
    destruct (Player.executeShot _) as [[shot|] p']; cbn; tauto.
  - destruct (Player.shotCharging _); [|cbn; tauto].
    destruct (GameScene.pointerIsDown input); [cbn; tauto|].
    destruct (Player.executeShot _) as [[shot|] p']; cbn; tauto.
Qed.

(** A successful steal hands the ball to the human alone. *)
Lemma stealSucceeded_holder (s : GameScene.t) :
  onlyHolder Side.player (GameScene.stealSucceeded s).
Proof. split; reflexivity. Qed.

Lemma inputRightClick_holders (input : GameScene.Input) (rnd : GameScene.Random)
    (s : GameScene.t) :
  atMostOneHolder s -> atMostOneHolder (GameScene.inputRightClick input rnd s).
Proof.
  intros Hs. unfold GameScene.inputRightClick.
  destruct (GameScene.rightJustPressed input); [|exact Hs].
  destruct (Player.hasBall (GameScene.player s)) eqn:Hb.
  - pose proof (performStepBack_hasBall (GameScene.player s)) as Hsb.
    destruct (Player.performStepBack (GameScene.player s)) as [ok p'].
    cbn in Hsb. unfold atMostOneHolder in *; cbn. rewrite Hsb. exact Hs.
  - pose proof (attemptSteal_hasBall (GameScene.stealRoll rnd) (GameScene.ai s)
                  (GameScene.player s)) as Has.
    destruct (Player.attemptSteal _ _ _) as [ok p']. cbn in Has.
    destruct ok.
    + apply (onlyHolder_atMostOne Side.player), stealSucceeded_holder.
    + unfold atMostOneHolder in *; cbn. rewrite Has. exact Hs.
Qed.

Lemma handlePlayerInput_holders (dt : R) (input : GameScene.Input)
    (rnd : GameScene.Random) (s : GameScene.t) :
  atMostOneHolder s -> atMostOneHolder (GameScene.handlePlayerInput dt input rnd s).
Proof.
  intros Hs. unfold GameScene.handlePlayerInput; cbv zeta.
  apply inputRightClick_holders.
  eapply noNewHolder_keeps; [apply inputShot_holders|].
  eapply noNewHolder_keeps; [apply inputSprint_holders|].
  eapply noNewHolder_keeps; [apply inputMovement_holders|].
  exact Hs.
Qed.

Lemma updateAI_holders (dt : R) (rnd : GameScene.Random) (s : GameScene.t) :
  noNewHolder s (GameScene.updateAI dt rnd s).
Proof.
  unfold GameScene.updateAI, noNewHolder.
  pose proof (AIController_update_hasBall dt (GameScene.aiRandom rnd)
                (GameScene.ball s) (GameScene.player s)
                (Rules.shotClock (GameScene.rules s)) (GameScene.ai s)
                (GameScene.aiController s)) as Hai.
  destruct (AIController.update _ _ _ _ _ _ _) as [[c a] b]. cbn in *. tauto.
Qed.

Lemma checkBallAI_holders (dt : R) (rnd : GameScene.Random) (s : GameScene.t) :
  noNewHolder s (GameScene.checkBallAI dt rnd s).
Proof.
  unfold GameScene.checkBallAI; cbv zeta.
  destruct (Rules.getPossession _); [|apply updateAI_holders].
  destruct (_ <? _); [|apply noNewHolder_refl].
  unfold noNewHolder; cbn. rewrite applyMovement_hasBall. tauto.
Qed.

Lemma updatePlayers_holders (dt : R) (s : GameScene.t) :
  noNewHolder s (GameScene.updatePlayers dt s).
Proof.
  unfold GameScene.updatePlayers, noNewHolder; cbn.
  rewrite !Player_update_hasBall. tauto.
Qed.

Lemma clampPlayers_holders (s : GameScene.t) :
  noNewHolder s (GameScene.clampPlayers s).
Proof.
  unfold GameScene.clampPlayers, noNewHolder; cbn.
  rewrite !clampToCourtBounds_hasBall. tauto.
Qed.

Lemma collidePlayers_holders (s : GameScene.t) :
  noNewHolder s (GameScene.collidePlayers s).
Proof.
  unfold GameScene.collidePlayers.
  destruct (Physics.checkPlayerCollision _ _); [|apply noNewHolder_refl].
  destruct (Physics.resolvePlayerCollision _ _) as [[p a]|] eqn:Hres;
    [|apply noNewHolder_refl].
  apply resolvePlayerCollision_hasBall in Hres. destruct Hres as [Hp Ha].
  unfold noNewHolder; cbn. rewrite Hp, Ha. tauto.
Qed.

Lemma checkBallStart_holders (dt : R) (s : GameScene.t) :
  noNewHolder s (GameScene.checkBallStart dt s).
Proof.
  unfold GameScene.checkBallStart, noNewHolder; cbv zeta.
  split_tests; cbn; tauto.
Qed.

Lemma updateBallPosition_holders (s : GameScene.t) :
  noNewHolder s (GameScene.updateBallPosition s).
Proof.
  unfold GameScene.updateBallPosition, noNewHolder.
  split_tests; cbn; tauto.
Qed.

Lemma updateBall_holders (dt : R) (s : GameScene.t) :
  noNewHolder s (GameScene.updateBall dt s).
Proof. unfold GameScene.updateBall, noNewHolder; cbn; tauto. Qed.

(** The check-ball setup gives the ball to the side in possession and to
    nobody else, and touches neither the rules nor the timers. *)
Lemma setupInitialPositions_holder (s : GameScene.t) :
  let s' := GameScene.setupInitialPositions s in
  onlyHolder (Rules.possession (GameScene.rules s)) s' /\
  Ball.state (GameScene.ball s') = Ball.held /\
  Ball.holderId (GameScene.ball s') = Some (Rules.possession (GameScene.rules s)) /\
  Ball.isOutOfBounds (GameScene.ball s') = false /\
  GameScene.rules s' = GameScene.rules s /\
  GameScene.outOfBoundsTimer s' = GameScene.outOfBoundsTimer s.
Proof.
  unfold GameScene.setupInitialPositions, onlyHolder; cbv zeta; cbn.
  unfold Rules.getPossession.
  destruct (Rules.possession (GameScene.rules s)); cbn; repeat split; reflexivity.
Qed.

Lemma handleBallPickup_holders (s : GameScene.t) :
  atMostOneHolder s -> atMostOneHolder (GameScene.handleBallPickup s).
Proof.
  intros Hs. unfold GameScene.handleBallPickup; cbv zeta.
  match goal with
  | |- atMostOneHolder (if _ then GameScene.pickupByAI ?s1 else ?s1) =>
      assert (H1 : atMostOneHolder s1);
        [|generalize H1; generalize s1; clear; intros mid Hmid]
  end.
  - destruct (_ <? _); [|exact Hs].
    destruct (pickupByPlayer_holder s) as (Hp & Ha & _).
    unfold atMostOneHolder. rewrite Hp, Ha. reflexivity.
  - destruct (_ <? _); [|exact Hmid].
    destruct (pickupByAI_holder mid) as (Ha & Hp & _).
    unfold atMostOneHolder. rewrite Hp, Ha. reflexivity.
Qed.

Lemma pickupIfFree_holders (s : GameScene.t) :
  atMostOneHolder s -> atMostOneHolder (GameScene.pickupIfFree s).
Proof.
  intros Hs. unfold GameScene.pickupIfFree.
  destruct (Ball.State_eqb _ _); [apply handleBallPickup_holders|]; exact Hs.
Qed.

(** The side credited with a basket: the last holder of the ball. *)
Definition shooterOf (s : GameScene.t) : Side.t :=
  match Ball.holderId (GameScene.ball s) with
  | Some h => h
  | None => if Player.hasBall (GameScene.player s) then Side.player else Side.ai
  end.

(** After a basket the ball goes to the shooter's side. *)
Lemma scored_holders (s : GameScene.t) :
  onlyHolder (shooterOf s) (GameScene.scored s).
Proof.
  unfold GameScene.scored; cbv zeta. fold (shooterOf s).
  remember (shooterOf s) as h eqn:Hh. clear Hh.
  match goal with
  | |- onlyHolder _ (GameScene.setupInitialPositions ?s1) =>
      pose proof (setupInitialPositions_holder s1) as Hset;
      assert (Hposs : Rules.possession (GameScene.rules s1) = h)
  end.
  - cbn. unfold Rules.scorePoints; cbv zeta.
    destruct h; cbn; split_tests; reflexivity.
  - cbv zeta in Hset. rewrite Hposs in Hset. apply Hset.
Qed.

(** The side that last held the ball, as the out-of-bounds recovery
    determines it. *)
Definition lastHolder (s : GameScene.t) : Side.t :=
  match Ball.holderId (GameScene.ball s) with
  | Some h => h
  | None => Rules.getPossession (GameScene.rules s)
  end.

(** What the expiry branch of the out-of-bounds countdown does. *)
Lemma outOfBoundsExpired_spec (s : GameScene.t) :
  let s' := GameScene.outOfBoundsExpired s in
  let h := Side.other (lastHolder s) in
  onlyHolder h s' /\
  GameScene.rules s' = Rules.changePossession h (GameScene.rules s) /\
  GameScene.outOfBoundsTimer s' = None /\
  Ball.state (GameScene.ball s') = Ball.held /\
  Ball.holderId (GameScene.ball s') = Some h /\
  Ball.isOutOfBounds (GameScene.ball s') = false.
Proof.
  unfold GameScene.outOfBoundsExpired; cbv zeta. fold (lastHolder s).
  remember (Side.other (lastHolder s)) as h eqn:Hh. clear Hh.
  match goal with
  | |- context [GameScene.setupInitialPositions ?s1] =>
      pose proof (setupInitialPositions_holder s1) as Hset;
      assert (Hposs : Rules.possession (GameScene.rules s1) = h) by reflexivity;
      assert (Hrules : GameScene.rules s1 = Rules.changePossession h (GameScene.rules s))
        by reflexivity;
      remember s1 as mid eqn:Hmid; clear Hmid
  end.
  cbv zeta in Hset. rewrite Hposs in Hset.
  destruct Hset as (Hh & Hst & Hid & Hoob & Hr & _).
  remember (GameScene.setupInitialPositions mid) as fin eqn:Hfin. clear Hfin.
  unfold onlyHolder in *; cbn.
  rewrite <- Hrules, <- Hr. tauto.
Qed.

Lemma outOfBoundsExpired_holders (s : GameScene.t) :
  onlyHolder (Side.other (lastHolder s)) (GameScene.outOfBoundsExpired s).
Proof. apply outOfBoundsExpired_spec. Qed.

Lemma scoreOrPickup_holders (s : GameScene.t) :
  atMostOneHolder s -> atMostOneHolder (GameScene.scoreOrPickup s).
Proof.
  intros Hs. unfold GameScene.scoreOrPickup.
  destruct (Ball.isScore _).
  - exact (onlyHolder_atMostOne _ _ (scored_holders s)).
  - apply pickupIfFree_holders, Hs.
Qed.

Lemma liveBallChecks_holders (dt : R) (s : GameScene.t) :
  atMostOneHolder s -> atMostOneHolder (GameScene.liveBallChecks dt s).
Proof.
  intros Hs. unfold GameScene.liveBallChecks; cbv zeta.
  destruct (Ball.isOutOfBounds _); destruct (GameScene.outOfBoundsTimer s) as [timer|].
  - destruct (_ <=? _).
    + exact (onlyHolder_atMostOne _ _
               (outOfBoundsExpired_holders
                  (GameScene.set_outOfBoundsTimer (Some (timer - dt)) s))).
    + apply scoreOrPickup_holders, Hs.
  - apply scoreOrPickup_holders, Hs.
  - apply scoreOrPickup_holders, Hs.
  - apply scoreOrPickup_holders, Hs.
Qed.

Lemma handleCheckBall_holders (dt : R) (input : GameScene.Input)
    (rnd : GameScene.Random) (s : GameScene.t) :
  atMostOneHolder s -> atMostOneHolder (GameScene.handleCheckBall dt input rnd s).
Proof.
  intros Hs. unfold GameScene.handleCheckBall; cbv zeta.
  apply pickupIfFree_holders.
  eapply noNewHolder_keeps; [apply updateBall_holders|].
  eapply noNewHolder_keeps; [apply updateBallPosition_holders|].
  eapply noNewHolder_keeps; [apply checkBallStart_holders|].
  eapply noNewHolder_keeps; [apply clampPlayers_holders|].
  eapply noNewHolder_keeps; [apply updatePlayers_holders|].
  eapply noNewHolder_keeps; [apply checkBallAI_holders|].
  apply handlePlayerInput_holders, Hs.
Qed.

Lemma handleLiveBall_holders (dt : R) (input : GameScene.Input)
    (rnd : GameScene.Random) (s : GameScene.t) :
  atMostOneHolder s -> atMostOneHolder (GameScene.handleLiveBall dt input rnd s).
Proof.
  intros Hs. unfold GameScene.handleLiveBall; cbv zeta.
  apply liveBallChecks_holders.
  eapply noNewHolder_keeps; [apply updateBall_holders|].
  eapply noNewHolder_keeps; [apply updateBallPosition_holders|].
  eapply noNewHolder_keeps; [apply clampPlayers_holders|].
  eapply noNewHolder_keeps; [apply collidePlayers_holders|].
  eapply noNewHolder_keeps; [apply updatePlayers_holders|].
  eapply noNewHolder_keeps; [apply updateAI_holders|].
  apply handlePlayerInput_holders, Hs.
Qed.

Lemma update_holders (dt : R) (input : GameScene.Input)
    (rnd : GameScene.Random) (s : GameScene.t) :
  atMostOneHolder s -> atMostOneHolder (GameScene.update dt input rnd s).
Proof.
  intros Hs. unfold GameScene.update; cbv zeta.
  destruct (Rules.GameState_eqb (Rules.getGameState (GameScene.rules s)) Rules.gameOver);
    [exact Hs|].
  match goal with
  | |- atMostOneHolder (match Rules.getGameState (GameScene.rules ?s1) with _ => _ end) =>
      assert (H1 : atMostOneHolder s1);
        [|generalize H1; generalize s1; clear; intros mid Hmid]
  end.
  - destruct (_ && _); [|exact Hs].
    eapply onlyHolder_atMostOne.
    apply (setupInitialPositions_holder
             (GameScene.set_rules (Rules.update dt (GameScene.rules s)) s)).
  - destruct (Rules.getGameState (GameScene.rules mid)).
    + apply handleCheckBall_holders, Hmid.
    + apply handleLiveBall_holders, Hmid.
    + exact Hmid.
    + exact Hmid.
Qed.

(** The manual reset hands the ball to one side. *)
Lemma handleKeyR_holders (s : GameScene.t) :
  exists h, onlyHolder h (GameScene.handleKeyR s).
Proof.
  unfold GameScene.handleKeyR; cbv zeta.
  match goal with
  | |- context [match Side.other ?l with _ => _ end] => destruct (Side.other l)
  end.
  - exists Side.player; split; reflexivity.
  - exists Side.ai; split; reflexivity.
Qed.

Lemma enter_holders (settings : GameSettings.t) (timer : option R) :
  onlyHolder Side.player (GameScene.enter settings timer).
Proof. split; reflexivity. Qed.

(** The states of the scene: the one [enter] builds, and those reached
    from it by ticks of [update] (with any step, input and random draws)
    and by the manual reset key. *)
Inductive reachable : GameScene.t -> Prop :=
| reach_enter (settings : GameSettings.t) (timer : option R) :
    reachable (GameScene.enter settings timer)
| reach_update (dt : R) (input : GameScene.Input) (rnd : GameScene.Random)
    (s : GameScene.t) :
    reachable s -> reachable (GameScene.update dt input rnd s)
| reach_keyR (s : GameScene.t) :
    reachable s -> reachable (GameScene.handleKeyR s).

(** C1. In every reachable state at most one of the two players has
    [hasBall]; and each operation that grants the ball (free-ball pickup by
    either side, successful steal, check-ball setup, reset after a score)
    leaves [hasBall] set for one player and clear for the other. *)
Theorem at_most_one_holder :
  (forall s, reachable s ->
     ~ (Player.hasBall (GameScene.player s) = true /\
        Player.hasBall (GameScene.ai s) = true)) /\
  (forall s, onlyHolder Side.player (GameScene.pickupByPlayer s)) /\
  (forall s, onlyHolder Side.ai (GameScene.pickupByAI s)) /\
  (forall s, onlyHolder Side.player (GameScene.stealSucceeded s)) /\
  (forall s, onlyHolder (Rules.possession (GameScene.rules s))
               (GameScene.setupInitialPositions s)) /\
  (forall s, onlyHolder (shooterOf s) (GameScene.scored s)).
Proof.
  split; [|split; [|split; [|split; [|split]]]].
  - intros s Hreach.
    assert (Hinv : atMostOneHolder s).
    { induction Hreach as [settings timer | dt input rnd s Hreach IH | s Hreach IH].
      - exact (onlyHolder_atMostOne _ _ (enter_holders settings timer)).
      - apply update_holders, IH.
      - destruct (handleKeyR_holders s) as [h Hh].
        exact (onlyHolder_atMostOne h _ Hh). }
    unfold atMostOneHolder in Hinv. intros [Hp Ha].
    rewrite Hp, Ha in Hinv. discriminate.
  - intros s. destruct (pickupByPlayer_holder s) as (Hp & Ha & _).
    split; cbn; assumption.
  - intros s. destruct (pickupByAI_holder s) as (Ha & Hp & _).
    split; cbn; assumption.
  - apply stealSucceeded_holder.
  - intros s. apply setupInitialPositions_holder.
  - apply scored_holders.
Qed.

(** ** Out-of-bounds recovery (GameScene.handleLiveBall) *)

(** The scene as the out-of-bounds test of [handleLiveBall] sees it: after
    input, AI, kinematics, collisions and ball physics of the same tick. *)
Definition beforeLiveBallChecks (dt : R) (input : GameScene.Input)
    (rnd : GameScene.Random) (s : GameScene.t) : GameScene.t :=
  GameScene.updateBall dt
    (GameScene.updateBallPosition
       (GameScene.clampPlayers
          (GameScene.collidePlayers
             (GameScene.updatePlayers dt
                (GameScene.updateAI dt rnd
                   (GameScene.handlePlayerInput dt input rnd s)))))).

Lemma handleLiveBall_split (dt : R) (input : GameScene.Input)
    (rnd : GameScene.Random) (s : GameScene.t) :
  GameScene.handleLiveBall dt input rnd s =
  GameScene.liveBallChecks dt (beforeLiveBallChecks dt input rnd s).
Proof. reflexivity. Qed.

(** The phase of play, the arming of the clock, the possession and the
    out-of-bounds countdown are the same in [s'] as in [s]. *)
Definition sameFlow (s s' : GameScene.t) : Prop :=
  Rules.gameState (GameScene.rules s') = Rules.gameState (GameScene.rules s) /\
  Rules.shotClockActive (GameScene.rules s') = Rules.shotClockActive (GameScene.rules s) /\
  Rules.possession (GameScene.rules s') = Rules.possession (GameScene.rules s) /\
  GameScene.outOfBoundsTimer s' = GameScene.outOfBoundsTimer s.

Lemma sameFlow_refl (s : GameScene.t) : sameFlow s s.
Proof. repeat split. Qed.

Lemma sameFlow_trans (s1 s2 s3 : GameScene.t) :
  sameFlow s1 s2 -> sameFlow s2 s3 -> sameFlow s1 s3.
Proof.
  unfold sameFlow. intros (A1 & A2 & A3 & A4) (B1 & B2 & B3 & B4).
  repeat split; congruence.
Qed.

Lemma handlePlayerInput_sameFlow (dt : R) (input : GameScene.Input)
    (rnd : GameScene.Random) (s : GameScene.t) :
  sameFlow s (GameScene.handlePlayerInput dt input rnd s).
Proof.
  unfold GameScene.handlePlayerInput; cbv zeta.
  apply (sameFlow_trans _ (GameScene.inputMovement dt input s)).
  { unfold GameScene.inputMovement; cbv zeta; split_tests; repeat split. }
  apply (sameFlow_trans _ (GameScene.inputSprint input (GameScene.inputMovement dt input s))).
  { repeat split. }
  match goal with
  | |- sameFlow ?a (GameScene.inputRightClick _ _ (GameScene.inputShot _ _ ?a)) =>
      generalize a; intros mid
  end.
  apply (sameFlow_trans _ (GameScene.inputShot dt input mid)).
  - unfold GameScene.inputShot; cbv zeta.
    destruct (Player.hasBall _); [|apply sameFlow_refl].
    destruct (_ && _); destruct (Player.shotCharging _);
      try destruct (GameScene.pointerIsDown input);
      try destruct (Player.executeShot _) as [[shot|] p'];
      repeat split.
  - generalize (GameScene.inputShot dt input mid); intros mid2.
    unfold GameScene.inputRightClick.
    destruct (GameScene.rightJustPressed input); [|apply sameFlow_refl].
    destruct (Player.hasBall _).
    + destruct (Player.performStepBack _); repeat split.
    + destruct (Player.attemptSteal _ _ _) as [[|] p']; repeat split.
Qed.

Lemma updateAI_sameFlow (dt : R) (rnd : GameScene.Random) (s : GameScene.t) :
  sameFlow s (GameScene.updateAI dt rnd s).
Proof.
  unfold GameScene.updateAI.
  destruct (AIController.update _ _ _ _ _ _ _) as [[c a] b]. repeat split.
Qed.

Lemma beforeLiveBallChecks_sameFlow (dt : R) (input : GameScene.Input)
    (rnd : GameScene.Random) (s : GameScene.t) :
  sameFlow s (beforeLiveBallChecks dt input rnd s).
Proof.
  unfold beforeLiveBallChecks.
  apply (sameFlow_trans _ (GameScene.handlePlayerInput dt input rnd s));
    [apply handlePlayerInput_sameFlow|].
  generalize (GameScene.handlePlayerInput dt input rnd s); intros s1.
  apply (sameFlow_trans _ (GameScene.updateAI dt rnd s1));
    [apply updateAI_sameFlow|].
  generalize (GameScene.updateAI dt rnd s1); intros s2.
  apply (sameFlow_trans _ (GameScene.updatePlayers dt s2)); [repeat split|].
  generalize (GameScene.updatePlayers dt s2); intros s3.
  apply (sameFlow_trans _ (GameScene.collidePlayers s3)).
  { unfold GameScene.collidePlayers.
    destruct (Physics.checkPlayerCollision _ _); [|apply sameFlow_refl].
    destruct (Physics.resolvePlayerCollision _ _) as [[p a]|]; repeat split. }
  generalize (GameScene.collidePlayers s3); intros s4.
  apply (sameFlow_trans _ (GameScene.clampPlayers s4)); [repeat split|].
  generalize (GameScene.clampPlayers s4); intros s5.
  apply (sameFlow_trans _ (GameScene.updateBallPosition s5)).
  { unfold GameScene.updateBallPosition; split_tests; repeat split. }
  repeat split.
Qed.

(** The expiry branch, for a scene whose flag is set when the test runs. *)
Lemma expiry_at_checks (dt timer : R) (input : GameScene.Input)
    (rnd : GameScene.Random) (s : GameScene.t) :
  let mid := beforeLiveBallChecks dt input rnd s in
  let s' := GameScene.handleLiveBall dt input rnd s in
  let h := Side.other (lastHolder mid) in
  Ball.isOutOfBounds (GameScene.ball mid) = true ->
  GameScene.outOfBoundsTimer s = Some timer ->
  timer - dt <= 0 ->
  Rules.possession (GameScene.rules s') = h /\
  onlyHolder h s' /\
  Ball.state (GameScene.ball s') = Ball.held /\
  Ball.holderId (GameScene.ball s') = Some h /\
  Ball.isOutOfBounds (GameScene.ball s') = false /\
  GameScene.outOfBoundsTimer s' = None /\
  Rules.gameState (GameScene.rules s') = Rules.gameState (GameScene.rules s) /\
  Rules.shotClockActive (GameScene.rules s') = Rules.shotClockActive (GameScene.rules s).
Proof.
  intros mid s' h Hflag Htimer Hexp.
  destruct (beforeLiveBallChecks_sameFlow dt input rnd s) as (Hgs & Hsc & _ & Hot).
  fold mid in Hgs, Hsc, Hot.
  unfold s'. rewrite handleLiveBall_split. fold mid.
  unfold GameScene.liveBallChecks; cbv zeta.
  rewrite Hflag, Hot, Htimer.
  replace (timer - dt <=? 0) with true by (symmetry; apply Rleb_true; exact Hexp).
  set (mid' := GameScene.set_outOfBoundsTimer (Some (timer - dt)) mid).
  destruct (outOfBoundsExpired_spec mid') as (Hh & Hr & Ht & Hst & Hid & Hoob).
  change (lastHolder mid') with (lastHolder mid) in *. fold h in Hh, Hr, Hid.
  change (GameScene.rules mid') with (GameScene.rules mid) in Hr.
  rewrite Hr. cbn [Rules.possession Rules.gameState Rules.shotClockActive
                   Rules.changePossession Rules.resetShotClock Rules.set_shotClock
                   Rules.set_needsCheckBall Rules.set_possession].
  repeat split; try assumption; try apply Hh.
Qed.

Lemma pickupIfFree_timer (s : GameScene.t) :
  GameScene.outOfBoundsTimer (GameScene.pickupIfFree s) = GameScene.outOfBoundsTimer s.
Proof.
  unfold GameScene.pickupIfFree, GameScene.handleBallPickup,
    GameScene.pickupByAI, GameScene.pickupByPlayer; cbv zeta.
  split_tests; reflexivity.
Qed.

(** The countdown while no basket is detected: it starts at 3 s on the
    first tick with the flag set, then loses [dt] per tick, and is gone on
    the tick on which it reaches zero. *)
Lemma liveBallChecks_countdown (dt : R) (s : GameScene.t) :
  Ball.isOutOfBounds (GameScene.ball s) = true ->
  Ball.isScore (GameScene.ball s) = false ->
  GameScene.outOfBoundsTimer (GameScene.liveBallChecks dt s) =
    match GameScene.outOfBoundsTimer s with
    | None => Some 3
    | Some timer => if timer - dt <=? 0 then None else Some (timer - dt)
    end.
Proof.
  intros Hflag Hscore. unfold GameScene.liveBallChecks; cbv zeta. rewrite Hflag.
  destruct (GameScene.outOfBoundsTimer s) as [timer|].
  - destruct (timer - dt <=? 0).
    + apply outOfBoundsExpired_spec.
    + unfold GameScene.scoreOrPickup. cbn [GameScene.ball GameScene.set_outOfBoundsTimer].
      rewrite Hscore. apply pickupIfFree_timer.
  - unfold GameScene.scoreOrPickup. cbn [GameScene.ball GameScene.set_outOfBoundsTimer].
    rewrite Hscore. apply pickupIfFree_timer.
Qed.

(** Nobody has the ball. *)
Definition noHolder (s : GameScene.t) : Prop :=
  Player.hasBall (GameScene.player s) = false /\
  Player.hasBall (GameScene.ai s) = false.

Lemma noNewHolder_noHolder (s s' : GameScene.t) :
  noNewHolder s s' -> noHolder s -> noHolder s'.
Proof.
  unfold noNewHolder, noHolder. intros [Hp Ha] [Hnp Hna].
  split.
  - destruct (Player.hasBall (GameScene.player s')); [|reflexivity].
    rewrite Hp in Hnp by reflexivity. discriminate.
  - destruct (Player.hasBall (GameScene.ai s')); [|reflexivity].
    rewrite Ha in Hna by reflexivity. discriminate.
Qed.

(** With nobody holding the ball the input of the human cannot touch it:
    there is nothing to shoot and nothing to steal. *)
Lemma handlePlayerInput_noHolder (dt : R) (input : GameScene.Input)
    (rnd : GameScene.Random) (s : GameScene.t) :
  noHolder s ->
  noHolder (GameScene.handlePlayerInput dt input rnd s) /\
  GameScene.ball (GameScene.handlePlayerInput dt input rnd s) = GameScene.ball s.
Proof.
  intros Hno. unfold GameScene.handlePlayerInput; cbv zeta.
  assert (H1 : noHolder (GameScene.inputMovement dt input s) /\
               GameScene.ball (GameScene.inputMovement dt input s) = GameScene.ball s).
  { split; [exact (noNewHolder_noHolder _ _ (inputMovement_holders dt input s) Hno)|].
    unfold GameScene.inputMovement; cbv zeta; split_tests; reflexivity. }
  revert H1. generalize (GameScene.inputMovement dt input s). intros s1 [Hno1 Hb1].
  assert (H2 : noHolder (GameScene.inputSprint input s1) /\
               GameScene.ball (GameScene.inputSprint input s1) = GameScene.ball s).
  { split; [exact (noNewHolder_noHolder _ _ (inputSprint_holders input s1) Hno1)|].
    exact Hb1. }
  revert H2. generalize (GameScene.inputSprint input s1). intros s2 [Hno2 Hb2].
  assert (H3 : GameScene.inputShot dt input s2 = s2).
  { unfold GameScene.inputShot. destruct Hno2 as [-> _]. reflexivity. }
  rewrite H3.
  unfold GameScene.inputRightClick.
  destruct (GameScene.rightJustPressed input); [|split; assumption].
  destruct Hno2 as [Hp Ha]. rewrite Hp.
  unfold Player.attemptSteal; cbv zeta. rewrite Ha.
  destruct (_ <? _); cbn; (split; [split; assumption | exact Hb2]).
Qed.

(** A controller whose player has no ball leaves the ball alone. *)
Lemma AIController_update_ball (dt : R) (rnd : AIController.Random)
    (ball : Ball.t) (opponent : Player.t) (shotClock : xnum)
    (p : Player.t) (c : AIController.t) :
  Player.hasBall p = false ->
  snd (AIController.update dt rnd ball opponent shotClock p c) = ball.
Proof.
  intros Hno. unfold AIController.update; cbv zeta.
  match goal with |- context [AIController.executeState dt ball p ?c'] => generalize c' end.
  intros c'. unfold AIController.executeState, AIController.executeShoot,
    AIController.executeLayup.
  rewrite Hno. destruct (AIController.state c'); reflexivity.
Qed.

Lemma updateAI_noHolder (dt : R) (rnd : GameScene.Random) (s : GameScene.t) :
  noHolder s ->
  noHolder (GameScene.updateAI dt rnd s) /\
  GameScene.ball (GameScene.updateAI dt rnd s) = GameScene.ball s.
Proof.
  intros Hno.
  split; [exact (noNewHolder_noHolder _ _ (updateAI_holders dt rnd s) Hno)|].
  unfold GameScene.updateAI.
  pose proof (AIController_update_ball dt (GameScene.aiRandom rnd)
                (GameScene.ball s) (GameScene.player s)
                (Rules.shotClock (GameScene.rules s)) (GameScene.ai s)
                (GameScene.aiController s) (proj2 Hno)) as Hb.
  destruct (AIController.update _ _ _ _ _ _ _) as [[c a] b]. exact Hb.
Qed.

(** [update] never clears the out-of-bounds flag and never changes
    [holderId]. *)
Lemma Ball_update_flag (dt : R) (b : Ball.t) :
  (Ball.isOutOfBounds b = true -> Ball.isOutOfBounds (Ball.update dt b) = true) /\
  Ball.holderId (Ball.update dt b) = Ball.holderId b.
Proof.
  unfold Ball.update.
  assert (Hmove : forall b0,
            Ball.isOutOfBounds b0 = Ball.isOutOfBounds b ->
            Ball.holderId b0 = Ball.holderId b ->
            (Ball.isOutOfBounds b = true ->
             Ball.isOutOfBounds
               (Ball.checkBounds (Ball.update_backboard (Ball.update_rim b0))) = true) /\
            Ball.holderId
              (Ball.checkBounds (Ball.update_backboard (Ball.update_rim b0)))
            = Ball.holderId b).
  { intros b0 Hf Hh.
    unfold Ball.checkBounds, Ball.update_backboard, Ball.update_rim; cbv zeta.
    split_tests; cbn; rewrite ?Hf, ?Hh; split; trivial. }
  assert (Hground : Ball.isOutOfBounds (Ball.update_ground (Ball.update_integrate dt b))
                    = Ball.isOutOfBounds b /\
                    Ball.holderId (Ball.update_ground (Ball.update_integrate dt b))
                    = Ball.holderId b).
  { unfold Ball.update_ground, Ball.update_integrate; cbv zeta.
    split_tests; split; reflexivity. }
  destruct (Ball.state b); cbn; try (apply Hmove; apply Hground).
  split; trivial.
Qed.

(** A loose ball flagged out of bounds is still flagged, with the same last
    holder, when the out-of-bounds test of the tick runs. *)
Lemma beforeLiveBallChecks_loose_ball (dt : R) (input : GameScene.Input)
    (rnd : GameScene.Random) (s : GameScene.t) :
  noHolder s ->
  Ball.isOutOfBounds (GameScene.ball s) = true ->
  let mid := beforeLiveBallChecks dt input rnd s in
  Ball.isOutOfBounds (GameScene.ball mid) = true /\ lastHolder mid = lastHolder s.
Proof.
  intros Hno Hflag mid.
  pose proof (beforeLiveBallChecks_sameFlow dt input rnd s) as (_ & _ & Hposs & _).
  fold mid in Hposs.
  assert (Hball : GameScene.ball mid = Ball.update dt (GameScene.ball s)).
  { unfold mid, beforeLiveBallChecks.
    destruct (handlePlayerInput_noHolder dt input rnd s Hno) as (Hno1 & Hb1).
    revert Hno1 Hb1. generalize (GameScene.handlePlayerInput dt input rnd s).
    intros s1 Hno1 Hb1.
    destruct (updateAI_noHolder dt rnd s1 Hno1) as (Hno2 & Hb2).
    revert Hno2 Hb2. generalize (GameScene.updateAI dt rnd s1).
    intros s2 Hno2 Hb2.
    pose proof (noNewHolder_noHolder _ _ (updatePlayers_holders dt s2) Hno2) as Hno3.
    assert (Hb3 : GameScene.ball (GameScene.updatePlayers dt s2) = GameScene.ball s2)
      by reflexivity.
    revert Hno3 Hb3. generalize (GameScene.updatePlayers dt s2).
    intros s3 Hno3 Hb3.
    pose proof (noNewHolder_noHolder _ _ (collidePlayers_holders s3) Hno3) as Hno4.
    assert (Hb4 : GameScene.ball (GameScene.collidePlayers s3) = GameScene.ball s3).
    { unfold GameScene.collidePlayers.
      destruct (Physics.checkPlayerCollision _ _); [|reflexivity].
      destruct (Physics.resolvePlayerCollision _ _) as [[p a]|]; reflexivity. }
    revert Hno4 Hb4. generalize (GameScene.collidePlayers s3).
    intros s4 Hno4 Hb4.
    pose proof (noNewHolder_noHolder _ _ (clampPlayers_holders s4) Hno4) as Hno5.
    assert (Hb5 : GameScene.ball (GameScene.clampPlayers s4) = GameScene.ball s4)
      by reflexivity.
    revert Hno5 Hb5. generalize (GameScene.clampPlayers s4).
    intros s5 [Hp5 Ha5] Hb5.
    assert (H6 : GameScene.updateBallPosition s5 = s5).
    { unfold GameScene.updateBallPosition. rewrite Hp5, Ha5. reflexivity. }
    rewrite H6. unfold GameScene.updateBall; cbn. congruence. }
  destruct (Ball_update_flag dt (GameScene.ball s)) as (Hsticky & Hid).
  split.
  - rewrite Hball. apply Hsticky, Hflag.
  - unfold lastHolder, Rules.getPossession. rewrite Hball, Hid, Hposs. reflexivity.
Qed.

(** C2 on the code.  A tick of [handleLiveBall] that starts with a loose
    ball flagged out of bounds and a countdown within [dt] of zero (the
    tick on which the 3 s window expires) gives possession and the ball to
    the side that did not last hold it ([holderId], or the side in
    possession when [holderId] is [null]) and clears the flag and the
    countdown, so the flip happens once; but [gameState] and
    [shotClockActive] are left as they were: a game in [liveBall] stays in
    [liveBall] with the clock armed, where the claim has it reset to
    [checkBall]. *)
Theorem outOfBounds_expiry_keeps_gameState (dt timer : R) (input : GameScene.Input)
    (rnd : GameScene.Random) (s : GameScene.t) :
  let s' := GameScene.handleLiveBall dt input rnd s in
  let h := Side.other (lastHolder s) in
  noHolder s ->
  Ball.isOutOfBounds (GameScene.ball s) = true ->
  GameScene.outOfBoundsTimer s = Some timer ->
  timer - dt <= 0 ->
  Rules.possession (GameScene.rules s') = h /\
  onlyHolder h s' /\
  Ball.state (GameScene.ball s') = Ball.held /\
  Ball.holderId (GameScene.ball s') = Some h /\
  Ball.isOutOfBounds (GameScene.ball s') = false /\
  GameScene.outOfBoundsTimer s' = None /\
  Rules.gameState (GameScene.rules s') = Rules.gameState (GameScene.rules s) /\
  Rules.shotClockActive (GameScene.rules s') = Rules.shotClockActive (GameScene.rules s).
Proof.
  intros s' h Hno Hflag Htimer Hexp.
  destruct (beforeLiveBallChecks_loose_ball dt input rnd s Hno Hflag) as (Hmid & Hlast).
  pose proof (expiry_at_checks dt timer input rnd s Hmid Htimer Hexp) as Hspec.
  cbv zeta in Hspec. rewrite Hlast in Hspec. exact Hspec.
Qed.

(** A live game, the ball lying one metre outside the left side line after
    the human last held it, the countdown at 0.01 s. *)
Definition ballOutLeft : GameScene.t :=
  GameScene.mk
    (Player.new Side.player Side.player 7 10)
    (Player.new Side.ai Side.ai 7 4)
    (Ball.mk (-1) 7 CONFIG.BALL.RADIUS 0 0 0 Ball.free (Some Side.player)
       false true false 0)
    (AIController.new (Player.new Side.ai Side.ai 7 4) "STANDARD")
    (Rules.startLiveBall (Rules.new GameSettings.new))
    GameSettings.new (Some (1 / 100)) None 0.

(** No key or button pressed, and draws of one half. *)
Definition noInput : GameScene.Input := GameScene.mkInput 0 0 false false false.
Definition someDraws : GameScene.Random :=
  GameScene.mkRandom (1 / 2) (AIController.mkRandom (1 / 2) (1 / 2)).

(** The tick of 1/60 s on which the countdown of [ballOutLeft] expires:
    possession and ball go to the AI, and the game is still in
    [liveBall] with the shot clock armed. *)
Lemma outOfBounds_expiry_keeps_gameState_witness :
  let s' := GameScene.update (1 / 60) noInput someDraws ballOutLeft in
  Rules.gameState (GameScene.rules ballOutLeft) = Rules.liveBall /\
  Rules.possession (GameScene.rules ballOutLeft) = Side.player /\
  Rules.possession (GameScene.rules s') = Side.ai /\
  Player.hasBall (GameScene.ai s') = true /\
  Player.hasBall (GameScene.player s') = false /\
  Ball.holderId (GameScene.ball s') = Some Side.ai /\
  Rules.gameState (GameScene.rules s') = Rules.liveBall /\
  Rules.shotClockActive (GameScene.rules s') = true.
Proof.
  intros s'.
  set (ticked :=
         GameScene.set_rules
           (Rules.set_shotClock (Fin (24 - 1 / 60)) (GameScene.rules ballOutLeft))
           ballOutLeft).
  assert (Hupd : s' = GameScene.handleLiveBall (1 / 60) noInput someDraws ticked).
  { unfold s', GameScene.update; cbn. decide_test. reflexivity. }
  destruct (outOfBounds_expiry_keeps_gameState (1 / 60) (1 / 100) noInput someDraws ticked)
    as (Hposs & Hh & _ & Hid & _ & _ & Hgs & Hsc).
  - split; reflexivity.
  - reflexivity.
  - reflexivity.
  - lra.
  - rewrite Hupd. repeat split; try assumption; apply Hh.
Defined.

(** ** Shot charging without the ball *)

Lemma applyMovement_shotCharging (dx dy : R) (p : Player.t) :
  Player.shotCharging (Player.applyMovement dx dy p) = Player.shotCharging p.
Proof. unfold Player.applyMovement; cbv zeta; split_tests; reflexivity. Qed.

Lemma Player_update_shotCharging (dt : R) (p : Player.t) :
  Player.shotCharging (Player.update dt p) = Player.shotCharging p.
Proof.
  unfold Player.update, Player.updateState, Player.updateStamina; cbv zeta.
  cbn. split_tests; reflexivity.
Qed.

Lemma clampToCourtBounds_shotCharging (p : Player.t) :
  Player.shotCharging (Physics.clampToCourtBounds p) = Player.shotCharging p.
Proof. unfold Physics.clampToCourtBounds; cbv zeta; cbn; split_tests; reflexivity. Qed.

Lemma chargeShot_shotCharging (dt : R) (p : Player.t) :
  Player.shotCharging (Player.chargeShot dt p) = Player.shotCharging p.
Proof. unfold Player.chargeShot; split_tests; reflexivity. Qed.

Lemma startShot_arms (angle : R) (p : Player.t) :
  Player.hasBall p = true -> Player.shotCharging (Player.startShot angle p) = true.
Proof. intros Hb. unfold Player.startShot. rewrite Hb. reflexivity. Qed.

(** [startShot] arms charging only for a player with the ball. *)
Lemma startShot_guard (angle : R) (p : Player.t) :
  Player.hasBall p = false -> Player.startShot angle p = p.
Proof. intros Hb. unfold Player.startShot. rewrite Hb. reflexivity. Qed.

(** The human holds the ball in [checkBall], it is the human's possession,
    and the ball is attached. *)
Definition humanToCheck (s : GameScene.t) : Prop :=
  Player.hasBall (GameScene.player s) = true /\
  Ball.state (GameScene.ball s) = Ball.held /\
  Rules.possession (GameScene.rules s) = Side.player.

(** Holding the left button down during a check-ball tick arms the
    human's shot charge. *)
Lemma handleCheckBall_arms_charge (dt : R) (input : GameScene.Input)
    (rnd : GameScene.Random) (s : GameScene.t) :
  humanToCheck s ->
  GameScene.pointerIsDown input = true ->
  GameScene.rightJustPressed input = false ->
  let s' := GameScene.handleCheckBall dt input rnd s in
  Player.hasBall (GameScene.player s') = true /\
  Player.shotCharging (GameScene.player s') = true.
Proof.
  intros Hs Hdown Hright.
  unfold GameScene.handleCheckBall, GameScene.handlePlayerInput; cbv zeta.
  (* movement *)
  assert (H1 : humanToCheck (GameScene.inputMovement dt input s)).
  { unfold humanToCheck, GameScene.inputMovement in *; cbv zeta.
    split_tests; cbn; rewrite ?applyMovement_hasBall; exact Hs. }
  revert H1. generalize (GameScene.inputMovement dt input s). clear s Hs. intros s Hs.
  (* sprint *)
  assert (H1 : humanToCheck (GameScene.inputSprint input s)) by exact Hs.
  revert H1. generalize (GameScene.inputSprint input s). clear s Hs. intros s Hs.
  (* shot *)
  assert (H1 : humanToCheck (GameScene.inputShot dt input s) /\
               Player.shotCharging (GameScene.player (GameScene.inputShot dt input s))
               = true).
  { destruct Hs as (Hb & Hst & Hposs).
    unfold humanToCheck, GameScene.inputShot; cbv zeta. rewrite Hb, Hdown.
    destruct (Player.shotCharging (GameScene.player s)) eqn:Hc; cbn.
    - rewrite Hc. cbn. rewrite chargeShot_hasBall, chargeShot_shotCharging. tauto.
    - rewrite (startShot_arms _ _ Hb). cbn.
      rewrite chargeShot_hasBall, chargeShot_shotCharging, startShot_hasBall.
      rewrite (startShot_arms _ _ Hb). tauto. }
  revert H1. generalize (GameScene.inputShot dt input s). clear s Hs. intros s [Hs Hc].
  (* right button *)
  unfold GameScene.inputRightClick. rewrite Hright.
  (* AI *)
  assert (H1 : humanToCheck (GameScene.checkBallAI dt rnd s) /\
               Player.shotCharging (GameScene.player (GameScene.checkBallAI dt rnd s))
               = true).
  { destruct Hs as (Hb & Hst & Hposs).
    unfold humanToCheck, GameScene.checkBallAI, Rules.getPossession; cbv zeta.
    rewrite Hposs. destruct (_ <? _); cbn; tauto. }
  revert H1. generalize (GameScene.checkBallAI dt rnd s). clear s Hs Hc. intros s [Hs Hc].
  (* kinematics *)
  assert (H1 : humanToCheck (GameScene.clampPlayers (GameScene.updatePlayers dt s)) /\
               Player.shotCharging
                 (GameScene.player (GameScene.clampPlayers (GameScene.updatePlayers dt s)))
               = true).
  { destruct Hs as (Hb & Hst & Hposs).
    unfold humanToCheck, GameScene.clampPlayers, GameScene.updatePlayers; cbn.
    rewrite clampToCourtBounds_hasBall, clampToCourtBounds_shotCharging,
      Player_update_hasBall, Player_update_shotCharging. tauto. }
  revert H1. generalize (GameScene.clampPlayers (GameScene.updatePlayers dt s)).
  clear s Hs Hc. intros s [Hs Hc].
  (* start of live play *)
  assert (H1 : Player.hasBall (GameScene.player (GameScene.checkBallStart dt s)) = true /\
               Ball.state (GameScene.ball (GameScene.checkBallStart dt s)) = Ball.held /\
               Player.shotCharging (GameScene.player (GameScene.checkBallStart dt s))
               = true).
  { destruct Hs as (Hb & Hst & Hposs).
    unfold GameScene.checkBallStart; cbv zeta. split_tests; cbn; tauto. }
  revert H1. generalize (GameScene.checkBallStart dt s).
  clear s Hs Hc. intros s (Hb & Hst & Hc).
  (* ball *)
  assert (H1 : GameScene.pickupIfFree
                 (GameScene.updateBall dt (GameScene.updateBallPosition s))
               = GameScene.updateBall dt (GameScene.updateBallPosition s)).
  { assert (Hheld : Ball.state
                      (GameScene.ball
                         (GameScene.updateBall dt (GameScene.updateBallPosition s)))
                    = Ball.held).
    { unfold GameScene.updateBall, GameScene.updateBallPosition.
      rewrite Hb, Hst. cbn. unfold Ball.update. cbn. rewrite Hst. cbn. exact Hst. }
    unfold GameScene.pickupIfFree. rewrite Hheld. reflexivity. }
  rewrite H1.
  unfold GameScene.updateBall, GameScene.updateBallPosition. rewrite Hb, Hst. cbn.
  tauto.
Qed.

(** The manual reset takes the ball from the player who has it and leaves
    that player's [shotCharging] as it was. *)
Lemma handleKeyR_takes_ball (s : GameScene.t) :
  Player.hasBall (GameScene.player s) = true ->
  Player.hasBall (GameScene.player (GameScene.handleKeyR s)) = false /\
  Player.shotCharging (GameScene.player (GameScene.handleKeyR s))
    = Player.shotCharging (GameScene.player s).
Proof.
  intros Hb. unfold GameScene.handleKeyR; cbv zeta. rewrite Hb. cbn. tauto.
Qed.

(** The left button held down, nothing else. *)
Definition holdLeftButton : GameScene.Input := GameScene.mkInput 0 0 false true false.

(** One tick with the left button down after the scene is entered, then
    the reset key. *)
Definition chargeThenReset : GameScene.t :=
  GameScene.handleKeyR
    (GameScene.update (1 / 60) holdLeftButton someDraws
       (GameScene.enter GameSettings.new None)).

Lemma chargeThenReset_reachable : reachable chargeThenReset.
Proof. apply reach_keyR, reach_update, reach_enter. Qed.

Lemma chargeThenReset_charging_without_ball :
  Player.shotCharging (GameScene.player chargeThenReset) = true /\
  Player.hasBall (GameScene.player chargeThenReset) = false.
Proof.
  unfold chargeThenReset.
  assert (Htick : GameScene.update (1 / 60) holdLeftButton someDraws
                    (GameScene.enter GameSettings.new None)
                  = GameScene.handleCheckBall (1 / 60) holdLeftButton someDraws
                      (GameScene.enter GameSettings.new None)) by reflexivity.
  rewrite Htick.
  destruct (handleCheckBall_arms_charge (1 / 60) holdLeftButton someDraws
              (GameScene.enter GameSettings.new None)) as (Hb & Hc);
    [repeat split | reflexivity | reflexivity |].
  destruct (handleKeyR_takes_ball _ Hb) as (Hnb & Hsame).
  rewrite Hsame, Hc, Hnb. tauto.
Qed.

(** C8 on the code.  The implication "[shotCharging] implies [hasBall]"
    is not preserved by the paths that take the ball away from a player:
    a successful steal clears the target's [hasBall] and leaves its
    [shotCharging] as it was, so a target that was charging a shot is left
    charging without the ball; the check-ball setup (after a shot-clock
    violation, an out-of-bounds recovery or a basket) likewise leaves both
    players' [shotCharging] untouched; and a state in which the human is
    charging without the ball is reachable. *)
Theorem shotCharging_survives_losing_the_ball :
  (forall input rnd s,
     GameScene.rightJustPressed input = true ->
     Player.hasBall (GameScene.player s) = false ->
     fst (Player.attemptSteal (GameScene.stealRoll rnd) (GameScene.ai s)
            (GameScene.player s)) = true ->
     let s' := GameScene.inputRightClick input rnd s in
     Player.hasBall (GameScene.player s') = true /\
     Player.hasBall (GameScene.ai s') = false /\
     Player.shotCharging (GameScene.ai s') = Player.shotCharging (GameScene.ai s)) /\
  (forall s,
     let s' := GameScene.setupInitialPositions s in
     Player.shotCharging (GameScene.player s') = Player.shotCharging (GameScene.player s) /\
     Player.shotCharging (GameScene.ai s') = Player.shotCharging (GameScene.ai s)) /\
  (exists s, reachable s /\
     Player.shotCharging (GameScene.player s) = true /\
     Player.hasBall (GameScene.player s) = false).
Proof.
  split; [|split].
  - intros input rnd s Hright Hnb Hok. unfold GameScene.inputRightClick.
    rewrite Hright, Hnb.
    destruct (Player.attemptSteal _ _ _) as [ok p']. cbn in Hok. subst ok.
    cbn. repeat split.
  - intros s. unfold GameScene.setupInitialPositions; cbv zeta.
    destruct (Rules.getPossession _); cbn; split; reflexivity.
  - exists chargeThenReset.
    split; [exact chargeThenReset_reachable|].
    exact chargeThenReset_charging_without_ball.
Qed.

(** Live play, the AI at (7, 4) charging a shot with the ball, the human at
    (7.3, 4.4) off cooldown. *)
Definition aiCharging : GameScene.t :=
  GameScene.mk
    (Player.new Side.player Side.player (73 / 10) (44 / 10))
    (Player.mk Side.ai Side.ai 7 4 0 0 0 100 false true Player.shoot 0 (3 / 10)
       true 0 0 0 0)
    (Ball.mk 7 4 (12 / 10) 0 0 0 Ball.held (Some Side.ai) false false false 0)
    (AIController.set_state AIController.shoot
       (AIController.new (Player.new Side.ai Side.ai 7 4) "STANDARD"))
    (Rules.startLiveBall (Rules.changePossession Side.ai (Rules.new GameSettings.new)))
    GameSettings.new None None 0.

(** The right button alone. *)
Definition rightClick : GameScene.Input := GameScene.mkInput 0 0 false false true.

(** The draws of a tick whose steal roll is 0.1. *)
Definition luckyDraws : GameScene.Random :=
  GameScene.mkRandom (1 / 10) (AIController.mkRandom (1 / 2) (1 / 2)).

(** The human's right click on [aiCharging] with the draw 0.1: the steal
    succeeds (distance 0.5, chance 0.157), and the AI is left charging a
    shot without the ball. *)
Lemma shotCharging_survives_losing_the_ball_witness :
  let s' := GameScene.handlePlayerInput (1 / 60) rightClick luckyDraws aiCharging in
  Player.hasBall (GameScene.ai aiCharging) = true /\
  Player.shotCharging (GameScene.ai aiCharging) = true /\
  Player.hasBall (GameScene.player s') = true /\
  Player.hasBall (GameScene.ai s') = false /\
  Player.shotCharging (GameScene.ai s') = true.
Proof.
  intros s'.
  set (mid := GameScene.inputShot (1 / 60) rightClick
                (GameScene.inputSprint rightClick
                   (GameScene.inputMovement (1 / 60) rightClick aiCharging))).
  assert (Hs' : s' = GameScene.inputRightClick rightClick luckyDraws mid) by reflexivity.
  assert (Hmid : mid =
                 GameScene.set_player
                   (Player.set_isSprinting
                      (false && (100 >? CONFIG.PLAYER.STAMINA_MIN_FOR_SPRINT))
                      (GameScene.player aiCharging))
                   (GameScene.set_sneakerSoundTimer 0 aiCharging)).
  { unfold mid, GameScene.inputMovement; cbn.
    replace (0 =? 0) with true by (symmetry; apply Reqb_true; reflexivity).
    reflexivity. }
  destruct shotCharging_survives_losing_the_ball as (Hsteal & _).
  destruct (Hsteal rightClick luckyDraws mid) as (Hp & Ha & Hc).
  - reflexivity.
  - rewrite Hmid; reflexivity.
  - rewrite Hmid. cbn [GameScene.player GameScene.ai GameScene.set_player
                        GameScene.set_sneakerSoundTimer andb].
    rewrite attemptSteal_attempted.
    + cbn. apply Rltb_true.
      rewrite (distance_of_square _ _ _ _ (1 / 2)) by lra.
      autounfold with config. lra.
    + unfold stealRejected. cbn.
      rewrite (distance_of_square _ _ _ _ (1 / 2)) by lra.
      autounfold with config.
      intros [H | [H | [H | H]]]; try discriminate; lra.
  - rewrite Hs'. repeat split; try assumption.
    rewrite Hc, Hmid. reflexivity.
Defined.

(** ** Concrete runs *)

(** The invariant at the state reached by one idle tick after [enter], and
    at the state after the reset key. *)
Lemma at_most_one_holder_witness :
  ~ (Player.hasBall
       (GameScene.player
          (GameScene.update (1 / 60) noInput someDraws
             (GameScene.enter GameSettings.new None))) = true /\
     Player.hasBall
       (GameScene.ai
          (GameScene.update (1 / 60) noInput someDraws
             (GameScene.enter GameSettings.new None))) = true) /\
  ~ (Player.hasBall (GameScene.player chargeThenReset) = true /\
     Player.hasBall (GameScene.ai chargeThenReset) = true).
Proof.
  destruct at_most_one_holder as (Hinv & _).
  split.
  - apply Hinv. apply reach_update, reach_enter.
  - apply Hinv. apply reach_keyR, reach_update, reach_enter.
Defined.

(** A two-pointer from 7 m under the street preset, by the human trailing
    0 to 9: possession to the human, [checkBall], clock disarmed. *)
Example scorePoints_long_range :
  let r := Rules.set_aiScore 9 (Rules.startLiveBall (Rules.new GameSettings.new)) in
  let r' := Rules.scorePoints Side.player (15 / 2) (82 / 10) r in
  Rules.playerScore r' = 2%Z /\ Rules.aiScore r' = 9%Z /\
  Rules.possession r' = Side.player /\ Rules.gameState r' = Rules.checkBall /\
  Rules.shotClockActive r' = false.
Proof.
  intros r r'.
  assert (H3 : Physics.isThreePoint (15 / 2) (82 / 10) = true).
  { apply isThreePoint_true.
    rewrite (distance_of_square _ _ _ _ 7) by (autounfold with config; lra).
    autounfold with config; lra. }
  unfold r', Rules.scorePoints; cbv zeta. rewrite H3. cbn. repeat split.
Qed.

(** The winning basket: inside the arc, by the AI leading 10 to 3. *)
Example scorePoints_wins :
  let r :=
    Rules.set_aiScore 10
      (Rules.set_playerScore 3 (Rules.startLiveBall (Rules.new GameSettings.new))) in
  let r' := Rules.scorePoints Side.ai (15 / 2) (42 / 10) r in
  Rules.aiScore r' = 11%Z /\ Rules.playerScore r' = 3%Z /\
  Rules.possession r' = Side.ai /\ Rules.gameState r' = Rules.gameOver.
Proof.
  intros r r'.
  assert (H2 : Physics.isThreePoint (15 / 2) (42 / 10) = false).
  { destruct (Physics.isThreePoint (15 / 2) (42 / 10)) eqn:Ht; [|reflexivity].
    apply isThreePoint_true in Ht.
    rewrite (distance_of_square _ _ _ _ 3) in Ht by (autounfold with config; lra).
    autounfold with config in Ht; lra. }
  unfold r', Rules.scorePoints; cbv zeta. rewrite H2. cbn. repeat split.
Qed.

(** * Further properties of the code *)

(** ** Math utilities *)

Lemma clamp_cases (value min max : R) :
  min <= max ->
  min <= MathUtil.clamp value min max <= max /\
  (value <= min -> MathUtil.clamp value min max = min) /\
  (max <= value -> MathUtil.clamp value min max = max) /\
  (min <= value <= max -> MathUtil.clamp value min max = value).
Proof.
  intros Hb. unfold MathUtil.clamp, Rmin, Rmax.
  destruct (Rle_dec value min); destruct (Rle_dec _ max);
    repeat split; intros; lra.
Qed.

(** X1. [clamp(value, min, max)] with [min <= max] returns a value between
    [min] and [max], and [value] itself when it already lies there; with
    the bounds swapped ([max < min]) it returns [max] whatever the value. *)
Theorem clamp_range (value min max : R) :
  (min <= max ->
   min <= MathUtil.clamp value min max <= max /\
   (min <= value <= max -> MathUtil.clamp value min max = value) /\
   (value < min -> MathUtil.clamp value min max = min) /\
   (max < value -> MathUtil.clamp value min max = max)) /\
  (max < min -> MathUtil.clamp value min max = max).
Proof.
  unfold MathUtil.clamp, Rmin, Rmax.
  split; intros Hb;
    destruct (Rle_dec value min); destruct (Rle_dec _ max);
    repeat split; intros; try lra.
Qed.

Lemma clamp_range_witness :
  MathUtil.clamp (3 / 2) (2 / 10) 1 = 1 /\
  MathUtil.clamp (1 / 2) (2 / 10) 1 = 1 / 2 /\
  MathUtil.clamp (1 / 2) 1 (2 / 10) = 2 / 10.
Proof.
  destruct (clamp_range (3 / 2) (2 / 10) 1) as (Hin & _).
  destruct (clamp_range (1 / 2) (2 / 10) 1) as (Hin' & _).
  destruct (clamp_range (1 / 2) 1 (2 / 10)) as (_ & Hswap).
  destruct Hin as (_ & _ & _ & Hhi); [lra|].
  destruct Hin' as (_ & Hid & _); [lra|].
  split; [apply Hhi; lra|].
  split; [apply Hid; lra|].
  apply Hswap; lra.
Defined.

Lemma distance_zero_iff (x1 y1 x2 y2 : R) :
  MathUtil.distance x1 y1 x2 y2 = 0 <-> x1 = x2 /\ y1 = y2.
Proof.
  split.
  - intros H0. pose proof (distance_sqr x1 y1 x2 y2) as Hsq.
    rewrite H0 in Hsq.
    pose proof (Rle_0_sqr (x2 - x1)) as Hx; pose proof (Rle_0_sqr (y2 - y1)) as Hy.
    unfold Rsqr in Hx, Hy.
    assert (Hdx : (x2 - x1) * (x2 - x1) = 0) by lra.
    assert (Hdy : (y2 - y1) * (y2 - y1) = 0) by lra.
    apply Rmult_integral in Hdx. apply Rmult_integral in Hdy.
    split; [destruct Hdx | destruct Hdy]; lra.
  - intros [-> ->]. apply distance_same.
Qed.

Lemma distance_sym (x1 y1 x2 y2 : R) :
  MathUtil.distance x1 y1 x2 y2 = MathUtil.distance x2 y2 x1 y1.
Proof. unfold MathUtil.distance; cbv zeta. f_equal. ring. Qed.

(** X2. [distance] is symmetric and is zero exactly for equal points, so
    [circleIntersect] does not depend on the order of the two circles and
    a circle of positive radius intersects itself. *)
Theorem distance_and_circleIntersect (x1 y1 r1 x2 y2 r2 : R) :
  MathUtil.distance x1 y1 x2 y2 = MathUtil.distance x2 y2 x1 y1 /\
  (MathUtil.distance x1 y1 x2 y2 = 0 <-> x1 = x2 /\ y1 = y2) /\
  MathUtil.circleIntersect x1 y1 r1 x2 y2 r2 = MathUtil.circleIntersect x2 y2 r2 x1 y1 r1 /\
  MathUtil.circleIntersect x1 y1 r1 x1 y1 r1 = (0 <? r1 + r1).
Proof.
  split; [apply distance_sym|].
  split; [apply distance_zero_iff|].
  unfold MathUtil.circleIntersect; cbv zeta.
  rewrite (distance_sym x1 y1 x2 y2), (Rplus_comm r1 r2), distance_same.
  split; reflexivity.
Qed.

(** ** Court bounds (Physics.clampToCourtBounds) *)

(** A position inside the court, a player's radius away from every line. *)
Definition insideCourt (x y : R) : Prop :=
  CONFIG.PLAYER.RADIUS <= x <= CONFIG.COURT.WIDTH - CONFIG.PLAYER.RADIUS /\
  CONFIG.PLAYER.RADIUS <= y <= CONFIG.COURT.LENGTH - CONFIG.PLAYER.RADIUS.

Lemma clampToCourtBounds_xy (p : Player.t) :
  Player.x (Physics.clampToCourtBounds p) =
    MathUtil.clamp (Player.x p) CONFIG.PLAYER.RADIUS
      (CONFIG.COURT.WIDTH - CONFIG.PLAYER.RADIUS) /\
  Player.y (Physics.clampToCourtBounds p) =
    MathUtil.clamp (Player.y p) CONFIG.PLAYER.RADIUS
      (CONFIG.COURT.LENGTH - CONFIG.PLAYER.RADIUS).
Proof.
  assert (Hw : CONFIG.PLAYER.RADIUS <= CONFIG.COURT.WIDTH - CONFIG.PLAYER.RADIUS)
    by (autounfold with config; lra).
  assert (Hl : CONFIG.PLAYER.RADIUS <= CONFIG.COURT.LENGTH - CONFIG.PLAYER.RADIUS)
    by (autounfold with config; lra).
  destruct (clamp_cases (Player.x p) _ _ Hw) as (_ & Hx1 & Hx2 & Hx3).
  destruct (clamp_cases (Player.y p) _ _ Hl) as (_ & Hy1 & Hy2 & Hy3).
  unfold Physics.clampToCourtBounds; cbv zeta; cbn.
  repeat match goal with
  | |- context [if ?c then _ else _] =>
      lazymatch c with
      | context [if _ then _ else _] => fail
      | _ => destruct c eqn:?; cbn in *
      end
  end;
  reflect_tests;
  (split;
   [first [rewrite Hx1 by lra | rewrite Hx2 by lra | rewrite Hx3 by lra]
   |first [rewrite Hy1 by lra | rewrite Hy2 by lra | rewrite Hy3 by lra]];
   try reflexivity; lra).
Qed.

(** X3. [clampToCourtBounds] puts the player inside the court, changes
    nothing but [x] and [y], leaves a player who is inside where it is, and
    applying it twice is the same as applying it once. *)
Theorem clampToCourtBounds_inside (p : Player.t) :
  let p' := Physics.clampToCourtBounds p in
  insideCourt (Player.x p') (Player.y p') /\
  p' = Player.set_y (Player.y p') (Player.set_x (Player.x p') p) /\
  (insideCourt (Player.x p) (Player.y p) -> p' = p) /\
  Physics.clampToCourtBounds p' = p'.
Proof.
  intros p'.
  assert (Hin : forall q, insideCourt (Player.x q) (Player.y q) ->
                          Physics.clampToCourtBounds q = q).
  { intros q [[Hx1 Hx2] [Hy1 Hy2]].
    unfold Physics.clampToCourtBounds; cbv zeta; cbn.
    replace (Player.x q <? CONFIG.PLAYER.RADIUS) with false
      by (symmetry; apply Rltb_false; lra).
    replace (Player.x q >? CONFIG.COURT.WIDTH - CONFIG.PLAYER.RADIUS) with false
      by (symmetry; apply Rltb_false; lra).
    replace (Player.y q <? CONFIG.PLAYER.RADIUS) with false
      by (symmetry; apply Rltb_false; lra).
    replace (Player.y q >? CONFIG.COURT.LENGTH - CONFIG.PLAYER.RADIUS) with false
      by (symmetry; apply Rltb_false; lra).
    reflexivity. }
  assert (Hp' : insideCourt (Player.x p') (Player.y p')).
  { destruct (clampToCourtBounds_xy p) as (Hx & Hy). fold p' in Hx, Hy.
    unfold insideCourt. rewrite Hx, Hy.
    split; apply clamp_cases; autounfold with config; lra. }
  split; [exact Hp'|].
  split.
  - unfold p', Physics.clampToCourtBounds; cbv zeta; cbn.
    split_tests; destruct p; reflexivity.
  - split; [apply Hin | apply Hin, Hp'].
Qed.

Lemma clampToCourtBounds_inside_witness :
  let p := Player.new Side.player Side.player 7 10 in
  Physics.clampToCourtBounds p = p.
Proof.
  intros p.
  destruct (clampToCourtBounds_inside p) as (_ & _ & Hid & _).
  apply Hid. unfold insideCourt; cbn; autounfold with config; lra.
Defined.

(** ** Collisions in the tick (Physics.checkPlayerCollision, GameScene.handleLiveBall) *)

Lemma checkPlayerCollision_true (p1 p2 : Player.t) :
  Physics.checkPlayerCollision p1 p2 = true <->
  MathUtil.distance (Player.x p1) (Player.y p1) (Player.x p2) (Player.y p2)
    < CONFIG.PLAYER.RADIUS * 2.
Proof.
  unfold Physics.checkPlayerCollision, MathUtil.circleIntersect; cbn.
  rewrite Rltb_true. split; lra.
Qed.



(** ** Player kinematics *)

Lemma updateState_fields (dt : R) (q : Player.t) :
  let q' := Player.updateState dt q in
  Player.stamina q' = Player.stamina q /\
  Player.isSprinting q' = Player.isSprinting q /\
  Player.stealCooldown q' = Player.stealCooldown q /\
  Player.stepBackCooldown q' = Player.stepBackCooldown q /\
  Player.invulnerableTime q' = Player.invulnerableTime q /\
  Player.shotPower q' = Player.shotPower q /\
  Player.hasBall q' = Player.hasBall q /\
  Player.shotCharging q' = Player.shotCharging q.
Proof.
  unfold Player.updateState; cbv zeta.
  repeat match goal with
  | |- context [if ?c then _ else _] => destruct c eqn:?
  end; cbn; repeat split; congruence.
Qed.

Lemma updateStamina_fields (dt : R) (q : Player.t) :
  0 <= dt ->
  0 <= Player.stamina q <= CONFIG.PLAYER.STAMINA_MAX ->
  let q' := Player.updateStamina dt q in
  0 <= Player.stamina q' <= CONFIG.PLAYER.STAMINA_MAX /\
  (Player.isSprinting q' = true ->
   Player.isSprinting q = true /\
   Player.stamina q' = Player.stamina q - CONFIG.PLAYER.STAMINA_SPRINT_DRAIN * dt) /\
  Player.stealCooldown q' = Player.stealCooldown q /\
  Player.stepBackCooldown q' = Player.stepBackCooldown q /\
  Player.invulnerableTime q' = Player.invulnerableTime q /\
  Player.shotPower q' = Player.shotPower q /\
  Player.hasBall q' = Player.hasBall q /\
  Player.shotCharging q' = Player.shotCharging q.
Proof.
  intros Hdt Hst. unfold Player.updateStamina; cbv zeta.
  destruct (Player.isSprinting q) eqn:Hsp; cbn;
    destruct (_ <? _) eqn:Ht; cbn; reflect_tests; autounfold with config in *;
    repeat split; intros; try discriminate; try reflexivity; try lra;
    try congruence.
Qed.

(** X5. One [update(dt)] with [dt >= 0] keeps the stamina within
    [0 .. STAMINA_MAX], leaves the three cooldown timers non-negative and
    not above their former values, never starts a sprint, ends the sprint
    when the stamina runs out, and touches none of [hasBall],
    [shotCharging] and [shotPower]. *)
Theorem Player_update_keeps_ranges (dt : R) (p : Player.t) :
  0 <= dt ->
  0 <= Player.stamina p <= CONFIG.PLAYER.STAMINA_MAX ->
  let p' := Player.update dt p in
  0 <= Player.stamina p' <= CONFIG.PLAYER.STAMINA_MAX /\
  0 <= Player.stealCooldown p' <= Rmax 0 (Player.stealCooldown p) /\
  0 <= Player.stepBackCooldown p' <= Rmax 0 (Player.stepBackCooldown p) /\
  0 <= Player.invulnerableTime p' <= Rmax 0 (Player.invulnerableTime p) /\
  (Player.isSprinting p' = true ->
   Player.isSprinting p = true /\
   Player.stamina p' = Player.stamina p - CONFIG.PLAYER.STAMINA_SPRINT_DRAIN * dt) /\
  Player.hasBall p' = Player.hasBall p /\
  Player.shotCharging p' = Player.shotCharging p /\
  Player.shotPower p' = Player.shotPower p.
Proof.
  intros Hdt Hst p'.
  assert (Hcd : forall c, 0 <= Rmax 0 (c - dt) <= Rmax 0 c).
  { intros c. unfold Rmax.
    destruct (Rle_dec 0 (c - dt)); destruct (Rle_dec 0 c); lra. }
  unfold p', Player.update; cbv zeta.
  match goal with
  | |- context [Player.updateStamina dt ?q] => remember q as moved eqn:Hmoved
  end.
  assert (Hm : Player.stamina moved = Player.stamina p /\
               Player.isSprinting moved = Player.isSprinting p /\
               Player.stealCooldown moved = Rmax 0 (Player.stealCooldown p - dt) /\
               Player.stepBackCooldown moved = Rmax 0 (Player.stepBackCooldown p - dt) /\
               Player.invulnerableTime moved = Rmax 0 (Player.invulnerableTime p - dt) /\
               Player.shotPower moved = Player.shotPower p /\
               Player.hasBall moved = Player.hasBall p /\
               Player.shotCharging moved = Player.shotCharging p)
    by (rewrite Hmoved; repeat split).
  clear Hmoved.
  destruct Hm as (Hm1 & Hm2 & Hm3 & Hm4 & Hm5 & Hm6 & Hm7 & Hm8).
  assert (Hst' : 0 <= Player.stamina moved <= CONFIG.PLAYER.STAMINA_MAX)
    by (rewrite Hm1; exact Hst).
  pose proof (updateStamina_fields dt moved Hdt Hst') as Hs.
  remember (Player.updateStamina dt moved) as rested eqn:Hrested. clear Hrested.
  pose proof (updateState_fields dt rested) as Hu.
  remember (Player.updateState dt rested) as final eqn:Hfinal. clear Hfinal.
  cbv zeta in Hs, Hu.
  destruct Hs as (Hs1 & Hs2 & Hs3 & Hs4 & Hs5 & Hs6 & Hs7 & Hs8).
  destruct Hu as (Hu1 & Hu2 & Hu3 & Hu4 & Hu5 & Hu6 & Hu7 & Hu8).
  rewrite Hu1, Hu2, Hu3, Hu4, Hu5, Hu6, Hu7, Hu8, Hs3, Hs4, Hs5, Hs6, Hs7, Hs8,
    Hm3, Hm4, Hm5, Hm6, Hm7, Hm8.
  split; [exact Hs1|].
  split; [apply Hcd|]. split; [apply Hcd|]. split; [apply Hcd|].
  split; [|repeat split].
  intros Hsp. destruct (Hs2 Hsp) as (Ha & Hb). rewrite <- Hm1, <- Hm2. split; assumption.
Qed.

Lemma Player_update_keeps_ranges_witness :
  let p := Player.set_isSprinting true (Player.new Side.player Side.player 7 10) in
  0 <= Player.stamina (Player.update (1 / 60) p) <= CONFIG.PLAYER.STAMINA_MAX.
Proof.
  intros p.
  destruct (Player_update_keeps_ranges (1 / 60) p) as (Hs & _).
  - lra.
  - cbn; autounfold with config; lra.
  - exact Hs.
Defined.

Lemma scaled_norm (vx vy speed : R) :
  0 < sqrt (vx * vx + vy * vy) ->
  0 <= speed ->
  let cs := sqrt (vx * vx + vy * vy) in
  sqrt (vx / cs * speed * (vx / cs * speed) + vy / cs * speed * (vy / cs * speed))
    = speed.
Proof.
  intros Hpos Hs cs.
  assert (Hsq : cs * cs = vx * vx + vy * vy).
  { apply sqrt_sqrt.
    pose proof (Rle_0_sqr vx) as Hx; pose proof (Rle_0_sqr vy) as Hy.
    unfold Rsqr in Hx, Hy; lra. }
  fold cs in Hpos.
  replace (vx / cs * speed * (vx / cs * speed) + vy / cs * speed * (vy / cs * speed))
    with (speed * speed).
  - apply sqrt_square, Hs.
  - transitivity ((vx * vx + vy * vy) * (speed * speed) / (cs * cs)).
    + rewrite <- Hsq. field. lra.
    + field. lra.
Qed.

Lemma getEffectiveSpeed_range (p : Player.t) :
  288 / 100 <= Player.getEffectiveSpeed p <= 72 / 10.
Proof.
  unfold Player.getEffectiveSpeed; cbv zeta. autounfold with config.
  destruct (_ && _); destruct (_ <? _); lra.
Qed.

(** X6. [applyMovement] never leaves the player faster than the effective
    speed, which lies between 2.88 and 7.2 m/s whatever the stamina and the
    sprint flag; it moves nobody (only velocity and facing change) and keeps
    the facing when the direction is the zero vector. *)
Theorem applyMovement_speed_limit (dirX dirY : R) (p : Player.t) :
  let p' := Player.applyMovement dirX dirY p in
  sqrt (Player.vx p' * Player.vx p' + Player.vy p' * Player.vy p')
    <= Player.getEffectiveSpeed p /\
  288 / 100 <= Player.getEffectiveSpeed p <= 72 / 10 /\
  Player.getEffectiveSpeed p' = Player.getEffectiveSpeed p /\
  Player.x p' = Player.x p /\ Player.y p' = Player.y p /\
  (dirX = 0 -> dirY = 0 -> Player.facing p' = Player.facing p).
Proof.
  intros p'.
  pose proof (getEffectiveSpeed_range p) as Hr.
  unfold p', Player.applyMovement; cbv zeta.
  set (vx1 := Player.vx p + dirX * CONFIG.PLAYER.ACCELERATION * (1 / 60)).
  set (vy1 := Player.vy p + dirY * CONFIG.PLAYER.ACCELERATION * (1 / 60)).
  cbn [Player.vx Player.vy Player.set_vx Player.set_vy].
  fold vx1 vy1.
  destruct (Player.getEffectiveSpeed p <? sqrt (vx1 * vx1 + vy1 * vy1)) eqn:Hfast;
    reflect_tests.
  - assert (Hnorm :
      sqrt (vx1 / sqrt (vx1 * vx1 + vy1 * vy1) * Player.getEffectiveSpeed p *
            (vx1 / sqrt (vx1 * vx1 + vy1 * vy1) * Player.getEffectiveSpeed p) +
            vy1 / sqrt (vx1 * vx1 + vy1 * vy1) * Player.getEffectiveSpeed p *
            (vy1 / sqrt (vx1 * vx1 + vy1 * vy1) * Player.getEffectiveSpeed p))
      = Player.getEffectiveSpeed p) by (apply scaled_norm; lra).
    destruct (negb (dirX =? 0) || negb (dirY =? 0)) eqn:Hdir; cbn;
      rewrite Hnorm; repeat split; try lra; try reflexivity.
    + intros -> ->. exfalso.
      replace (0 =? 0) with true in Hdir by (symmetry; apply Reqb_true; reflexivity).
      discriminate.
  - destruct (negb (dirX =? 0) || negb (dirY =? 0)) eqn:Hdir; cbn;
      repeat split; try lra; try reflexivity.
    + intros -> ->. exfalso.
      replace (0 =? 0) with true in Hdir by (symmetry; apply Reqb_true; reflexivity).
      discriminate.
Qed.

(** X7. [chargeShot] does nothing to a player who is not charging; for a
    charging player it changes [shotPower] only, to the power plus
    [POWER_CHARGE_RATE * dt] clamped into
    [MIN_SHOT_POWER .. MAX_SHOT_POWER], so the power is within that range
    after every charge, does not decrease for [dt >= 0] (from a power not
    above the maximum) and is the maximum once the sum reaches it. *)
Theorem chargeShot_range (dt : R) (p : Player.t) :
  let p' := Player.chargeShot dt p in
  (Player.shotCharging p = false -> p' = p) /\
  (Player.shotCharging p = true ->
   p' = Player.set_shotPower
          (MathUtil.clamp (Player.shotPower p + CONFIG.BALL.POWER_CHARGE_RATE * dt)
             CONFIG.BALL.MIN_SHOT_POWER CONFIG.BALL.MAX_SHOT_POWER) p /\
   CONFIG.BALL.MIN_SHOT_POWER <= Player.shotPower p' <= CONFIG.BALL.MAX_SHOT_POWER /\
   (0 <= dt -> Player.shotPower p <= CONFIG.BALL.MAX_SHOT_POWER ->
    Player.shotPower p <= Player.shotPower p') /\
   (CONFIG.BALL.MAX_SHOT_POWER <= Player.shotPower p + CONFIG.BALL.POWER_CHARGE_RATE * dt ->
    Player.shotPower p' = CONFIG.BALL.MAX_SHOT_POWER)).
Proof.
  intros p'. unfold p', Player.chargeShot.
  split; intros Hc; rewrite Hc; cbn [negb]; [reflexivity|].
  assert (Hb : CONFIG.BALL.MIN_SHOT_POWER <= CONFIG.BALL.MAX_SHOT_POWER)
    by (autounfold with config; lra).
  split; [destruct p; reflexivity|]. cbn.
  destruct (clamp_cases (Player.shotPower p + CONFIG.BALL.POWER_CHARGE_RATE * dt)
              _ _ Hb) as (Hrange & Hlo & Hmax & Hid).
  split; [exact Hrange|]. split; [|exact Hmax].
  intros Hdt Hle.
  destruct (Rle_lt_dec CONFIG.BALL.MAX_SHOT_POWER
              (Player.shotPower p + CONFIG.BALL.POWER_CHARGE_RATE * dt)) as [Hge | Hlt].
  - rewrite (Hmax Hge). exact Hle.
  - destruct (Rlt_le_dec (Player.shotPower p + CONFIG.BALL.POWER_CHARGE_RATE * dt)
                CONFIG.BALL.MIN_SHOT_POWER) as [Hlow | Hmid].
    + rewrite Hlo by lra. autounfold with config in *. lra.
    + rewrite Hid by lra. autounfold with config in *. lra.
Qed.

Lemma chargeShot_range_witness :
  let p :=
    Player.startShot 0 (Player.set_hasBall true (Player.new Side.player Side.player 7 10)) in
  Player.shotPower (Player.chargeShot (1 / 60) p) = 2 / 10 /\
  Player.shotPower (Player.chargeShot 1 p) = 1 /\
  Player.chargeShot 1 (Player.new Side.player Side.player 7 10)
    = Player.new Side.player Side.player 7 10.
Proof.
  intros p.
  destruct (chargeShot_range (1 / 60) p) as (_ & Hc).
  destruct (Hc eq_refl) as (Hp & _).
  destruct (chargeShot_range 1 p) as (_ & Hc1).
  destruct (Hc1 eq_refl) as (_ & _ & _ & Hfull).
  destruct (chargeShot_range 1 (Player.new Side.player Side.player 7 10)) as (Hidle & _).
  split; [|split; [|apply Hidle; reflexivity]].
  - rewrite Hp. cbn.
    apply clamp_cases; autounfold with config; lra.
  - apply Hfull. cbn. autounfold with config. lra.
Defined.

Lemma applyMovement_speed_limit_witness :
  let p := Player.new Side.player Side.player 7 10 in
  Player.facing (Player.applyMovement 0 0 p) = Player.facing p /\
  sqrt (Player.vx (Player.applyMovement 1 0 p) * Player.vx (Player.applyMovement 1 0 p) +
        Player.vy (Player.applyMovement 1 0 p) * Player.vy (Player.applyMovement 1 0 p))
    <= 72 / 10.
Proof.
  intros p.
  destruct (applyMovement_speed_limit 0 0 p) as (_ & _ & _ & _ & _ & Hface).
  destruct (applyMovement_speed_limit 1 0 p) as (Hlim & Hrange & _).
  split; [apply Hface; reflexivity | lra].
Defined.

(** ** Step-back, steal and shot: how the calls compose *)

(** X8. [performStepBack] on cooldown returns [false] and changes nothing.
    Off cooldown it returns [true], moves the player by exactly 1.5 m
    against the facing direction, and arms the cooldown and the
    invulnerability window; a second step-back right after it is rejected,
    and so is every steal attempt against the player who just stepped
    back. *)
Theorem performStepBack_contract (p : Player.t) :
  (0 < Player.stepBackCooldown p -> Player.performStepBack p = (false, p)) /\
  (Player.stepBackCooldown p <= 0 ->
   let p' := snd (Player.performStepBack p) in
   fst (Player.performStepBack p) = true /\
   Player.x p' = Player.x p - cos (Player.facing p) * (15 / 10) /\
   Player.y p' = Player.y p - sin (Player.facing p) * (15 / 10) /\
   MathUtil.distance (Player.x p) (Player.y p) (Player.x p') (Player.y p') = 15 / 10 /\
   Player.stepBackCooldown p' = CONFIG.GAME.STEPBACK_COOLDOWN /\
   Player.invulnerableTime p' = CONFIG.GAME.STEPBACK_INVULN_TIME /\
   Player.hasBall p' = Player.hasBall p /\
   Player.performStepBack p' = (false, p') /\
   (forall random thief, Player.attemptSteal random p' thief = (false, thief))).
Proof.
  unfold Player.performStepBack; cbv zeta. split.
  - intros Hcd.
    replace (Player.stepBackCooldown p >? 0) with true
      by (symmetry; apply Rltb_true; exact Hcd).
    reflexivity.
  - intros Hcd.
    replace (Player.stepBackCooldown p >? 0) with false
      by (symmetry; apply Rltb_false; exact Hcd).
    cbn. rewrite neg_cos, neg_sin.
    repeat split; try ring.
    + apply distance_of_square; [lra|].
      pose proof (sin2_cos2 (Player.facing p)) as Hsc. unfold Rsqr in Hsc.
      replace ((Player.x p + - cos (Player.facing p) * (15 / 10) - Player.x p) *
               (Player.x p + - cos (Player.facing p) * (15 / 10) - Player.x p) +
               (Player.y p + - sin (Player.facing p) * (15 / 10) - Player.y p) *
               (Player.y p + - sin (Player.facing p) * (15 / 10) - Player.y p))
        with ((sin (Player.facing p) * sin (Player.facing p) +
               cos (Player.facing p) * cos (Player.facing p)) * (15 / 10 * (15 / 10)))
        by ring.
      rewrite Hsc; ring.
    + replace (CONFIG.GAME.STEPBACK_COOLDOWN >? 0) with true
        by (symmetry; apply Rltb_true; autounfold with config; lra).
      reflexivity.
    + intros random thief. apply attemptSteal_rejected.
      right; right; left. cbn. autounfold with config. lra.
Qed.

Lemma performStepBack_contract_witness :
  let p := Player.set_hasBall true (Player.new Side.player Side.player 7 10) in
  fst (Player.performStepBack p) = true /\
  Player.performStepBack (snd (Player.performStepBack p))
    = (false, snd (Player.performStepBack p)) /\
  Player.performStepBack (Player.set_stepBackCooldown (1 / 10) p)
    = (false, Player.set_stepBackCooldown (1 / 10) p).
Proof.
  intros p.
  destruct (performStepBack_contract p) as (_ & Hok).
  destruct Hok as (Hres & _ & _ & _ & _ & _ & _ & Hagain & _); [cbn; lra|].
  destruct (performStepBack_contract (Player.set_stepBackCooldown (1 / 10) p))
    as (Hcd & _).
  repeat split; [exact Hres | exact Hagain | apply Hcd; cbn; lra].
Defined.

(** X9. A steal attempt that passes the guards blocks the attacker's next
    attempts: a second attempt right away is rejected, and so is one made
    after an [update] of less than [STEAL_COOLDOWN] seconds; after an
    [update] of at least [STEAL_COOLDOWN] seconds the cooldown is zero
    again. *)
Theorem attemptSteal_cooldown (random : R) (target p : Player.t) :
  ~ stealRejected target p ->
  let p' := snd (Player.attemptSteal random target p) in
  (forall random' target', Player.attemptSteal random' target' p' = (false, p')) /\
  (forall dt random' target', 0 <= dt < CONFIG.GAME.STEAL_COOLDOWN ->
     Player.attemptSteal random' target' (Player.update dt p')
       = (false, Player.update dt p')) /\
  (forall dt, CONFIG.GAME.STEAL_COOLDOWN <= dt ->
     Player.stealCooldown (Player.update dt p') = 0).
Proof.
  intros Hnot p'.
  assert (Hcd : Player.stealCooldown p' = CONFIG.GAME.STEAL_COOLDOWN).
  { unfold p'. rewrite (attemptSteal_attempted random target p Hnot). reflexivity. }
  assert (Hupd : forall dt, Player.stealCooldown (Player.update dt p')
                            = Rmax 0 (CONFIG.GAME.STEAL_COOLDOWN - dt)).
  { intros dt. rewrite <- Hcd.
    unfold Player.update, Player.updateState, Player.updateStamina; cbv zeta; cbn.
    split_tests; reflexivity. }
  split; [|split].
  - intros random' target'. apply attemptSteal_rejected. left.
    rewrite Hcd. autounfold with config. lra.
  - intros dt random' target' Hdt. apply attemptSteal_rejected. left.
    rewrite Hupd. unfold Rmax. destruct (Rle_dec _ _); lra.
  - intros dt Hdt. rewrite Hupd. unfold Rmax. destruct (Rle_dec _ _); lra.
Qed.

Lemma attemptSteal_cooldown_witness :
  let p := Player.new Side.player Side.player 0 0 in
  let target := Player.set_hasBall true (Player.new Side.ai Side.ai (3 / 10) (4 / 10)) in
  let p' := snd (Player.attemptSteal (1 / 2) target p) in
  Player.attemptSteal (1 / 100) target p' = (false, p') /\
  Player.stealCooldown (Player.update 1 p') = 0.
Proof.
  intros p target p'.
  assert (Hnot : ~ stealRejected target p).
  { unfold stealRejected. cbn.
    rewrite (distance_of_square _ _ _ _ (1 / 2)) by lra.
    autounfold with config.
    intros [H | [H | [H | H]]]; try discriminate; lra. }
  destruct (attemptSteal_cooldown (1 / 2) target p Hnot) as (Hnow & _ & Hlater).
  split; [apply Hnow | apply Hlater; autounfold with config; lra].
Defined.

(** X10. A charge releases one shot: whatever the first [executeShot]
    returned, a second call right after it returns [null] and changes
    nothing, and so does [chargeShot]; after a released shot only a new
    [startShot] by a player holding the ball arms the charge again. *)
Theorem executeShot_once (p : Player.t) :
  let p' := snd (Player.executeShot p) in
  Player.executeShot p' = (None, p') /\
  (fst (Player.executeShot p) <> None ->
   Player.hasBall p' = false /\ Player.shotCharging p' = false /\
   (forall dt, Player.chargeShot dt p' = p') /\
   (forall angle, Player.startShot angle p' = p')).
Proof.
  intros p'. unfold p', Player.executeShot.
  destruct (Player.shotCharging p) eqn:Hc; destruct (Player.hasBall p) eqn:Hb;
    cbn; rewrite ?Hc, ?Hb; cbn;
    (split; [reflexivity|]);
    try (intros Hne; exfalso; apply Hne; reflexivity).
  intros _. repeat split.
Qed.

Lemma executeShot_once_witness :
  let p :=
    Player.mk Side.player Side.player (15 / 2) (42 / 10) 0 0 0 100 false true
      Player.shoot 0 (6 / 10) true 0 0 0 0 in
  fst (Player.executeShot p) <> None /\
  Player.executeShot (snd (Player.executeShot p)) = (None, snd (Player.executeShot p)) /\
  Player.shotCharging (snd (Player.executeShot p)) = false.
Proof.
  intros p.
  assert (Hne : fst (Player.executeShot p) <> None) by (cbn; discriminate).
  destruct (executeShot_once p) as (Hagain & Hflags).
  destruct (Hflags Hne) as (_ & Hc & _).
  repeat split; assumption.
Defined.

(** ** Ball physics *)

(** A run of ticks of the ball with nothing else acting on it. *)
Definition flight (dts : list R) (b : Ball.t) : Ball.t :=
  fold_left (fun b dt => Ball.update dt b) dts b.

(** The position test of [checkBounds]. *)
Definition outsideCourt (x y : R) : bool :=
  (x <? - (3 / 10)) || (x >? CONFIG.COURT.WIDTH + 3 / 10) ||
  (y <? - (3 / 10)) || (y >? CONFIG.COURT.LENGTH + 3 / 10).

Lemma update_held_fields (dt : R) (b : Ball.t) :
  Ball.state b = Ball.held ->
  Ball.update dt b =
    Ball.set_z (12 / 10 + Rabs (sin ((Ball.dribbleTime b + dt) * 2 * PI)) * (3 / 10))
      (Ball.set_dribbleTime (Ball.dribbleTime b + dt) b).
Proof. intros Hh. unfold Ball.update. rewrite Hh. reflexivity. Qed.

(** X11. A held ball is not integrated: one [update] leaves it held, keeps
    its [x], [y], velocity, [holderId] and flags, advances the dribble
    clock by [dt] and puts [z] between 1.2 and 1.5 m. *)
Theorem update_held (dt : R) (b : Ball.t) :
  Ball.state b = Ball.held ->
  let b' := Ball.update dt b in
  Ball.state b' = Ball.held /\
  12 / 10 <= Ball.z b' <= 15 / 10 /\
  Ball.x b' = Ball.x b /\ Ball.y b' = Ball.y b /\
  Ball.vx b' = Ball.vx b /\ Ball.vy b' = Ball.vy b /\ Ball.vz b' = Ball.vz b /\
  Ball.holderId b' = Ball.holderId b /\
  Ball.hasScored b' = Ball.hasScored b /\
  Ball.isOutOfBounds b' = Ball.isOutOfBounds b /\
  Ball.dribbleTime b' = Ball.dribbleTime b + dt.
Proof.
  intros Hh b'. unfold b'. rewrite (update_held_fields dt b Hh). cbn.
  pose proof (Rabs_pos (sin ((Ball.dribbleTime b + dt) * 2 * PI))) as H0.
  assert (H1 : Rabs (sin ((Ball.dribbleTime b + dt) * 2 * PI)) <= 1).
  { apply Rabs_le. pose proof (SIN_bound ((Ball.dribbleTime b + dt) * 2 * PI)). lra. }
  repeat split; try assumption; lra.
Qed.

Lemma update_held_witness :
  let b := Ball.attachTo Side.player 7 10 Ball.new in
  Ball.state (Ball.update (1 / 60) b) = Ball.held /\
  12 / 10 <= Ball.z (Ball.update (1 / 60) b) <= 15 / 10.
Proof.
  intros b.
  destruct (update_held (1 / 60) b eq_refl) as (Hs & Hz & _).
  split; assumption.
Defined.

Lemma update_free_fields (dt : R) (b : Ball.t) :
  Ball.state b <> Ball.held ->
  Ball.update dt b =
    Ball.checkBounds
      (Ball.update_backboard (Ball.update_rim (beforeRimTest dt b))).
Proof.
  intros Hh. unfold Ball.update, beforeRimTest.
  destruct (Ball.state b); [reflexivity | congruence | reflexivity].
Qed.

Lemma after_rim_fields (m : Ball.t) :
  let b' := Ball.checkBounds (Ball.update_backboard (Ball.update_rim m)) in
  Ball.x b' = Ball.x m /\ Ball.y b' = Ball.y m /\ Ball.z b' = Ball.z m /\
  Ball.state b' = Ball.state m /\
  (Ball.state m = Ball.free -> Ball.vz b' = Ball.vz m) /\
  Ball.isOutOfBounds b' = Ball.isOutOfBounds m || outsideCourt (Ball.x m) (Ball.y m).
Proof.
  unfold Ball.checkBounds, Ball.update_backboard, Ball.update_rim, outsideCourt;
    cbv zeta.
  destruct (Ball.state m) eqn:Hst; cbn [Ball.State_eqb andb];
    repeat match goal with
    | |- context [if ?c then _ else _] =>
        lazymatch c with
        | context [if _ then _ else _] => fail
        | _ => destruct c eqn:?; cbn in *
        end
    end;
    rewrite ?Hst, ?orb_true_r, ?orb_false_r;
    repeat split; try reflexivity; try congruence;
    try (rewrite Hst in *; cbn in *; discriminate).
Qed.

Lemma beforeRimTest_fields (dt : R) (b : Ball.t) :
  let m := beforeRimTest dt b in
  Ball.x m = Ball.x b + Ball.vx b * dt /\
  Ball.y m = Ball.y b + Ball.vy b * dt /\
  CONFIG.BALL.RADIUS <= Ball.z m /\
  Ball.isOutOfBounds m = Ball.isOutOfBounds b /\
  (Ball.state m = Ball.state b \/
   Ball.state m = Ball.free /\ Ball.vz m = 0 /\ Ball.z m = CONFIG.BALL.RADIUS) /\
  (Ball.state b <> Ball.held -> Ball.state m <> Ball.held).
Proof.
  unfold beforeRimTest, Ball.update_ground, Ball.update_integrate; cbv zeta; cbn.
  destruct (_ <=? _) eqn:Hg; cbn.
  - destruct (_ <? _) eqn:Hs; cbn; repeat split; try lra; try reflexivity;
      try (left; reflexivity); try (right; repeat split; reflexivity);
      try (intros H; exact H); discriminate.
  - reflect_tests. repeat split; try lra; try reflexivity;
      try (left; reflexivity); intros H; exact H.
Qed.

(** X12. One [update] of a ball that is not held never leaves it below the
    floor ([z >= RADIUS]), moves it horizontally by its velocity times
    [dt], and never makes it held; a free ball stays free, and a ball that
    goes from flight to free within the tick is at rest on the floor
    ([vz = 0], [z = RADIUS]). *)
Theorem update_not_held (dt : R) (b : Ball.t) :
  Ball.state b <> Ball.held ->
  let b' := Ball.update dt b in
  CONFIG.BALL.RADIUS <= Ball.z b' /\
  Ball.x b' = Ball.x b + Ball.vx b * dt /\
  Ball.y b' = Ball.y b + Ball.vy b * dt /\
  Ball.state b' <> Ball.held /\
  (Ball.state b = Ball.free -> Ball.state b' = Ball.free) /\
  (Ball.state b = Ball.inFlight -> Ball.state b' = Ball.free ->
   Ball.vz b' = 0 /\ Ball.z b' = CONFIG.BALL.RADIUS).
Proof.
  intros Hnh b'. unfold b'. rewrite (update_free_fields dt b Hnh).
  destruct (after_rim_fields (beforeRimTest dt b)) as (Hx & Hy & Hz & Hst & Hvz & _).
  destruct (beforeRimTest_fields dt b) as (Mx & My & Mz & _ & Mst & Mnh).
  cbv zeta in *. rewrite Hx, Hy, Hz, Hst, Mx, My.
  split; [exact Mz|]. split; [reflexivity|]. split; [reflexivity|].
  split; [apply Mnh, Hnh|]. split.
  - intros Hfree. destruct Mst as [Hsame | (Hf & _)]; congruence.
  - intros Hfl Hfree. rewrite (Hvz Hfree).
    destruct Mst as [Hsame | (_ & Hv & Hzz)]; [congruence | split; assumption].
Qed.

Lemma update_not_held_witness :
  let b := Ball.mk 7 7 (12 / 100) 1 0 (-1 / 10) Ball.inFlight (Some Side.ai)
             false false true 0 in
  Ball.state (Ball.update (1 / 60) b) = Ball.free /\
  Ball.vz (Ball.update (1 / 60) b) = 0 /\
  Ball.z (Ball.update (1 / 60) b) = CONFIG.BALL.RADIUS /\
  Ball.x (Ball.update (1 / 60) b) = 7 + 1 * (1 / 60).
Proof.
  intros b.
  assert (Hnh : Ball.state b <> Ball.held) by (cbn; discriminate).
  destruct (update_not_held (1 / 60) b Hnh) as (_ & Hx & _ & _ & _ & Hrest).
  assert (Hfree : Ball.state (Ball.update (1 / 60) b) = Ball.free).
  { rewrite (update_free_fields _ _ Hnh).
    destruct (after_rim_fields (beforeRimTest (1 / 60) b)) as (_ & _ & _ & -> & _).
    unfold beforeRimTest, Ball.update_integrate, Ball.update_ground; cbn.
    decide_test. cbn.
    replace (Rabs _ <? 5 / 10) with true; [reflexivity|].
    symmetry; apply Rltb_true. autounfold with config.
    apply Rabs_def1; lra. }
  destruct (Hrest eq_refl Hfree) as (Hvz & Hz).
  repeat split; assumption.
Defined.

Lemma update_loose (dt : R) (b : Ball.t) :
  Ball.state b <> Ball.held ->
  Ball.state (Ball.update dt b) <> Ball.held /\
  CONFIG.BALL.RADIUS <= Ball.z (Ball.update dt b) /\
  (Ball.state b = Ball.free -> Ball.state (Ball.update dt b) = Ball.free) /\
  Ball.isOutOfBounds (Ball.update dt b)
    = Ball.isOutOfBounds b ||
      outsideCourt (Ball.x b + Ball.vx b * dt) (Ball.y b + Ball.vy b * dt).
Proof.
  intros Hnh. rewrite (update_free_fields dt b Hnh).
  destruct (after_rim_fields (beforeRimTest dt b)) as (_ & _ & Hz & Hst & _ & Hflag).
  destruct (beforeRimTest_fields dt b) as (Mx & My & Mz & Mflag & Mst & Mnh).
  cbv zeta in *. rewrite Hz, Hst, Hflag, Mx, My, Mflag.
  split; [apply Mnh, Hnh|]. split; [exact Mz|]. split; [|reflexivity].
  intros Hfree. destruct Mst as [Hsame | (Hf & _)]; congruence.
Qed.

(** X13. Physics alone never puts a loose ball into a hand: over any run
    of ticks a ball that is not held stays not held, keeps the [holderId]
    of its last holder, keeps the out-of-bounds and scored flags once they
    are set, stays free once it is free, and is never below the floor
    after the first tick. *)
Theorem flight_loose (dts : list R) (b : Ball.t) :
  Ball.state b <> Ball.held ->
  let b' := flight dts b in
  Ball.state b' <> Ball.held /\
  Ball.holderId b' = Ball.holderId b /\
  (Ball.isOutOfBounds b = true -> Ball.isOutOfBounds b' = true) /\
  (Ball.hasScored b = true -> Ball.hasScored b' = true) /\
  (Ball.state b = Ball.free -> Ball.state b' = Ball.free) /\
  (dts <> [] -> CONFIG.BALL.RADIUS <= Ball.z b').
Proof.
  revert b. unfold flight.
  induction dts as [|dt dts IH] using rev_ind; intros b Hnh; cbn.
  - repeat split; trivial. intros H; contradiction H; reflexivity.
  - rewrite fold_left_app; cbn.
    destruct (IH b Hnh) as (Hs & Hh & Ho & Hsc & Hf & _).
    destruct (update_loose dt _ Hs) as (Us & Uz & Uf & _).
    destruct (Ball_update_flag dt (fold_left (fun b0 dt0 => Ball.update dt0 b0) dts b))
      as (Uo & Uh).
    split; [exact Us|]. split; [congruence|].
    split; [intros H; apply Uo, Ho, H|].
    split; [intros H; apply update_hasScored_sticky, Hsc, H|].
    split; [intros H; apply Uf, Hf, H|].
    intros _. exact Uz.
Qed.

Lemma flight_loose_witness :
  let thrown :=
    Ball.release 1 (-2) 3 (Ball.attachTo Side.ai 7 10 Ball.new) in
  Ball.state (flight [1 / 60; 1 / 60; 1 / 60] thrown) <> Ball.held /\
  Ball.holderId (flight [1 / 60; 1 / 60; 1 / 60] thrown) = Some Side.ai /\
  CONFIG.BALL.RADIUS <= Ball.z (flight [1 / 60; 1 / 60; 1 / 60] thrown).
Proof.
  intros thrown.
  assert (Hnh : Ball.state thrown <> Ball.held) by (cbn; discriminate).
  destruct (flight_loose [1 / 60; 1 / 60; 1 / 60] thrown Hnh)
    as (Hs & Hh & _ & _ & _ & Hz).
  split; [exact Hs|]. split; [exact Hh|]. apply Hz. discriminate.
Defined.



(** ** What the scene does to its rules *)

(** The calls the scene makes on its rules object: the methods it invokes
    and the reset of [handlePause], which assigns [possession] and then
    calls [resetToCheckBall]. *)
Inductive rulesCall : Rules.t -> Rules.t -> Prop :=
| call_update (dt : R) (r : Rules.t) : rulesCall r (Rules.update dt r)
| call_registerShotAttempt (r : Rules.t) :
    rulesCall r (Rules.registerShotAttempt Side.player r)
| call_changePossession (side : Side.t) (r : Rules.t) :
    rulesCall r (Rules.changePossession side r)
| call_scorePoints (team : Side.t) (x y : R) (r : Rules.t) :
    rulesCall r (Rules.scorePoints team x y r)
| call_startLiveBall (r : Rules.t) : rulesCall r (Rules.startLiveBall r)
| call_manualReset (side : Side.t) (r : Rules.t) :
    rulesCall r (Rules.resetToCheckBall (Rules.set_possession side r)).

Inductive rulesCalls : Rules.t -> Rules.t -> Prop :=
| calls_none (r : Rules.t) : rulesCalls r r
| calls_then (r1 r2 r3 : Rules.t) :
    rulesCalls r1 r2 -> rulesCall r2 r3 -> rulesCalls r1 r3.

Lemma rulesCalls_trans (r1 r2 r3 : Rules.t) :
  rulesCalls r1 r2 -> rulesCalls r2 r3 -> rulesCalls r1 r3.
Proof.
  intros H12 H23. induction H23 as [|r2 r3 r4 _ IH Hc]; [exact H12|].
  apply (calls_then _ r3); [apply IH, H12 | exact Hc].
Qed.

Lemma rulesCalls_one (r r' : Rules.t) : rulesCall r r' -> rulesCalls r r'.
Proof. intros H. apply (calls_then _ r); [apply calls_none | exact H]. Qed.

Lemma rulesCalls_same (r r' : Rules.t) : r' = r -> rulesCalls r r'.
Proof. intros ->. apply calls_none. Qed.

Definition rulesVia (s s' : GameScene.t) : Prop :=
  rulesCalls (GameScene.rules s) (GameScene.rules s').

Lemma rulesVia_trans (s1 s2 s3 : GameScene.t) :
  rulesVia s1 s2 -> rulesVia s2 s3 -> rulesVia s1 s3.
Proof. apply rulesCalls_trans. Qed.

Lemma setupInitialPositions_rules (s : GameScene.t) :
  GameScene.rules (GameScene.setupInitialPositions s) = GameScene.rules s.
Proof.
  unfold GameScene.setupInitialPositions; cbv zeta.
  destruct (Rules.getPossession _); reflexivity.
Qed.

Lemma handlePlayerInput_rulesVia (dt : R) (input : GameScene.Input)
    (rnd : GameScene.Random) (s : GameScene.t) :
  rulesVia s (GameScene.handlePlayerInput dt input rnd s).
Proof.
  unfold GameScene.handlePlayerInput; cbv zeta.
  apply (rulesVia_trans _ (GameScene.inputMovement dt input s)).
  { apply rulesCalls_same.
    unfold GameScene.inputMovement; cbv zeta; split_tests; reflexivity. }
  apply (rulesVia_trans _ (GameScene.inputSprint input (GameScene.inputMovement dt input s))).
  { apply rulesCalls_same. reflexivity. }
  match goal with
  | |- rulesVia ?a (GameScene.inputRightClick _ _ (GameScene.inputShot _ _ ?a)) =>
      generalize a; intros mid
  end.
  apply (rulesVia_trans _ (GameScene.inputShot dt input mid)).
  - unfold GameScene.inputShot; cbv zeta.
    destruct (Player.hasBall _); [|apply calls_none].
    destruct (_ && _); destruct (Player.shotCharging _);
      try destruct (GameScene.pointerIsDown input);
      try destruct (Player.executeShot _) as [[shot|] p'];
      try apply calls_none;
      apply rulesCalls_one, call_registerShotAttempt.
  - generalize (GameScene.inputShot dt input mid); intros mid2.
    apply rulesCalls_same.
    unfold GameScene.inputRightClick.
    destruct (GameScene.rightJustPressed input); [|reflexivity].
    destruct (Player.hasBall _).
    + destruct (Player.performStepBack _); reflexivity.
    + destruct (Player.attemptSteal _ _ _) as [[|] p']; reflexivity.
Qed.

Lemma updateAI_rules (dt : R) (rnd : GameScene.Random) (s : GameScene.t) :
  GameScene.rules (GameScene.updateAI dt rnd s) = GameScene.rules s.
Proof.
  unfold GameScene.updateAI.
  destruct (AIController.update _ _ _ _ _ _ _) as [[c a] b]. reflexivity.
Qed.

Lemma checkBallAI_rules (dt : R) (rnd : GameScene.Random) (s : GameScene.t) :
  GameScene.rules (GameScene.checkBallAI dt rnd s) = GameScene.rules s.
Proof.
  unfold GameScene.checkBallAI; cbv zeta.
  destruct (Rules.getPossession _); [|apply updateAI_rules].
  destruct (_ >? _); reflexivity.
Qed.

Lemma collidePlayers_rules (s : GameScene.t) :
  GameScene.rules (GameScene.collidePlayers s) = GameScene.rules s.
Proof.
  unfold GameScene.collidePlayers.
  destruct (Physics.checkPlayerCollision _ _); [|reflexivity].
  destruct (Physics.resolvePlayerCollision _ _) as [[p a]|]; reflexivity.
Qed.

Lemma updateBallPosition_rules (s : GameScene.t) :
  GameScene.rules (GameScene.updateBallPosition s) = GameScene.rules s.
Proof. unfold GameScene.updateBallPosition; split_tests; reflexivity. Qed.

Lemma checkBallStart_rulesVia (dt : R) (s : GameScene.t) :
  rulesVia s (GameScene.checkBallStart dt s).
Proof.
  unfold GameScene.checkBallStart; cbv zeta.
  destruct (_ && _).
  - destruct (_ >? _); [apply rulesCalls_one, call_startLiveBall | apply calls_none].
  - destruct (_ && _); [|apply calls_none].
    destruct (_ <=? _); [apply rulesCalls_one, call_startLiveBall | apply calls_none].
Qed.

Lemma handleBallPickup_rulesVia (s : GameScene.t) :
  rulesVia s (GameScene.handleBallPickup s).
Proof.
  unfold GameScene.handleBallPickup; cbv zeta.
  assert (Hp : forall s0, rulesVia s0 (GameScene.pickupByPlayer s0)).
  { intros s0. unfold GameScene.pickupByPlayer; cbv zeta.
    destruct (negb _); [apply rulesCalls_one, call_changePossession | apply calls_none]. }
  assert (Ha : forall s0, rulesVia s0 (GameScene.pickupByAI s0)).
  { intros s0. unfold GameScene.pickupByAI; cbv zeta.
    destruct (negb _); [apply rulesCalls_one, call_changePossession | apply calls_none]. }
  match goal with
  | |- rulesVia _ (if ?c then GameScene.pickupByAI ?m else _) =>
      apply (rulesVia_trans _ m);
        [|destruct c; [apply Ha | apply calls_none]]
  end.
  destruct (_ <? _); [apply Hp | apply calls_none].
Qed.

Lemma pickupIfFree_rulesVia (s : GameScene.t) :
  rulesVia s (GameScene.pickupIfFree s).
Proof.
  unfold GameScene.pickupIfFree.
  destruct (Ball.State_eqb _ _); [apply handleBallPickup_rulesVia | apply calls_none].
Qed.

Lemma scored_rulesVia (s : GameScene.t) : rulesVia s (GameScene.scored s).
Proof.
  unfold GameScene.scored; cbv zeta. unfold rulesVia.
  rewrite setupInitialPositions_rules. cbn.
  apply rulesCalls_one, call_scorePoints.
Qed.

Lemma outOfBoundsExpired_rulesVia (s : GameScene.t) :
  rulesVia s (GameScene.outOfBoundsExpired s).
Proof.
  unfold rulesVia.
  destruct (outOfBoundsExpired_spec s) as (_ & -> & _).
  apply rulesCalls_one, call_changePossession.
Qed.

Lemma scoreOrPickup_rulesVia (s : GameScene.t) :
  rulesVia s (GameScene.scoreOrPickup s).
Proof.
  unfold GameScene.scoreOrPickup.
  destruct (Ball.isScore _); [apply scored_rulesVia | apply pickupIfFree_rulesVia].
Qed.

Lemma liveBallChecks_rulesVia (dt : R) (s : GameScene.t) :
  rulesVia s (GameScene.liveBallChecks dt s).
Proof.
  unfold GameScene.liveBallChecks; cbv zeta.
  destruct (Ball.isOutOfBounds _); destruct (GameScene.outOfBoundsTimer s) as [timer|].
  - destruct (_ <=? _).
    + exact (outOfBoundsExpired_rulesVia
               (GameScene.set_outOfBoundsTimer (Some (timer - dt)) s)).
    + exact (scoreOrPickup_rulesVia
               (GameScene.set_outOfBoundsTimer (Some (timer - dt)) s)).
  - exact (scoreOrPickup_rulesVia (GameScene.set_outOfBoundsTimer (Some 3) s)).
  - exact (scoreOrPickup_rulesVia (GameScene.set_outOfBoundsTimer None s)).
  - apply scoreOrPickup_rulesVia.
Qed.

Lemma handleCheckBall_rulesVia (dt : R) (input : GameScene.Input)
    (rnd : GameScene.Random) (s : GameScene.t) :
  rulesVia s (GameScene.handleCheckBall dt input rnd s).
Proof.
  unfold GameScene.handleCheckBall; cbv zeta.
  apply (rulesVia_trans _ (GameScene.handlePlayerInput dt input rnd s));
    [apply handlePlayerInput_rulesVia|].
  generalize (GameScene.handlePlayerInput dt input rnd s); intros s1.
  apply (rulesVia_trans _ (GameScene.checkBallAI dt rnd s1));
    [apply rulesCalls_same, checkBallAI_rules|].
  generalize (GameScene.checkBallAI dt rnd s1); intros s2.
  apply (rulesVia_trans _ (GameScene.updatePlayers dt s2));
    [apply calls_none|].
  generalize (GameScene.updatePlayers dt s2); intros s3.
  apply (rulesVia_trans _ (GameScene.clampPlayers s3)); [apply calls_none|].
  generalize (GameScene.clampPlayers s3); intros s4.
  apply (rulesVia_trans _ (GameScene.checkBallStart dt s4));
    [apply checkBallStart_rulesVia|].
  generalize (GameScene.checkBallStart dt s4); intros s5.
  apply (rulesVia_trans _ (GameScene.updateBallPosition s5));
    [apply rulesCalls_same, updateBallPosition_rules|].
  generalize (GameScene.updateBallPosition s5); intros s6.
  apply (rulesVia_trans _ (GameScene.updateBall dt s6)); [apply calls_none|].
  apply pickupIfFree_rulesVia.
Qed.

Lemma handleLiveBall_rulesVia (dt : R) (input : GameScene.Input)
    (rnd : GameScene.Random) (s : GameScene.t) :
  rulesVia s (GameScene.handleLiveBall dt input rnd s).
Proof.
  unfold GameScene.handleLiveBall; cbv zeta.
  apply (rulesVia_trans _ (GameScene.handlePlayerInput dt input rnd s));
    [apply handlePlayerInput_rulesVia|].
  generalize (GameScene.handlePlayerInput dt input rnd s); intros s1.
  apply (rulesVia_trans _ (GameScene.updateAI dt rnd s1));
    [apply rulesCalls_same, updateAI_rules|].
  generalize (GameScene.updateAI dt rnd s1); intros s2.
  apply (rulesVia_trans _ (GameScene.updatePlayers dt s2)); [apply calls_none|].
  generalize (GameScene.updatePlayers dt s2); intros s3.
  apply (rulesVia_trans _ (GameScene.collidePlayers s3));
    [apply rulesCalls_same, collidePlayers_rules|].
  generalize (GameScene.collidePlayers s3); intros s4.
  apply (rulesVia_trans _ (GameScene.clampPlayers s4)); [apply calls_none|].
  generalize (GameScene.clampPlayers s4); intros s5.
  apply (rulesVia_trans _ (GameScene.updateBallPosition s5));
    [apply rulesCalls_same, updateBallPosition_rules|].
  generalize (GameScene.updateBallPosition s5); intros s6.
  apply (rulesVia_trans _ (GameScene.updateBall dt s6)); [apply calls_none|].
  apply liveBallChecks_rulesVia.
Qed.

Lemma update_rulesVia (dt : R) (input : GameScene.Input)
    (rnd : GameScene.Random) (s : GameScene.t) :
  rulesVia s (GameScene.update dt input rnd s).
Proof.
  unfold GameScene.update; cbv zeta.
  destruct (Rules.GameState_eqb (Rules.getGameState (GameScene.rules s)) Rules.gameOver);
    [apply calls_none|].
  apply (rulesVia_trans _ (GameScene.set_rules (Rules.update dt (GameScene.rules s)) s)).
  { apply rulesCalls_one, call_update. }
  generalize (GameScene.set_rules (Rules.update dt (GameScene.rules s)) s); intros s1.
  generalize (Rules.GameState_eqb (Rules.getGameState (GameScene.rules s)) Rules.liveBall
              && Rules.GameState_eqb (Rules.getGameState (GameScene.rules s1))
                   Rules.checkBall).
  intros b.
  apply (rulesVia_trans _ (if b then GameScene.setupInitialPositions s1 else s1)).
  { destruct b; [apply rulesCalls_same, setupInitialPositions_rules | apply calls_none]. }
  generalize (if b then GameScene.setupInitialPositions s1 else s1); intros s2.
  destruct (Rules.getGameState (GameScene.rules s2)).
  - apply handleCheckBall_rulesVia.
  - apply handleLiveBall_rulesVia.
  - apply calls_none.
  - apply calls_none.
Qed.

Lemma handleKeyR_rulesVia (s : GameScene.t) :
  rulesVia s (GameScene.handleKeyR s).
Proof.
  unfold GameScene.handleKeyR; cbv zeta.
  match goal with
  | |- context [Side.other ?l] => generalize (Side.other l)
  end.
  intros side. unfold rulesVia.
  destruct side; cbn; apply rulesCalls_one, call_manualReset.
Qed.

Lemma enter_rules (settings : GameSettings.t) (timer : option R) :
  GameScene.rules (GameScene.enter settings timer) = Rules.new settings.
Proof.
  unfold GameScene.enter; cbv zeta.
  cbn [GameScene.rules GameScene.set_sneakerSoundTimer GameScene.set_outOfBoundsTimer].
  rewrite setupInitialPositions_rules. reflexivity.
Qed.

Lemma reachable_rulesCalls (s : GameScene.t) :
  reachable s ->
  exists settings, rulesCalls (Rules.new settings) (GameScene.rules s).
Proof.
  induction 1 as [settings timer | dt input rnd s _ (st & IH) | s _ (st & IH)].
  - exists settings. rewrite enter_rules. apply calls_none.
  - exists st. exact (rulesCalls_trans _ _ _ IH (update_rulesVia dt input rnd s)).
  - exists st. exact (rulesCalls_trans _ _ _ IH (handleKeyR_rulesVia s)).
Qed.

(** What every sequence of such calls keeps, starting from [new Rules]. *)
Definition rulesInvariant (settings : GameSettings.t) (r : Rules.t) : Prop :=
  Rules.settings r = settings /\
  Rules.aiShots (Rules.stats r) = 0%Z /\
  Rules.fouls (Rules.stats r) = 0%Z /\
  Rules.gameState r <> Rules.freeThrow /\
  (Rules.gameState r = Rules.gameOver ->
   (CONFIG.GAME.WIN_SCORE <= Rules.playerScore r)%Z \/
   (CONFIG.GAME.WIN_SCORE <= Rules.aiScore r)%Z) /\
  (0 <= Rules.playerScore r)%Z /\ (0 <= Rules.aiScore r)%Z.

Lemma rulesInvariant_new (settings : GameSettings.t) :
  rulesInvariant settings (Rules.new settings).
Proof. unfold rulesInvariant; cbn. repeat split; try discriminate; lia. Qed.

Lemma points_positive (x y : R) (r : Rules.t) :
  (0 < (if Physics.isThreePoint x y
        then CONFIG.THREE_POINT (GameSettings.getScoringSystem (Rules.settings r))
        else CONFIG.INSIDE (GameSettings.getScoringSystem (Rules.settings r))))%Z.
Proof.
  unfold GameSettings.getScoringSystem.
  destruct (String.eqb _ _); destruct (Physics.isThreePoint x y); cbn; lia.
Qed.

Lemma rulesCall_invariant (settings : GameSettings.t) (r r' : Rules.t) :
  rulesCall r r' -> rulesInvariant settings r -> rulesInvariant settings r'.
Proof.
  unfold rulesInvariant.
  intros Hc (Hset & Hshots & Hfouls & Hft & Hover & Hp & Ha).
  destruct Hc as [dt r | r | side r | team x y r | r | side r].
  - unfold Rules.update; cbv zeta.
    destruct (Rules.shotClockActive r && _) eqn:Hact;
      [|repeat split; assumption].
    destruct (xleb _ _); cbn; repeat split; try assumption; try discriminate;
      intros Hgo; discriminate.
  - cbn. repeat split; assumption.
  - cbn. repeat split; assumption.
  - pose proof (points_positive x y r) as Hpts.
    unfold Rules.scorePoints; cbv zeta.
    set (pts := if Physics.isThreePoint x y
                then CONFIG.THREE_POINT (GameSettings.getScoringSystem (Rules.settings r))
                else CONFIG.INSIDE (GameSettings.getScoringSystem (Rules.settings r)))
      in *.
    destruct team; cbn -[Z.geb Z.add].
    + destruct (Rules.playerScore r + pts >=? CONFIG.GAME.WIN_SCORE)%Z eqn:H1;
        [|destruct (Rules.aiScore r >=? CONFIG.GAME.WIN_SCORE)%Z eqn:H2];
        cbn -[Z.geb Z.add]; repeat split; try assumption; try discriminate; try lia.
    + destruct (Rules.playerScore r >=? CONFIG.GAME.WIN_SCORE)%Z eqn:H1;
        [|destruct (Rules.aiScore r + pts >=? CONFIG.GAME.WIN_SCORE)%Z eqn:H2];
        cbn -[Z.geb Z.add]; repeat split; try assumption; try discriminate; try lia.
  - cbn. repeat split; try assumption; discriminate.
  - cbn. repeat split; try assumption; discriminate.
Qed.

Lemma rulesCalls_invariant (settings : GameSettings.t) (r r' : Rules.t) :
  rulesCalls r r' -> rulesInvariant settings r -> rulesInvariant settings r'.
Proof.
  induction 1 as [|r1 r2 r3 _ IH Hc]; [trivial|].
  intros H1. exact (rulesCall_invariant settings _ _ Hc (IH H1)).
Qed.

Lemma reachable_rulesInvariant (s : GameScene.t) :
  reachable s -> exists settings, rulesInvariant settings (GameScene.rules s).
Proof.
  intros Hr. destruct (reachable_rulesCalls s Hr) as (st & Hcalls).
  exists st. exact (rulesCalls_invariant st _ _ Hcalls (rulesInvariant_new st)).
Qed.

(** X15. In no state the scene can reach has an attempt of the AI been
    registered or a foul been called: [stats.aiShots] and [stats.fouls]
    are 0, so [getAIAccuracy()] returns 0 however many baskets the AI has
    made, and the phase [freeThrow] is never entered. *)
Theorem ai_attempts_never_registered (s : GameScene.t) :
  reachable s ->
  Rules.aiShots (Rules.stats (GameScene.rules s)) = 0%Z /\
  Rules.getAIAccuracy (GameScene.rules s) = 0 /\
  Rules.fouls (Rules.stats (GameScene.rules s)) = 0%Z /\
  Rules.getGameState (GameScene.rules s) <> Rules.freeThrow.
Proof.
  intros Hr.
  destruct (reachable_rulesInvariant s Hr) as (st & _ & Hshots & Hfouls & Hft & _).
  unfold Rules.getAIAccuracy, Rules.getGameState. rewrite Hshots. cbn.
  repeat split; assumption.
Qed.

Lemma ai_attempts_never_registered_witness :
  Rules.getAIAccuracy
    (GameScene.rules
       (GameScene.update (1 / 60) holdLeftButton someDraws
          (GameScene.enter GameSettings.new None))) = 0.
Proof.
  apply (ai_attempts_never_registered
           (GameScene.update (1 / 60) holdLeftButton someDraws
              (GameScene.enter GameSettings.new None))).
  apply reach_update, reach_enter.
Defined.

(** X16. In every state the scene can reach the scores are not negative,
    and the game is over only when a side has reached [WIN_SCORE]:
    [getWinner()] then names a side whose score is at least [WIN_SCORE],
    and it returns [null] in every other phase.  Once the game is over
    [update] changes nothing. *)
Theorem gameOver_has_winner (s : GameScene.t) :
  reachable s ->
  (0 <= Rules.playerScore (GameScene.rules s))%Z /\
  (0 <= Rules.aiScore (GameScene.rules s))%Z /\
  (Rules.getGameState (GameScene.rules s) = Rules.gameOver ->
   (exists w, Rules.getWinner (GameScene.rules s) = Some w /\
              (CONFIG.GAME.WIN_SCORE <= scoreOf w (GameScene.rules s))%Z) /\
   forall dt input rnd, GameScene.update dt input rnd s = s) /\
  (Rules.getGameState (GameScene.rules s) <> Rules.gameOver ->
   Rules.getWinner (GameScene.rules s) = None).
Proof.
  intros Hr.
  destruct (reachable_rulesInvariant s Hr) as (st & _ & _ & _ & _ & Hover & Hp & Ha).
  split; [exact Hp|]. split; [exact Ha|].
  unfold Rules.getGameState, Rules.getWinner, GameScene.update, Rules.getGameState.
  split.
  - intros Hgo. rewrite Hgo. cbn -[Z.geb]. split; [|reflexivity].
    destruct (Rules.playerScore (GameScene.rules s) >=? CONFIG.GAME.WIN_SCORE)%Z eqn:H1.
    + exists Side.player. split; [reflexivity|]. cbn. lia.
    + destruct (Rules.aiScore (GameScene.rules s) >=? CONFIG.GAME.WIN_SCORE)%Z eqn:H2.
      * exists Side.ai. split; [reflexivity|]. cbn. lia.
      * destruct (Hover Hgo); lia.
  - intros Hn. destruct (Rules.gameState (GameScene.rules s)); try reflexivity.
    contradiction Hn; reflexivity.
Qed.

Lemma gameOver_has_winner_witness :
  Rules.getWinner (GameScene.rules (GameScene.enter GameSettings.new None)) = None.
Proof.
  destruct (gameOver_has_winner (GameScene.enter GameSettings.new None)
              (reach_enter GameSettings.new None)) as (_ & _ & _ & Hnone).
  apply Hnone. rewrite enter_rules. cbn. discriminate.
Defined.

(** ** The shot clock over several ticks *)


Lemma set_shotClock_twice (a b : xnum) (r : Rules.t) :
  Rules.set_shotClock a (Rules.set_shotClock b r) = Rules.set_shotClock a r.
Proof. reflexivity. Qed.







(** ** The fixed-step loop (core/GameLoop.js) *)

Lemma drain_spec (World : Type) (updateFn : R -> World -> World)
    (fuel : nat) (acc : R) (w : World) :
  0 <= acc < INR (S fuel) * GameLoop.fixedDelta ->
  exists n,
    (n <= fuel)%nat /\
    GameLoop.drain World updateFn fuel acc w =
      Some (n, acc - INR n * GameLoop.fixedDelta,
            Nat.iter n (updateFn GameLoop.fixedDelta) w) /\
    0 <= acc - INR n * GameLoop.fixedDelta < GameLoop.fixedDelta.
Proof.
  assert (Hfd : 0 < GameLoop.fixedDelta)
    by (unfold GameLoop.fixedDelta, CONFIG.PHYSICS.FIXED_TIMESTEP; lra).
  revert acc w. induction fuel as [|fuel IH]; intros acc w Hacc.
  - exists 0%nat. cbn in Hacc. cbn.
    replace (GameLoop.fixedDelta <=? acc) with false
      by (symmetry; apply Rleb_false; lra).
    replace (acc - 0 * GameLoop.fixedDelta) with acc by lra.
    split; [lia|]. split; [reflexivity | lra].
  - rewrite S_INR in Hacc. cbn [GameLoop.drain].
    destruct (GameLoop.fixedDelta <=? acc) eqn:Htest.
    + apply Rleb_true in Htest.
      destruct (IH (acc - GameLoop.fixedDelta) (updateFn GameLoop.fixedDelta w))
        as (n & Hn & Hrun & Hrest); [lra|].
      exists (S n). rewrite Hrun. rewrite S_INR.
      split; [lia|]. split.
      * rewrite Nat.iter_succ_r.
        replace (acc - (INR n + 1) * GameLoop.fixedDelta)
          with (acc - GameLoop.fixedDelta - INR n * GameLoop.fixedDelta) by ring.
        reflexivity.
      * lra.
    + apply Rleb_false in Htest.
      exists 0%nat. cbn.
      replace (acc - 0 * GameLoop.fixedDelta) with acc by lra.
      split; [lia|]. split; [reflexivity | lra].
Qed.

(** X18. One frame of the running loop, entered with less than one step in
    the accumulator and a clock that has not gone backwards: the frame
    time is capped at [MAX_ACCUMULATOR], so the loop ends after at most 4
    calls of [updateFn] (each with [fixedDelta]), no time is lost (what was
    accumulated is what was consumed plus what is left), less than one
    step is left, and the interpolation factor handed to the renderer lies
    in [0, 1). *)
Theorem loop_bounded (World : Type) (updateFn : R -> World -> World)
    (currentTime : R) (l : GameLoop.t) (w : World) :
  0 <= GameLoop.accumulator l < GameLoop.fixedDelta ->
  GameLoop.lastTime l <= currentTime ->
  exists n acc,
    GameLoop.loop World updateFn 4 currentTime l w =
      Some (n, GameLoop.mk currentTime acc,
            Nat.iter n (updateFn GameLoop.fixedDelta) w,
            acc / GameLoop.fixedDelta) /\
    (n <= 4)%nat /\
    0 <= acc < GameLoop.fixedDelta /\
    acc + INR n * GameLoop.fixedDelta =
      GameLoop.accumulator l +
      Rmin ((currentTime - GameLoop.lastTime l) / 1000) GameLoop.maxAccumulator /\
    0 <= acc / GameLoop.fixedDelta < 1.
Proof.
  intros Hacc Htime.
  assert (Hfd : GameLoop.fixedDelta = 1 / 60)
    by reflexivity.
  assert (Hmax : GameLoop.maxAccumulator = 1 / 15)
    by reflexivity.
  unfold GameLoop.loop; cbv zeta.
  set (delta := (currentTime - GameLoop.lastTime l) / 1000).
  assert (Hdelta : 0 <= delta) by (unfold delta; lra).
  assert (Hcap : (if delta >? GameLoop.maxAccumulator
                  then GameLoop.maxAccumulator else delta)
                 = Rmin delta GameLoop.maxAccumulator).
  { unfold Rmin. destruct (GameLoop.maxAccumulator <? delta) eqn:Ht.
    - apply Rltb_true in Ht. destruct (Rle_dec _ _); lra.
    - apply Rltb_false in Ht. destruct (Rle_dec _ _); lra. }
  rewrite Hcap.
  assert (Hmin : 0 <= Rmin delta GameLoop.maxAccumulator <= 1 / 15).
  { unfold Rmin. destruct (Rle_dec _ _); lra. }
  destruct (drain_spec World updateFn 4
              (GameLoop.accumulator l + Rmin delta GameLoop.maxAccumulator) w)
    as (n & Hn & Hrun & Hrest).
  { change (INR 5) with (1 + 1 + 1 + 1 + 1). lra. }
  rewrite Hrun.
  exists n, (GameLoop.accumulator l + Rmin delta GameLoop.maxAccumulator
             - INR n * GameLoop.fixedDelta).
  split; [reflexivity|]. split; [exact Hn|]. split; [exact Hrest|].
  split; [ring|].
  rewrite Hfd in *. lra.
Qed.

Lemma loop_bounded_witness :
  exists n acc,
    GameLoop.loop nat (fun _ k => S k) 4 40 (GameLoop.mk 0 0) 0%nat =
      Some (n, GameLoop.mk 40 acc,
            Nat.iter n (fun k => S k) 0%nat, acc / GameLoop.fixedDelta) /\
    (n <= 4)%nat /\ 0 <= acc / GameLoop.fixedDelta < 1.
Proof.
  destruct (loop_bounded nat (fun _ k => S k) 40 (GameLoop.mk 0 0) 0%nat)
    as (n & acc & Hrun & Hn & _ & _ & Halpha).
  - cbn. unfold GameLoop.fixedDelta, CONFIG.PHYSICS.FIXED_TIMESTEP. lra.
  - cbn. lra.
  - exists n, acc. split; [exact Hrun|]. split; [exact Hn | exact Halpha].
Defined.

(** ** The seeded generator (core/Math.js, class Random) *)

(** The values of a 32-bit signed integer. *)
Definition int32 (z : Z) : Prop := (- 2 ^ 31 <= z < 2 ^ 31)%Z.

Lemma toInt32_range (z : Z) : int32 (Random.toInt32 z).
Proof.
  unfold int32, Random.toInt32.
  pose proof (Z.mod_pos_bound (z + 2 ^ 31) (2 ^ 32) ltac:(lia)). lia.
Qed.

Lemma toInt32_id (z : Z) : int32 z -> Random.toInt32 z = z.
Proof.
  unfold int32, Random.toInt32. intros H.
  rewrite Z.mod_small by lia. lia.
Qed.

Lemma lxor_below (a b n : Z) :
  (0 <= n -> 0 <= a < 2 ^ n -> 0 <= b < 2 ^ n -> 0 <= Z.lxor a b < 2 ^ n)%Z.
Proof.
  intros Hn Ha Hb.
  assert (H0 : (0 <= Z.lxor a b)%Z) by (apply Z.lxor_nonneg; lia).
  split; [exact H0|].
  destruct (Z.eq_dec (Z.lxor a b) 0) as [-> | Hne]; [lia|].
  apply Z.log2_lt_pow2; [lia|].
  pose proof (Z.log2_lxor a b ltac:(lia) ltac:(lia)) as Hlog.
  assert (Hla : (a = 0 \/ Z.log2 a < n)%Z).
  { destruct (Z.eq_dec a 0); [left; assumption|right; apply Z.log2_lt_pow2; lia]. }
  assert (Hlb : (b = 0 \/ Z.log2 b < n)%Z).
  { destruct (Z.eq_dec b 0); [left; assumption|right; apply Z.log2_lt_pow2; lia]. }
  destruct Hla as [-> | Hla]; destruct Hlb as [-> | Hlb];
    rewrite ?Z.lxor_0_l, ?Z.lxor_0_r in *; cbn [Z.log2] in Hlog; lia.
Qed.

Lemma lxor_int32 (a b : Z) : int32 a -> int32 b -> int32 (Z.lxor a b).
Proof.
  unfold int32. intros Ha Hb.
  destruct (Z_lt_le_dec a 0) as [Han | Hap]; destruct (Z_lt_le_dec b 0) as [Hbn | Hbp].
  - rewrite <- (Z.lxor_lnot_lnot a b).
    pose proof (lxor_below (Z.lnot a) (Z.lnot b) 31 ltac:(lia)) as H.
    unfold Z.lnot in *. rewrite <- !Z.sub_1_r in *. lia.
  - replace a with (Z.lnot (Z.lnot a)) by apply Z.lnot_involutive.
    rewrite <- Z.lnot_lxor_l.
    pose proof (lxor_below (Z.lnot a) b 31 ltac:(lia)) as H.
    unfold Z.lnot in *. rewrite <- !Z.sub_1_r in *. lia.
  - replace b with (Z.lnot (Z.lnot b)) by apply Z.lnot_involutive.
    rewrite <- Z.lnot_lxor_r.
    pose proof (lxor_below a (Z.lnot b) 31 ltac:(lia)) as H.
    unfold Z.lnot in *. rewrite <- !Z.sub_1_r in *. lia.
  - pose proof (lxor_below a b 31 ltac:(lia)) as H. lia.
Qed.

Lemma xorShiftRight_range (a : Z) :
  (0 <= Random.xorShiftRight a 17 < 2 ^ 31)%Z.
Proof.
  unfold Random.xorShiftRight.
  pose proof (toInt32_range a) as Hr. revert Hr.
  generalize (Random.toInt32 a). intros x Hx. unfold int32 in Hx.
  assert (Hs : int32 (Z.shiftr x 17)).
  { unfold int32. rewrite Z.shiftr_div_pow2 by lia.
    pose proof (Z.div_mod x (2 ^ 17) ltac:(lia)).
    pose proof (Z.mod_pos_bound x (2 ^ 17) ltac:(lia)). lia. }
  pose proof (lxor_int32 x _ Hx Hs) as Hl. unfold int32 in Hl.
  split; [|lia].
  apply Z.lxor_nonneg. rewrite Z.shiftr_nonneg. tauto.
Qed.

Lemma xorShiftLeft_not_m1 (x : Z) :
  (0 <= x < 2 ^ 31)%Z -> Random.xorShiftLeft x 5 <> (-1)%Z.
Proof.
  intros Hx Heq. unfold Random.xorShiftLeft in Heq.
  rewrite (toInt32_id x) in Heq by (unfold int32; lia).
  assert (Hs : Random.toInt32 (Z.shiftl x 5) = Z.lnot x).
  { pose proof (Z.lxor_m1_r x) as Hm. change (- (1))%Z with (-1)%Z in Hm.
    rewrite <- Hm, <- Heq.
    rewrite <- Z.lxor_assoc, Z.lxor_nilpotent, Z.lxor_0_l. reflexivity. }
  unfold Random.toInt32, Z.lnot in Hs.
  rewrite Z.shiftl_mul_pow2 in Hs by lia.
  pose proof (Z.div_mod (x * 2 ^ 5 + 2 ^ 31) (2 ^ 32) ltac:(lia)) as Hdm.
  pose proof (Z.mod_pos_bound (x * 2 ^ 5 + 2 ^ 31) (2 ^ 32) ltac:(lia)) as Hb.
  revert Hdm Hb Hs.
  generalize ((x * 2 ^ 5 + 2 ^ 31) / 2 ^ 32)%Z ((x * 2 ^ 5 + 2 ^ 31) mod 2 ^ 32)%Z.
  intros q m Hdm Hb Hs.
  change (2 ^ 5)%Z with 32%Z in *. change (2 ^ 31)%Z with 2147483648%Z in *.
  change (2 ^ 32)%Z with 4294967296%Z in *.
  lia.
Qed.

Lemma next_range (g : Random.t) :
  0 <= fst (Random.next g) < 1 /\ int32 (snd (Random.next g)).
Proof.
  unfold Random.next; cbv zeta; cbn [fst snd].
  pose proof (xorShiftRight_range (Random.xorShiftLeft g 13)) as H2.
  revert H2. generalize (Random.xorShiftRight (Random.xorShiftLeft g 13) 17).
  intros x2 H2.
  assert (H3 : int32 (Random.xorShiftLeft x2 5)).
  { unfold Random.xorShiftLeft. apply lxor_int32; apply toInt32_range. }
  pose proof (xorShiftLeft_not_m1 x2 H2) as Hne.
  revert H3 Hne. generalize (Random.xorShiftLeft x2 5). intros x3 H3 Hne.
  split; [|exact H3].
  assert (Hu : (0 <= Random.toUint32 x3 <= 4294967294)%Z).
  { unfold Random.toUint32, int32 in *.
    pose proof (Z.div_mod x3 (2 ^ 32) ltac:(lia)) as Hdm.
    pose proof (Z.mod_pos_bound x3 (2 ^ 32) ltac:(lia)) as Hb.
    revert Hdm Hb. generalize (x3 / 2 ^ 32)%Z (x3 mod 2 ^ 32)%Z. intros q m Hdm Hb.
    change (2 ^ 31)%Z with 2147483648%Z in *.
    change (2 ^ 32)%Z with 4294967296%Z in *. lia. }
  destruct Hu as [Hu0 Hu1]. apply IZR_le in Hu0, Hu1.
  split.
  - apply Rmult_le_reg_r with (r := 4294967295); [lra|].
    unfold Rdiv. rewrite Rmult_assoc, Rinv_l by lra. lra.
  - apply Rmult_lt_reg_r with (r := 4294967295); [lra|].
    unfold Rdiv. rewrite Rmult_assoc, Rinv_l by lra. lra.
Qed.

(** X19. The seeded generator.  [next()] returns a number in [0, 1), 1
    excluded: the sign-propagating shift of the second step makes the
    intermediate value non-negative, so the final state is never -1, the
    only state that would divide to 1.  The state stays a 32-bit signed
    integer.  Hence [int(min, max)] lies in [min, max] and
    [float(min, max)] in [min, max).  A seed that is 0 as a 32-bit integer
    is a fixed point: the draw is 0 and the state stays 0. *)
Theorem Random_draws (g : Random.t) :
  0 <= fst (Random.next g) < 1 /\
  int32 (snd (Random.next g)) /\
  (forall min max, (min <= max)%Z ->
     (min <= fst (Random.int min max g) <= max)%Z) /\
  (forall min max, min < max ->
     min <= fst (Random.float min max g) < max) /\
  (Random.toInt32 g = 0%Z -> Random.next g = (0, 0%Z)).
Proof.
  destruct (next_range g) as (Hu & Hs).
  split; [exact Hu|]. split; [exact Hs|].
  unfold Random.int, Random.float.
  destruct (Random.next g) as [u g'] eqn:Hn. cbn [fst snd] in *.
  split; [|split].
  - intros min max Hle. unfold MathUtil.floor.
    assert (Hk : 1 <= IZR (max - min + 1)) by (apply IZR_le; lia).
    destruct (base_Int_part (u * IZR (max - min + 1))) as [Hlo Hhi].
    assert (H0 : 0 <= u * IZR (max - min + 1)) by (apply Rmult_le_pos; lra).
    assert (H1 : u * IZR (max - min + 1) < IZR (max - min + 1)).
    { rewrite <- (Rmult_1_l (IZR (max - min + 1))) at 2.
      apply Rmult_lt_compat_r; lra. }
    assert (Ha : (-1 < Int_part (u * IZR (max - min + 1)))%Z)
      by (apply lt_IZR; lra).
    assert (Hb : (Int_part (u * IZR (max - min + 1)) < max - min + 1)%Z)
      by (apply lt_IZR; lra).
    lia.
  - intros min max Hlt. split.
    + assert (0 <= u * (max - min)) by (apply Rmult_le_pos; lra). lra.
    + assert (u * (max - min) < 1 * (max - min))
        by (apply Rmult_lt_compat_r; lra). lra.
  - intros Hz. rewrite <- Hn. unfold Random.next; cbv zeta.
    assert (H1 : Random.xorShiftLeft g 13 = 0%Z).
    { unfold Random.xorShiftLeft. rewrite Hz. reflexivity. }
    rewrite H1.
    replace (Random.xorShiftLeft (Random.xorShiftRight 0 17) 5) with 0%Z
      by reflexivity.
    f_equal. change (Random.toUint32 0) with 0%Z. lra.
Qed.

(** ** Keyboard direction (core/InputManager.js) *)

Lemma sqrt2_sqr : sqrt (1 * 1 + 1 * 1) * sqrt (1 * 1 + 1 * 1) = 2.
Proof. rewrite sqrt_sqrt; lra. Qed.

(** X20. [getMovementDirection()] returns the zero vector or a vector of
    length 1: opposite keys cancel, a single axis gives -1 or +1 on that
    axis, and a diagonal is normalised.  The sign of each component
    follows the keys: left is negative [x], up is negative [y]. *)
Theorem getMovementDirection_unit (keys : InputManager.Keys) :
  let '(x, y) := InputManager.getMovementDirection keys in
  let left := InputManager.isLeftPressed keys in
  let right := InputManager.isRightPressed keys in
  let up := InputManager.isUpPressed keys in
  let down := InputManager.isDownPressed keys in
  (x * x + y * y = 0 \/ x * x + y * y = 1) /\
  (left = right <-> x = 0) /\ (up = down <-> y = 0) /\
  (left = true -> x <= 0) /\ (right = true -> 0 <= x) /\
  (up = true -> y <= 0) /\ (down = true -> 0 <= y).
Proof.
  unfold InputManager.getMovementDirection; cbv zeta.
  pose proof sqrt2_sqr as Hsq.
  assert (Hpos : 0 < sqrt (1 * 1 + 1 * 1)) by (apply sqrt_lt_R0; lra).
  assert (Hinv : 0 < / sqrt (1 * 1 + 1 * 1)) by (apply Rinv_0_lt_compat, Hpos).
  assert (Hunit : / sqrt (1 * 1 + 1 * 1) * / sqrt (1 * 1 + 1 * 1) = 1 / 2).
  { rewrite <- Rinv_mult, Hsq. lra. }
  destruct (InputManager.isLeftPressed keys), (InputManager.isRightPressed keys),
    (InputManager.isUpPressed keys), (InputManager.isDownPressed keys);
    repeat match goal with
    | |- context [?a =? ?b] =>
        let H := fresh "Ht" in
        destruct (a =? b) eqn:H;
          [apply Reqb_true in H | apply Reqb_false in H]; try lra
    end;
    cbn [negb andb];
    unfold Rdiv;
    repeat match goal with
    | |- context [sqrt ?e] =>
        lazymatch e with
        | 1 * 1 + 1 * 1 => fail
        | _ => replace e with (1 * 1 + 1 * 1) by ring
        end
    end;
    generalize dependent (/ sqrt (1 * 1 + 1 * 1)); intros i Hinv Hunit;
    (split; [first [left; lra | right; lra | right; nra] |]);
    repeat split; intros; try discriminate; try reflexivity; try lra; try nra.
Qed.

(** ** The AI controller (game/AIController.js) *)

(** X21. [calculateShootChance] lies between 0.3 and 0.8; it is 0.8 exactly
    for a shot from less than 4 m with the opponent more than 2.5 m away,
    so the cap [Math.min(chance, 0.8)] never cuts anything off; and it
    never grows with the distance to the rim. *)
Theorem calculateShootChance_range (distToRim distToOpponent : R) :
  let chance := AIController.calculateShootChance distToRim distToOpponent in
  3 / 10 <= chance <= 8 / 10 /\
  (chance = 8 / 10 <-> distToRim < 4 /\ 25 / 10 < distToOpponent) /\
  (forall farther, distToRim <= farther ->
     AIController.calculateShootChance farther distToOpponent <= chance).
Proof.
  unfold AIController.calculateShootChance, Rmin; cbv zeta.
  split; [|split].
  - repeat match goal with
    | |- context [if ?c then _ else _] =>
        lazymatch c with
        | context [if _ then _ else _] => fail
        | _ => destruct c
        end
    end; lra.
  - destruct (distToRim <? 4) eqn:H4; [|destruct (distToRim <? 6) eqn:H6];
      destruct (distToOpponent >? 25 / 10) eqn:Ho; reflect_tests;
      destruct (Rle_dec _ _); split; intros; try lra; split; lra.
  - intros farther Hle.
    destruct (distToRim <? 4) eqn:H4; [|destruct (distToRim <? 6) eqn:H6];
      (destruct (farther <? 4) eqn:F4; [|destruct (farther <? 6) eqn:F6]);
      destruct (distToOpponent >? 25 / 10) eqn:Ho; reflect_tests;
      repeat destruct (Rle_dec _ _); lra.
Qed.

Lemma chooseProbeTarget_fields (rnd : AIController.Random) (p : Player.t)
    (c : AIController.t) :
  exists angle,
    AIController.targetX (AIController.chooseProbeTarget rnd p c)
      = Player.x p + cos angle * (15 / 10) /\
    AIController.targetY (AIController.chooseProbeTarget rnd p c)
      = Player.y p + sin angle * (15 / 10) /\
    AIController.state (AIController.chooseProbeTarget rnd p c) = AIController.state c /\
    AIController.decisionTimer (AIController.chooseProbeTarget rnd p c)
      = AIController.decisionTimer c.
Proof.
  unfold AIController.chooseProbeTarget; cbv zeta.
  eexists. repeat split; reflexivity.
Qed.

(** X22. The probe manoeuvre: whatever the random draw, [chooseProbeTarget]
    puts the target exactly 1.5 m from the player and leaves the behaviour
    alone; so the next [moveToTarget] always moves (the target is not
    within 0.5 m) and never sprints (it is not farther than 3 m). *)
Theorem chooseProbeTarget_reach (rnd : AIController.Random) (p : Player.t)
    (c : AIController.t) :
  let c' := AIController.chooseProbeTarget rnd p c in
  let angle :=
    MathUtil.angleTo (Player.x p) (Player.y p)
      (AIController.targetX c') (AIController.targetY c') in
  MathUtil.distance (Player.x p) (Player.y p)
    (AIController.targetX c') (AIController.targetY c') = 15 / 10 /\
  AIController.state c' = AIController.state c /\
  AIController.moveToTarget p c' =
    Player.applyMovement (cos angle) (sin angle) (Player.set_isSprinting false p).
Proof.
  intros c' angle.
  destruct (chooseProbeTarget_fields rnd p c) as (a & Hx & Hy & Hst & _).
  fold c' in Hx, Hy, Hst.
  assert (Hd : MathUtil.distance (Player.x p) (Player.y p)
                 (AIController.targetX c') (AIController.targetY c') = 15 / 10).
  { apply distance_of_square; [lra|]. rewrite Hx, Hy.
    pose proof (sin2_cos2 a) as Hsc. unfold Rsqr in Hsc.
    replace ((Player.x p + cos a * (15 / 10) - Player.x p) *
             (Player.x p + cos a * (15 / 10) - Player.x p) +
             (Player.y p + sin a * (15 / 10) - Player.y p) *
             (Player.y p + sin a * (15 / 10) - Player.y p))
      with ((sin a * sin a + cos a * cos a) * (15 / 10 * (15 / 10))) by ring.
    rewrite Hsc. ring. }
  split; [exact Hd|]. split; [exact Hst|].
  unfold AIController.moveToTarget; cbv zeta. rewrite Hd.
  replace (15 / 10 <? 5 / 10) with false by (symmetry; apply Rltb_false; lra).
  replace (15 / 10 >? 3) with false by (symmetry; apply Rltb_false; lra).
  reflexivity.
Qed.

(** The shot as [executeShoot] and [executeLayup] leave it: the player has
    let go, the controller is idle, and the ball flies from where it was,
    remembering its holder. *)
Definition released (ball : Ball.t) (r : AIController.t * Player.t * Ball.t) : Prop :=
  let '(c', p', b') := r in
  Player.hasBall p' = false /\ Player.shotCharging p' = false /\
  AIController.state c' = AIController.idle /\
  Ball.state b' = Ball.inFlight /\ Ball.holderId b' = Ball.holderId ball /\
  Ball.x b' = Ball.x ball /\ Ball.y b' = Ball.y ball /\ Ball.z b' = Ball.z ball /\
  Ball.hasScored b' = false.

(** The power [executeShoot] compares with the threshold: the player's
    power (0 when the charge starts in this call) after one charge step. *)
Definition chargedPower (p : Player.t) : R :=
  MathUtil.clamp
    ((if Player.shotCharging p then Player.shotPower p else 0) +
     CONFIG.BALL.POWER_CHARGE_RATE * (1 / 60))
    CONFIG.BALL.MIN_SHOT_POWER CONFIG.BALL.MAX_SHOT_POWER.

Definition shootThreshold (p : Player.t) (c : AIController.t) : R :=
  AIController.calculateOptimalPowerForDistance
    (MathUtil.distance (Player.x p) (Player.y p) AIController.rimX AIController.rimY) c
  - 1 / 10.

Lemma executeShoot_step (ball : Ball.t) (p : Player.t) (c : AIController.t) :
  Player.hasBall p = true ->
  (shootThreshold p c <= chargedPower p ->
   released ball (AIController.executeShoot ball p c)) /\
  (chargedPower p < shootThreshold p c ->
   exists p',
     AIController.executeShoot ball p c = (c, p', ball) /\
     Player.hasBall p' = true /\ Player.shotCharging p' = true /\
     Player.x p' = Player.x p /\ Player.y p' = Player.y p /\
     Player.shotPower p' = chargedPower p).
Proof.
  intros Hb. unfold shootThreshold, chargedPower, AIController.executeShoot; cbv zeta.
  rewrite Hb; cbn [negb].
  destruct (Player.shotCharging p) eqn:Hc; cbn [negb].
  - unfold Player.chargeShot. rewrite Hc; cbn [negb]. cbn.
    split; intros Hcmp.
    + replace (_ <=? _) with true by (symmetry; apply Rleb_true; exact Hcmp).
      unfold Player.executeShot; cbn. rewrite Hc, Hb; cbn. repeat split.
    + replace (_ <=? _) with false by (symmetry; apply Rleb_false; exact Hcmp).
      eexists. split; [reflexivity|]. cbn. repeat split; assumption.
  - unfold Player.startShot. rewrite Hb; cbn [negb].
    unfold Player.chargeShot; cbn.
    split; intros Hcmp.
    + replace (_ <=? _) with true by (symmetry; apply Rleb_true; exact Hcmp).
      unfold Player.executeShot; cbn. rewrite Hb; cbn. repeat split.
    + replace (_ <=? _) with false by (symmetry; apply Rleb_false; exact Hcmp).
      eexists. split; [reflexivity|]. cbn. repeat split; assumption.
Qed.








Lemma executeLayup_effect (ball : Ball.t) (p : Player.t) (c : AIController.t) :
  Player.hasBall p = true ->
  released ball (AIController.executeLayup ball p c) \/
  (snd (AIController.executeLayup ball p c) = ball /\
   Player.hasBall (snd (fst (AIController.executeLayup ball p c))) = true).
Proof.
  intros Hb. unfold AIController.executeLayup; cbv zeta.
  rewrite Hb; cbn [negb].
  match goal with
  | |- context [AIController.moveToTarget p ?c1] =>
      pose proof (moveToTarget_hasBall p c1) as Hm;
      generalize dependent (AIController.moveToTarget p c1); generalize c1
  end.
  intros c1 p1 Hm. rewrite Hb in Hm.
  destruct (_ <? _).
  - left. unfold Player.startShot. rewrite Hm; cbn [negb].
    unfold Player.executeShot; cbn. rewrite Hm; cbn. repeat split.
  - right. cbn. split; [reflexivity | exact Hm].
Qed.

Lemma executeShoot_effect (ball : Ball.t) (p : Player.t) (c : AIController.t) :
  Player.hasBall p = true ->
  released ball (AIController.executeShoot ball p c) \/
  (snd (AIController.executeShoot ball p c) = ball /\
   Player.hasBall (snd (fst (AIController.executeShoot ball p c))) = true).
Proof.
  intros Hb. destruct (executeShoot_step ball p c Hb) as (Hrel & Hkeep).
  destruct (Rle_lt_dec (shootThreshold p c) (chargedPower p)) as [Hge | Hlt].
  - left. apply Hrel, Hge.
  - right. destruct (Hkeep Hlt) as (p' & -> & Hb' & _). split; [reflexivity | exact Hb'].
Qed.

(** What one [update] of the controller can do to the ball. *)
Lemma AIController_update_cases (dt : R) (rnd : AIController.Random)
    (ball : Ball.t) (opponent : Player.t) (shotClock : xnum)
    (p : Player.t) (c : AIController.t) :
  let r := AIController.update dt rnd ball opponent shotClock p c in
  (snd r = ball /\ Player.hasBall (snd (fst r)) = Player.hasBall p) \/
  (Player.hasBall p = true /\ released ball r).
Proof.
  intros r. unfold r, AIController.update; cbv zeta.
  match goal with |- context [AIController.executeState dt ball p ?c'] => generalize c' end.
  intros c'. unfold AIController.executeState.
  destruct (AIController.state c'); cbn [fst snd];
    rewrite ?moveToTarget_hasBall; try (left; split; reflexivity).
  - destruct (Player.hasBall p) eqn:Hb.
    + destruct (executeShoot_effect ball p c' Hb) as [Hrel | [Hball Hhas]].
      * right. split; [reflexivity | exact Hrel].
      * left. split; assumption.
    + left. unfold AIController.executeShoot. rewrite Hb. cbn. split; [reflexivity | exact Hb].
  - destruct (Player.hasBall p) eqn:Hb.
    + destruct (executeLayup_effect ball p c' Hb) as [Hrel | [Hball Hhas]].
      * right. split; [reflexivity | exact Hrel].
      * left. split; assumption.
    + left. unfold AIController.executeLayup. rewrite Hb. cbn. split; [reflexivity | exact Hb].
Qed.

(** X24. The controller touches the ball only by shooting it.  After
    [update] either the ball is the one passed in and its player's
    [hasBall] is unchanged, or its player had the ball and has released
    it: the player has neither ball nor charge, the controller is idle,
    and the ball is in flight from where it was, still naming its
    holder.  A controller whose player has no ball never changes the
    ball. *)
Theorem AIController_update_effect (dt : R) (rnd : AIController.Random)
    (ball : Ball.t) (opponent : Player.t) (shotClock : xnum)
    (p : Player.t) (c : AIController.t) :
  let r := AIController.update dt rnd ball opponent shotClock p c in
  (snd r = ball /\ Player.hasBall (snd (fst r)) = Player.hasBall p) \/
  (Player.hasBall p = true /\ released ball r).
Proof. exact (AIController_update_cases dt rnd ball opponent shotClock p c). Qed.

Lemma AIController_update_effect_witness :
  let p := Player.new Side.ai Side.ai 7 4 in
  snd (AIController.update (1 / 60) (AIController.mkRandom (1 / 2) (1 / 2))
         Ball.new (Player.new Side.player Side.player 7 10) (Fin 24) p
         (AIController.new p CONFIG.AI.DEFAULT_DIFFICULTY)) = Ball.new.
Proof.
  intros p.
  destruct (AIController_update_effect (1 / 60) (AIController.mkRandom (1 / 2) (1 / 2))
              Ball.new (Player.new Side.player Side.player 7 10) (Fin 24) p
              (AIController.new p CONFIG.AI.DEFAULT_DIFFICULTY))
    as [[Hball _] | [Hb _]].
  - exact Hball.
  - discriminate Hb.
Defined.

(** ** The ball and the hand that holds it *)

(** [hasBall] of the two players and [state] and [holderId] of the ball
    agree: a player with [hasBall] is the holder of a held ball, and a held
    ball is in the hand of a player with [hasBall]. *)
Definition grip (s : GameScene.t) : Prop :=
  (Player.hasBall (GameScene.player s) = true ->
   Ball.state (GameScene.ball s) = Ball.held /\
   Ball.holderId (GameScene.ball s) = Some Side.player) /\
  (Player.hasBall (GameScene.ai s) = true ->
   Ball.state (GameScene.ball s) = Ball.held /\
   Ball.holderId (GameScene.ball s) = Some Side.ai) /\
  (Ball.state (GameScene.ball s) = Ball.held ->
   Player.hasBall (GameScene.player s) = true \/
   Player.hasBall (GameScene.ai s) = true).

Lemma grip_same (s s' : GameScene.t) :
  Player.hasBall (GameScene.player s') = Player.hasBall (GameScene.player s) ->
  Player.hasBall (GameScene.ai s') = Player.hasBall (GameScene.ai s) ->
  Ball.state (GameScene.ball s') = Ball.state (GameScene.ball s) ->
  Ball.holderId (GameScene.ball s') = Ball.holderId (GameScene.ball s) ->
  grip s -> grip s'.
Proof. unfold grip. intros -> -> -> ->. tauto. Qed.

Lemma grip_onlyHolder (h : Side.t) (s : GameScene.t) :
  onlyHolder h s ->
  Ball.state (GameScene.ball s) = Ball.held ->
  Ball.holderId (GameScene.ball s) = Some h ->
  grip s.
Proof.
  unfold onlyHolder, grip. intros [Hp Ha] Hst Hid. rewrite Hp, Ha, Hst, Hid.
  destruct h; cbn; repeat split; try discriminate; auto.
Qed.

Lemma grip_released (s s' : GameScene.t) (side : Side.t) :
  grip s ->
  Player.hasBall (match side with
                  | Side.player => GameScene.player s
                  | Side.ai => GameScene.ai s
                  end) = true ->
  Player.hasBall (GameScene.player s') = false ->
  Player.hasBall (GameScene.ai s') = false ->
  Ball.state (GameScene.ball s') = Ball.inFlight ->
  grip s'.
Proof.
  unfold grip. intros _ _ Hp Ha Hst. rewrite Hp, Ha, Hst.
  repeat split; discriminate.
Qed.

Lemma grip_one (s : GameScene.t) :
  grip s ->
  Player.hasBall (GameScene.player s) = true ->
  Player.hasBall (GameScene.ai s) = false.
Proof.
  intros (Gp & Ga & _) Hp.
  destruct (Player.hasBall (GameScene.ai s)); [|reflexivity].
  destruct (Gp Hp) as (_ & H1). destruct (Ga eq_refl) as (_ & H2).
  rewrite H1 in H2. discriminate.
Qed.

Lemma grip_other (s : GameScene.t) :
  grip s ->
  Player.hasBall (GameScene.ai s) = true ->
  Player.hasBall (GameScene.player s) = false.
Proof.
  intros (Gp & Ga & _) Ha.
  destruct (Player.hasBall (GameScene.player s)); [|reflexivity].
  destruct (Gp eq_refl) as (_ & H1). destruct (Ga Ha) as (_ & H2).
  rewrite H1 in H2. discriminate.
Qed.

Lemma setupInitialPositions_grip (s : GameScene.t) :
  grip (GameScene.setupInitialPositions s).
Proof.
  destruct (setupInitialPositions_holder s) as (Hh & Hst & Hid & _).
  exact (grip_onlyHolder _ _ Hh Hst Hid).
Qed.

Lemma inputMovement_grip (dt : R) (input : GameScene.Input) (s : GameScene.t) :
  grip s -> grip (GameScene.inputMovement dt input s).
Proof.
  apply grip_same; unfold GameScene.inputMovement; cbv zeta;
    split_tests; cbn; rewrite ?applyMovement_hasBall; reflexivity.
Qed.

Lemma inputSprint_grip (input : GameScene.Input) (s : GameScene.t) :
  grip s -> grip (GameScene.inputSprint input s).
Proof. apply grip_same; reflexivity. Qed.

Lemma inputShot_grip (dt : R) (input : GameScene.Input) (s : GameScene.t) :
  grip s -> grip (GameScene.inputShot dt input s).
Proof.
  intros Hg. unfold GameScene.inputShot; cbv zeta.
  destruct (Player.hasBall (GameScene.player s)) eqn:Hb; [|exact Hg].
  pose proof (grip_one s Hg Hb) as Hai.
  assert (Hstart : forall angle,
            grip (GameScene.set_player
                    (Player.startShot angle (GameScene.player s)) s) /\
            Player.hasBall (Player.startShot angle (GameScene.player s)) = true).
  { intros angle. split; [|rewrite startShot_hasBall; exact Hb].
    revert Hg. apply grip_same; cbn; rewrite ?startShot_hasBall; reflexivity. }
  assert (Hrest : forall s1,
            grip s1 -> Player.hasBall (GameScene.player s1) = true ->
            grip (if Player.shotCharging (GameScene.player s1)
                  then
                    if GameScene.pointerIsDown input
                    then GameScene.set_player
                           (Player.chargeShot dt (GameScene.player s1)) s1
                    else
                      match Player.executeShot (GameScene.player s1) with
                      | (Some shotData, p) =>
                          GameScene.set_ball
                            (Ball.release (Player.shot_vx shotData)
                               (Player.shot_vy shotData) (Player.shot_vz shotData)
                               (GameScene.ball
                                  (GameScene.set_rules
                                     (Rules.registerShotAttempt Side.player
                                        (GameScene.rules (GameScene.set_player p s1)))
                                     (GameScene.set_player p s1))))
                            (GameScene.set_rules
                               (Rules.registerShotAttempt Side.player
                                  (GameScene.rules (GameScene.set_player p s1)))
                               (GameScene.set_player p s1))
                      | (None, p) => GameScene.set_player p s1
                      end
                  else s1)).
  { intros s1 Hg1 Hb1.
    destruct (Player.shotCharging (GameScene.player s1)) eqn:Hc; [|exact Hg1].
    destruct (GameScene.pointerIsDown input).
    - revert Hg1. apply grip_same; cbn; rewrite ?chargeShot_hasBall; reflexivity.
    - unfold Player.executeShot. rewrite Hc, Hb1. cbn.
      apply (grip_released s1 _ Side.player Hg1 Hb1); try reflexivity.
      cbn. apply (grip_one s1 Hg1 Hb1). }
  destruct (GameScene.pointerIsDown input && _).
  - destruct (Hstart (MathUtil.atan2 (Ball.rimY - Player.y (GameScene.player s))
                        (Ball.rimX - Player.x (GameScene.player s)))) as (Hg1 & Hb1).
    exact (Hrest _ Hg1 Hb1).
  - exact (Hrest s Hg Hb).
Qed.

Lemma inputRightClick_grip (input : GameScene.Input) (rnd : GameScene.Random)
    (s : GameScene.t) :
  grip s -> grip (GameScene.inputRightClick input rnd s).
Proof.
  intros Hg. unfold GameScene.inputRightClick.
  destruct (GameScene.rightJustPressed input); [|exact Hg].
  destruct (Player.hasBall (GameScene.player s)) eqn:Hb.
  - pose proof (performStepBack_hasBall (GameScene.player s)) as Hsb.
    destruct (Player.performStepBack (GameScene.player s)) as [ok p'].
    cbn in Hsb. revert Hg. apply grip_same; cbn; rewrite ?Hsb; reflexivity.
  - pose proof (attemptSteal_hasBall (GameScene.stealRoll rnd) (GameScene.ai s)
                  (GameScene.player s)) as Has.
    destruct (Player.attemptSteal _ _ _) as [ok p']. cbn in Has.
    destruct ok.
    + apply (grip_onlyHolder Side.player); [apply stealSucceeded_holder | reflexivity..].
    + revert Hg. apply grip_same; cbn; rewrite ?Has; reflexivity.
Qed.

Lemma handlePlayerInput_grip (dt : R) (input : GameScene.Input)
    (rnd : GameScene.Random) (s : GameScene.t) :
  grip s -> grip (GameScene.handlePlayerInput dt input rnd s).
Proof.
  intros Hg. unfold GameScene.handlePlayerInput; cbv zeta.
  apply inputRightClick_grip, inputShot_grip, inputSprint_grip, inputMovement_grip, Hg.
Qed.

Lemma updateAI_grip (dt : R) (rnd : GameScene.Random) (s : GameScene.t) :
  grip s -> grip (GameScene.updateAI dt rnd s).
Proof.
  intros Hg. unfold GameScene.updateAI.
  pose proof (AIController_update_hasBall dt (GameScene.aiRandom rnd)
                (GameScene.ball s) (GameScene.player s)
                (Rules.shotClock (GameScene.rules s)) (GameScene.ai s)
                (GameScene.aiController s)) as Hnew.
  pose proof (AIController_update_cases dt (GameScene.aiRandom rnd)
                (GameScene.ball s) (GameScene.player s)
                (Rules.shotClock (GameScene.rules s)) (GameScene.ai s)
                (GameScene.aiController s)) as Heff.
  cbv zeta in Heff. clear Hnew.
  destruct (AIController.update _ _ _ _ _ _ _) as [[c a] b]. cbn [fst snd] in Heff.
  destruct Heff as [[Hball Hhas] | [Hb Hrel]].
  - revert Hg. apply grip_same; cbn; rewrite ?Hball, ?Hhas; reflexivity.
  - destruct Hrel as (Ha & _ & _ & Hst & _).
    apply (grip_released s _ Side.ai Hg Hb); cbn; try assumption.
    apply (grip_other s Hg Hb).
Qed.

Lemma checkBallAI_grip (dt : R) (rnd : GameScene.Random) (s : GameScene.t) :
  grip s -> grip (GameScene.checkBallAI dt rnd s).
Proof.
  unfold GameScene.checkBallAI; cbv zeta.
  destruct (Rules.getPossession _); [|apply updateAI_grip].
  destruct (_ <? _); [|trivial].
  apply grip_same; cbn; rewrite ?applyMovement_hasBall; reflexivity.
Qed.

Lemma updatePlayers_grip (dt : R) (s : GameScene.t) :
  grip s -> grip (GameScene.updatePlayers dt s).
Proof.
  apply grip_same; unfold GameScene.updatePlayers; cbn;
    rewrite ?Player_update_hasBall; reflexivity.
Qed.

Lemma clampPlayers_grip (s : GameScene.t) :
  grip s -> grip (GameScene.clampPlayers s).
Proof.
  apply grip_same; unfold GameScene.clampPlayers; cbn;
    rewrite ?clampToCourtBounds_hasBall; reflexivity.
Qed.

Lemma collidePlayers_grip (s : GameScene.t) :
  grip s -> grip (GameScene.collidePlayers s).
Proof.
  unfold GameScene.collidePlayers.
  destruct (Physics.checkPlayerCollision _ _); [|trivial].
  destruct (Physics.resolvePlayerCollision _ _) as [[p a]|] eqn:Hres; [|trivial].
  apply resolvePlayerCollision_hasBall in Hres. destruct Hres as [Hp Ha].
  apply grip_same; cbn; rewrite ?Hp, ?Ha; reflexivity.
Qed.

Lemma checkBallStart_grip (dt : R) (s : GameScene.t) :
  grip s -> grip (GameScene.checkBallStart dt s).
Proof.
  apply grip_same; unfold GameScene.checkBallStart; cbv zeta;
    split_tests; reflexivity.
Qed.

(** With ball and hands in agreement [updateBallPosition] only carries a
    held ball along with its holder: the two branches that re-attach a
    ball that is not held are never taken. *)
Lemma updateBallPosition_grip (s : GameScene.t) :
  grip s ->
  grip (GameScene.updateBallPosition s) /\
  Ball.state (GameScene.ball (GameScene.updateBallPosition s))
    = Ball.state (GameScene.ball s) /\
  Ball.holderId (GameScene.ball (GameScene.updateBallPosition s))
    = Ball.holderId (GameScene.ball s).
Proof.
  intros Hg.
  assert (Hfields :
    Player.hasBall (GameScene.player (GameScene.updateBallPosition s))
      = Player.hasBall (GameScene.player s) /\
    Player.hasBall (GameScene.ai (GameScene.updateBallPosition s))
      = Player.hasBall (GameScene.ai s) /\
    Ball.state (GameScene.ball (GameScene.updateBallPosition s))
      = Ball.state (GameScene.ball s) /\
    Ball.holderId (GameScene.ball (GameScene.updateBallPosition s))
      = Ball.holderId (GameScene.ball s)).
  { destruct Hg as (Gp & Ga & _).
    unfold GameScene.updateBallPosition.
    destruct (Player.hasBall (GameScene.player s)) eqn:Hp.
    - destruct (Gp eq_refl) as (Hst & _). rewrite Hst. cbn.
      repeat split; cbn; rewrite ?Hp, ?Hst; reflexivity.
    - destruct (Player.hasBall (GameScene.ai s)) eqn:Ha.
      + destruct (Ga eq_refl) as (Hst & _). rewrite Hst. cbn.
        repeat split; cbn; rewrite ?Hp, ?Ha, ?Hst; reflexivity.
      + cbn. repeat split; cbn; rewrite ?Hp, ?Ha; reflexivity. }
  destruct Hfields as (H1 & H2 & H3 & H4).
  split; [exact (grip_same _ _ H1 H2 H3 H4 Hg)|]. split; assumption.
Qed.

Lemma Ball_update_state (dt : R) (b : Ball.t) :
  (Ball.state (Ball.update dt b) = Ball.held <-> Ball.state b = Ball.held) /\
  Ball.holderId (Ball.update dt b) = Ball.holderId b.
Proof.
  split; [|apply Ball_update_flag].
  split.
  - intros H'. destruct (Ball.state b) eqn:Hst; try reflexivity.
    + assert (Hnh : Ball.state b <> Ball.held) by (rewrite Hst; discriminate).
      destruct (update_loose dt b Hnh) as (Hn & _). contradiction.
    + assert (Hnh : Ball.state b <> Ball.held) by (rewrite Hst; discriminate).
      destruct (update_loose dt b Hnh) as (Hn & _). contradiction.
  - intros Hh. rewrite (update_held_fields dt b Hh). exact Hh.
Qed.

Lemma updateBall_grip (dt : R) (s : GameScene.t) :
  grip s -> grip (GameScene.updateBall dt s).
Proof.
  unfold grip, GameScene.updateBall; cbn.
  destruct (Ball_update_state dt (GameScene.ball s)) as (Hst & ->).
  intros (Gp & Ga & Gh). repeat split.
  - apply Hst, Gp, H.
  - apply Gp, H.
  - apply Hst, Ga, H.
  - apply Ga, H.
  - intros Hh. apply Gh, Hst, Hh.
Qed.

Lemma handleBallPickup_grip (s : GameScene.t) :
  grip s -> grip (GameScene.handleBallPickup s).
Proof.
  intros Hg. unfold GameScene.handleBallPickup; cbv zeta.
  match goal with
  | |- grip (if _ then GameScene.pickupByAI ?s1 else ?s1) =>
      assert (H1 : grip s1);
        [|generalize H1; generalize s1; clear; intros mid Hmid]
  end.
  - destruct (_ <? _); [|exact Hg].
    destruct (pickupByPlayer_holder s) as (Hp & Ha & Hst & Hid).
    apply (grip_onlyHolder Side.player); [split; assumption | assumption..].
  - destruct (_ <? _); [|exact Hmid].
    destruct (pickupByAI_holder mid) as (Ha & Hp & Hst & Hid).
    apply (grip_onlyHolder Side.ai); [split; assumption | assumption..].
Qed.

Lemma pickupIfFree_grip (s : GameScene.t) :
  grip s -> grip (GameScene.pickupIfFree s).
Proof.
  intros Hg. unfold GameScene.pickupIfFree.
  destruct (Ball.State_eqb _ _); [apply handleBallPickup_grip|]; exact Hg.
Qed.

Lemma scoreOrPickup_grip (s : GameScene.t) :
  grip s -> grip (GameScene.scoreOrPickup s).
Proof.
  intros Hg. unfold GameScene.scoreOrPickup.
  destruct (Ball.isScore _); [|apply pickupIfFree_grip, Hg].
  unfold GameScene.scored; cbv zeta. apply setupInitialPositions_grip.
Qed.

Lemma outOfBoundsExpired_grip (s : GameScene.t) :
  grip (GameScene.outOfBoundsExpired s).
Proof.
  destruct (outOfBoundsExpired_spec s) as (Hh & _ & _ & Hst & Hid & _).
  exact (grip_onlyHolder _ _ Hh Hst Hid).
Qed.

Lemma liveBallChecks_grip (dt : R) (s : GameScene.t) :
  grip s -> grip (GameScene.liveBallChecks dt s).
Proof.
  intros Hg. unfold GameScene.liveBallChecks; cbv zeta.
  destruct (Ball.isOutOfBounds _); destruct (GameScene.outOfBoundsTimer s) as [timer|].
  - destruct (_ <=? _).
    + apply outOfBoundsExpired_grip.
    + exact (scoreOrPickup_grip
               (GameScene.set_outOfBoundsTimer (Some (timer - dt)) s) Hg).
  - exact (scoreOrPickup_grip (GameScene.set_outOfBoundsTimer (Some 3) s) Hg).
  - exact (scoreOrPickup_grip (GameScene.set_outOfBoundsTimer None s) Hg).
  - apply scoreOrPickup_grip, Hg.
Qed.

Lemma handleCheckBall_grip (dt : R) (input : GameScene.Input)
    (rnd : GameScene.Random) (s : GameScene.t) :
  grip s -> grip (GameScene.handleCheckBall dt input rnd s).
Proof.
  intros Hg. unfold GameScene.handleCheckBall; cbv zeta.
  apply pickupIfFree_grip, updateBall_grip, updateBallPosition_grip,
    checkBallStart_grip, clampPlayers_grip, updatePlayers_grip, checkBallAI_grip,
    handlePlayerInput_grip, Hg.
Qed.

Lemma handleLiveBall_grip (dt : R) (input : GameScene.Input)
    (rnd : GameScene.Random) (s : GameScene.t) :
  grip s -> grip (GameScene.handleLiveBall dt input rnd s).
Proof.
  intros Hg. unfold GameScene.handleLiveBall; cbv zeta.
  apply liveBallChecks_grip, updateBall_grip, updateBallPosition_grip,
    clampPlayers_grip, collidePlayers_grip, updatePlayers_grip, updateAI_grip,
    handlePlayerInput_grip, Hg.
Qed.

Lemma update_grip (dt : R) (input : GameScene.Input)
    (rnd : GameScene.Random) (s : GameScene.t) :
  grip s -> grip (GameScene.update dt input rnd s).
Proof.
  intros Hg. unfold GameScene.update; cbv zeta.
  destruct (Rules.GameState_eqb (Rules.getGameState (GameScene.rules s)) Rules.gameOver);
    [exact Hg|].
  match goal with
  | |- grip (match Rules.getGameState (GameScene.rules ?s1) with _ => _ end) =>
      assert (H1 : grip s1);
        [|generalize H1; generalize s1; clear; intros mid Hmid]
  end.
  - destruct (_ && _); [apply setupInitialPositions_grip | exact Hg].
  - destruct (Rules.getGameState (GameScene.rules mid)).
    + apply handleCheckBall_grip, Hmid.
    + apply handleLiveBall_grip, Hmid.
    + exact Hmid.
    + exact Hmid.
Qed.

Lemma handleKeyR_grip (s : GameScene.t) : grip (GameScene.handleKeyR s).
Proof.
  unfold GameScene.handleKeyR; cbv zeta.
  match goal with
  | |- context [match Side.other ?l with _ => _ end] => destruct (Side.other l)
  end.
  - apply (grip_onlyHolder Side.player); [split; reflexivity | reflexivity..].
  - apply (grip_onlyHolder Side.ai); [split; reflexivity | reflexivity..].
Qed.

Lemma enter_grip (settings : GameSettings.t) (timer : option R) :
  grip (GameScene.enter settings timer).
Proof.
  apply (grip_onlyHolder Side.player); [apply enter_holders | reflexivity..].
Qed.

(** X25. In every state the scene can reach the players' [hasBall] and the
    ball's [state] and [holderId] agree: a player with [hasBall] is the
    [holderId] of a ball that is [held], and a ball that is [held] is in
    the hand of a player with [hasBall].  So a ball in flight or free is
    in nobody's hand, and [updateBallPosition] never has to re-attach a
    ball to a player. *)
Theorem ball_in_hand (s : GameScene.t) :
  reachable s ->
  grip s /\
  (Ball.state (GameScene.ball s) <> Ball.held ->
   Player.hasBall (GameScene.player s) = false /\
   Player.hasBall (GameScene.ai s) = false) /\
  Ball.state (GameScene.ball (GameScene.updateBallPosition s))
    = Ball.state (GameScene.ball s) /\
  Ball.holderId (GameScene.ball (GameScene.updateBallPosition s))
    = Ball.holderId (GameScene.ball s).
Proof.
  intros Hr.
  assert (Hg : grip s).
  { induction Hr as [settings timer | dt input rnd s _ IH | s _ _].
    - apply enter_grip.
    - apply update_grip, IH.
    - apply handleKeyR_grip. }
  split; [exact Hg|]. split; [|apply updateBallPosition_grip, Hg].
  destruct Hg as (Gp & Ga & _). intros Hnh. split.
  - destruct (Player.hasBall (GameScene.player s)); [|reflexivity].
    destruct (Gp eq_refl) as (Hst & _). contradiction.
  - destruct (Player.hasBall (GameScene.ai s)); [|reflexivity].
    destruct (Ga eq_refl) as (Hst & _). contradiction.
Qed.

Lemma ball_in_hand_witness :
  Ball.state (GameScene.ball (GameScene.enter GameSettings.new None)) = Ball.held /\
  Ball.holderId (GameScene.ball (GameScene.enter GameSettings.new None))
    = Some Side.player.
Proof.
  destruct (ball_in_hand (GameScene.enter GameSettings.new None)
              (reach_enter GameSettings.new None)) as (Hg & _).
  destruct Hg as (Gp & _). apply Gp. reflexivity.
Defined.

(** ** The manual reset (GameScene.handlePause, key R) *)

(** [handleKeyR] in two steps: the side that gets the ball, and the reset
    that gives it to that side. *)
Definition keyRSide (s : GameScene.t) : Side.t :=
  Side.other
    (if Player.hasBall (GameScene.player s) then Side.player
     else if Player.hasBall (GameScene.ai s) then Side.ai
     else match Ball.holderId (GameScene.ball s) with
          | Some h => h
          | None =>
              if Ball.State_eqb (Ball.state (GameScene.ball s)) Ball.held then
                let distToPlayer :=
                  sqrt ((Ball.x (GameScene.ball s) - Player.x (GameScene.player s)) ^ 2 +
                        (Ball.y (GameScene.ball s) - Player.y (GameScene.player s)) ^ 2) in
                let distToAI :=
                  sqrt ((Ball.x (GameScene.ball s) - Player.x (GameScene.ai s)) ^ 2 +
                        (Ball.y (GameScene.ball s) - Player.y (GameScene.ai s)) ^ 2) in
                if distToPlayer <? distToAI then Side.player else Side.ai
              else Rules.getPossession (GameScene.rules s)
          end).

Definition keyRScene (currentPossession : Side.t) (s : GameScene.t) : GameScene.t :=
  let s := GameScene.set_player (Player.set_hasBall false (GameScene.player s)) s in
  let s := GameScene.set_ai (Player.set_hasBall false (GameScene.ai s)) s in
  let s := GameScene.set_player (Player.set_vx 0 (GameScene.player s)) s in
  let s := GameScene.set_player (Player.set_vy 0 (GameScene.player s)) s in
  let s := GameScene.set_ai (Player.set_vx 0 (GameScene.ai s)) s in
  let s := GameScene.set_ai (Player.set_vy 0 (GameScene.ai s)) s in
  let s := GameScene.set_ball (Ball.set_vx 0 (GameScene.ball s)) s in
  let s := GameScene.set_ball (Ball.set_vy 0 (GameScene.ball s)) s in
  let s := GameScene.set_ball (Ball.set_vz 0 (GameScene.ball s)) s in
  let s := GameScene.set_ball (Ball.set_isOutOfBounds false (GameScene.ball s)) s in
  let s := GameScene.set_ball (Ball.set_hasScored false (GameScene.ball s)) s in
  let s :=
    GameScene.set_rules (Rules.set_possession currentPossession (GameScene.rules s)) s in
  let s := GameScene.set_rules (Rules.resetToCheckBall (GameScene.rules s)) s in
  let s :=
    match currentPossession with
    | Side.player =>
        let s := GameScene.set_player (Player.set_hasBall true (GameScene.player s)) s in
        let '(bx, by_, _) := Player.getBallPosition (GameScene.player s) in
        GameScene.set_ball (Ball.attachTo Side.player bx by_ (GameScene.ball s)) s
    | Side.ai =>
        let s := GameScene.set_ai (Player.set_hasBall true (GameScene.ai s)) s in
        let '(bx, by_, _) := Player.getBallPosition (GameScene.ai s) in
        GameScene.set_ball (Ball.attachTo Side.ai bx by_ (GameScene.ball s)) s
    end in
  let s := GameScene.set_checkBallTimer None s in
  GameScene.set_outOfBoundsTimer None s.

Lemma handleKeyR_split (s : GameScene.t) :
  GameScene.handleKeyR s = keyRScene (keyRSide s) s.
Proof. reflexivity. Qed.

Lemma keyRSide_from_holder (s : GameScene.t) :
  (Player.hasBall (GameScene.player s) = true -> keyRSide s = Side.ai) /\
  (Player.hasBall (GameScene.player s) = false ->
   Player.hasBall (GameScene.ai s) = true -> keyRSide s = Side.player).
Proof.
  unfold keyRSide. split.
  - intros ->. reflexivity.
  - intros -> ->. reflexivity.
Qed.

Lemma keyRScene_fields (h : Side.t) (s : GameScene.t) :
  let s' := keyRScene h s in
  Rules.possession (GameScene.rules s') = h /\
  onlyHolder h s' /\
  Ball.state (GameScene.ball s') = Ball.held /\
  Ball.holderId (GameScene.ball s') = Some h /\
  (Ball.x (GameScene.ball s'), Ball.y (GameScene.ball s'))
    = (match h with
       | Side.player => (Player.x (GameScene.player s), Player.y (GameScene.player s))
       | Side.ai => (Player.x (GameScene.ai s), Player.y (GameScene.ai s))
       end) /\
  Rules.gameState (GameScene.rules s') = Rules.checkBall /\
  Rules.shotClockActive (GameScene.rules s') = false /\
  Rules.shotClock (GameScene.rules s')
    = GameSettings.shotClockDuration (Rules.settings (GameScene.rules s)) /\
  Rules.playerScore (GameScene.rules s') = Rules.playerScore (GameScene.rules s) /\
  Rules.aiScore (GameScene.rules s') = Rules.aiScore (GameScene.rules s) /\
  (Player.x (GameScene.player s'), Player.y (GameScene.player s'))
    = (Player.x (GameScene.player s), Player.y (GameScene.player s)) /\
  (Player.x (GameScene.ai s'), Player.y (GameScene.ai s'))
    = (Player.x (GameScene.ai s), Player.y (GameScene.ai s)) /\
  (Player.vx (GameScene.player s'), Player.vy (GameScene.player s')) = (0, 0) /\
  (Player.vx (GameScene.ai s'), Player.vy (GameScene.ai s')) = (0, 0) /\
  GameScene.outOfBoundsTimer s' = None /\ GameScene.checkBallTimer s' = None.
Proof.
  intros s'. unfold s', onlyHolder. destruct h; repeat split; reflexivity.
Qed.

(** X26. The reset key hands the ball over.  After [R] one side has
    possession and the ball, held at that player's position; the phase is
    [checkBall] with the clock disarmed and reset; the players stand where
    they stood, at rest; the scores are untouched and both timers are
    cleared.  The side is the opponent of the player who had the ball, so
    pressing [R] twice gives the ball to the opponent and back. *)
Theorem handleKeyR_contract (s : GameScene.t) :
  let s' := GameScene.handleKeyR s in
  let h := Rules.possession (GameScene.rules s') in
  onlyHolder h s' /\
  Ball.state (GameScene.ball s') = Ball.held /\
  Ball.holderId (GameScene.ball s') = Some h /\
  (Ball.x (GameScene.ball s'), Ball.y (GameScene.ball s'))
    = (match h with
       | Side.player => (Player.x (GameScene.player s), Player.y (GameScene.player s))
       | Side.ai => (Player.x (GameScene.ai s), Player.y (GameScene.ai s))
       end) /\
  Rules.gameState (GameScene.rules s') = Rules.checkBall /\
  Rules.shotClockActive (GameScene.rules s') = false /\
  Rules.shotClock (GameScene.rules s')
    = GameSettings.shotClockDuration (Rules.settings (GameScene.rules s)) /\
  Rules.playerScore (GameScene.rules s') = Rules.playerScore (GameScene.rules s) /\
  Rules.aiScore (GameScene.rules s') = Rules.aiScore (GameScene.rules s) /\
  (Player.x (GameScene.player s'), Player.y (GameScene.player s'))
    = (Player.x (GameScene.player s), Player.y (GameScene.player s)) /\
  (Player.x (GameScene.ai s'), Player.y (GameScene.ai s'))
    = (Player.x (GameScene.ai s), Player.y (GameScene.ai s)) /\
  (Player.vx (GameScene.player s'), Player.vy (GameScene.player s')) = (0, 0) /\
  (Player.vx (GameScene.ai s'), Player.vy (GameScene.ai s')) = (0, 0) /\
  GameScene.outOfBoundsTimer s' = None /\ GameScene.checkBallTimer s' = None /\
  (Player.hasBall (GameScene.player s) = true -> h = Side.ai) /\
  (Player.hasBall (GameScene.player s) = false ->
   Player.hasBall (GameScene.ai s) = true -> h = Side.player) /\
  onlyHolder (Side.other h) (GameScene.handleKeyR s').
Proof.
  intros s' h. unfold h. clear h.
  assert (Hs' : s' = keyRScene (keyRSide s) s) by apply handleKeyR_split.
  clearbody s'. rewrite (handleKeyR_split s').
  destruct (keyRSide_from_holder s) as (Hfrom1 & Hfrom2).
  destruct (keyRSide_from_holder s') as (Hn1 & Hn2).
  destruct (keyRScene_fields (keyRSide s') s') as (_ & Hh2 & _).
  revert Hh2 Hn1 Hn2. generalize (keyRSide s'). intros k2 Hh2 Hn1 Hn2.
  destruct (keyRScene_fields (keyRSide s) s) as (Hk & Hrest).
  revert Hs' Hfrom1 Hfrom2 Hk Hrest. generalize (keyRSide s).
  intros k Hs' Hfrom1 Hfrom2 Hk Hrest. cbv zeta in Hk, Hrest.
  rewrite <- Hs' in Hk, Hrest. clear Hs'.
  rewrite Hk.
  destruct Hrest as (Hh & Hst & Hid & Hb & Hgs & Hact & Hclk & Hps & Has & Hpp & Hap
                     & Hpv & Hav & Ht1 & Ht2).
  repeat (split; [assumption|]).
  assert (Hnext : k2 = Side.other k).
  { destruct Hh as [Hp Ha]. destruct k; cbn in Hp, Ha.
    - exact (Hn1 Hp).
    - exact (Hn2 Hp Ha). }
  rewrite <- Hnext. exact Hh2.
Qed.

Lemma handleKeyR_contract_witness :
  let s := GameScene.enter GameSettings.new None in
  Player.hasBall (GameScene.ai (GameScene.handleKeyR s)) = true /\
  Player.hasBall (GameScene.player (GameScene.handleKeyR (GameScene.handleKeyR s)))
    = true.
Proof.
  intros s.
  destruct (handleKeyR_contract s)
    as (Hh & _ & _ & _ & _ & _ & _ & _ & _ & _ & _ & _ & _ & _ & _ & Hfrom & _ & Htwice).
  assert (Hai : Rules.possession (GameScene.rules (GameScene.handleKeyR s)) = Side.ai)
    by (apply Hfrom; reflexivity).
  rewrite Hai in Hh, Htwice.
  destruct Hh as [_ Ha]. destruct Htwice as [Hp _].
  split; [exact Ha | exact Hp].
Defined.

(** ** Fouls, free throws and the reset of the rules *)

(** X27. A foul followed by its free throw: [handleFoul] asks for the free
    throw, counts the foul, gives possession to the fouled side and enters
    [freeThrow], where [update] leaves the clock alone; [processFreeThrow]
    then adds [FOUL_FREE_THROW_POINTS] to the side in possession when the
    throw is made and nothing otherwise, and ends in [gameOver] when a
    score has reached [WIN_SCORE] and in [checkBall] otherwise.  The clock
    is reset to the configured duration but, unlike after a basket or a
    violation, it is not disarmed. *)
Theorem foul_then_freeThrow (foulOn : Side.t) (made : bool) (r : Rules.t) :
  let r1 := snd (Rules.handleFoul foulOn r) in
  let r2 := Rules.processFreeThrow made r1 in
  fst (Rules.handleFoul foulOn r) = true /\
  Rules.gameState r1 = Rules.freeThrow /\
  (forall dt, Rules.update dt r1 = r1) /\
  Rules.possession r2 = foulOn /\
  Rules.fouls (Rules.stats r2) = (Rules.fouls (Rules.stats r) + 1)%Z /\
  scoreOf foulOn r2 =
    (scoreOf foulOn r + (if made then CONFIG.GAME.FOUL_FREE_THROW_POINTS else 0))%Z /\
  scoreOf (Side.other foulOn) r2 = scoreOf (Side.other foulOn) r /\
  Rules.shotClock r2 = GameSettings.shotClockDuration (Rules.settings r) /\
  Rules.shotClockActive r2 = Rules.shotClockActive r /\
  Rules.needsCheckBall r2 = true /\
  Rules.gameState r2 =
    (if (Rules.playerScore r2 >=? CONFIG.GAME.WIN_SCORE)%Z ||
        (Rules.aiScore r2 >=? CONFIG.GAME.WIN_SCORE)%Z
     then Rules.gameOver else Rules.checkBall).
Proof.
  intros r1 r2.
  split; [reflexivity|]. split; [reflexivity|].
  split.
  { intros dt. unfold r1, Rules.update, Rules.handleFoul; cbn.
    rewrite andb_false_r. reflexivity. }
  unfold r2, r1, Rules.processFreeThrow, Rules.handleFoul; cbv zeta.
  destruct foulOn, made; cbn -[Z.geb Z.add];
    match goal with
    | |- context [((?a >=? ?w)%Z || (?b >=? ?w)%Z)%bool] =>
        destruct (a >=? w)%Z eqn:H1; destruct (b >=? w)%Z eqn:H2
    end;
    cbn -[Z.geb Z.add]; rewrite ?H1, ?H2; cbn -[Z.geb Z.add];
    repeat split; try reflexivity; lia.
Qed.

(** X28. [reset()] undoes whatever the scene has done to its rules: after
    any sequence of the scene's calls it restores the state of
    [new Rules(settings)] with the same settings, except that
    [needsCheckBall] is [true] where the constructor leaves it [false]. *)
Theorem reset_restores_new (settings : GameSettings.t) (r : Rules.t) :
  rulesCalls (Rules.new settings) r ->
  Rules.reset r = Rules.set_needsCheckBall true (Rules.new settings).
Proof.
  intros Hc.
  destruct (rulesCalls_invariant settings _ _ Hc (rulesInvariant_new settings))
    as (Hset & _).
  clear Hc. destruct r; cbn in Hset; subst. reflexivity.
Qed.

Lemma reset_restores_new_witness :
  Rules.reset
    (Rules.scorePoints Side.ai 7 4 (Rules.startLiveBall (Rules.new GameSettings.new)))
  = Rules.set_needsCheckBall true (Rules.new GameSettings.new).
Proof.
  apply reset_restores_new.
  apply (calls_then _ (Rules.startLiveBall (Rules.new GameSettings.new))).
  - apply rulesCalls_one, call_startLiveBall.
  - apply call_scorePoints.
Defined.

(** ** The check-ball setup (GameScene.setupInitialPositions) *)

Lemma setupInitialPositions_fields (s : GameScene.t) :
  let s' := GameScene.setupInitialPositions s in
  let checkX := CONFIG.COURT.WIDTH / 2 in
  let checkY := CONFIG.COURT.FREE_THROW_DISTANCE + CONFIG.COURT.BACKBOARD_DISTANCE in
  let holderY (side : Side.t) :=
    if Side.eqb (Rules.possession (GameScene.rules s)) side
    then checkY + 2 else checkY - 2 in
  Player.x (GameScene.player s') = checkX /\
  Player.y (GameScene.player s') = holderY Side.player /\
  Player.x (GameScene.ai s') = checkX /\
  Player.y (GameScene.ai s') = holderY Side.ai /\
  Ball.x (GameScene.ball s') = checkX /\
  Ball.y (GameScene.ball s') = checkY + 2 /\
  Ball.z (GameScene.ball s') = 12 / 10 /\
  (Ball.vx (GameScene.ball s'), Ball.vy (GameScene.ball s'),
   Ball.vz (GameScene.ball s')) = (0, 0, 0).
Proof.
  unfold GameScene.setupInitialPositions; cbv zeta; cbn.
  unfold Rules.getPossession.
  destruct (Rules.possession (GameScene.rules s)); cbn; repeat split; reflexivity.
Qed.

(** X29. The check-ball setup is a legal position: both players stand on
    the centre line of the court, inside it and 4 m apart, the side in
    possession at 7.8 m from the baseline with the ball at rest in its
    hand (1.2 m high), the other side at 3.8 m, between the ball and the
    rim; the two do not collide, so the collision step leaves the setup
    alone. *)
Theorem setupInitialPositions_places (s : GameScene.t) :
  let s' := GameScene.setupInitialPositions s in
  let holderY (side : Side.t) :=
    if Side.eqb (Rules.possession (GameScene.rules s)) side
    then 78 / 10 else 38 / 10 in
  (Player.x (GameScene.player s'), Player.y (GameScene.player s'))
    = (15 / 2, holderY Side.player) /\
  (Player.x (GameScene.ai s'), Player.y (GameScene.ai s'))
    = (15 / 2, holderY Side.ai) /\
  insideCourt (Player.x (GameScene.player s')) (Player.y (GameScene.player s')) /\
  insideCourt (Player.x (GameScene.ai s')) (Player.y (GameScene.ai s')) /\
  MathUtil.distance (Player.x (GameScene.player s')) (Player.y (GameScene.player s'))
    (Player.x (GameScene.ai s')) (Player.y (GameScene.ai s')) = 4 /\
  GameScene.collidePlayers s' = s' /\
  (Ball.x (GameScene.ball s'), Ball.y (GameScene.ball s'), Ball.z (GameScene.ball s'))
    = (15 / 2, 78 / 10, 12 / 10) /\
  (Ball.vx (GameScene.ball s'), Ball.vy (GameScene.ball s'),
   Ball.vz (GameScene.ball s')) = (0, 0, 0) /\
  Ball.rimY < 38 / 10.
Proof.
  intros s' holderY.
  destruct (setupInitialPositions_fields s)
    as (Hpx & Hpy & Hax & Hay & Hbx & Hby & Hbz & Hbv).
  fold s' in Hpx, Hpy, Hax, Hay, Hbx, Hby, Hbz, Hbv.
  cbv zeta in Hpx, Hpy, Hax, Hay, Hbx, Hby.
  assert (Hpy' : Player.y (GameScene.player s') = holderY Side.player).
  { rewrite Hpy. unfold holderY. destruct (Rules.possession (GameScene.rules s));
      cbn; autounfold with config; lra. }
  assert (Hay' : Player.y (GameScene.ai s') = holderY Side.ai).
  { rewrite Hay. unfold holderY. destruct (Rules.possession (GameScene.rules s));
      cbn; autounfold with config; lra. }
  assert (Hx : CONFIG.COURT.WIDTH / 2 = 15 / 2) by (autounfold with config; lra).
  rewrite Hx in Hpx, Hax, Hbx.
  assert (Hdist : MathUtil.distance (Player.x (GameScene.player s'))
                    (Player.y (GameScene.player s'))
                    (Player.x (GameScene.ai s')) (Player.y (GameScene.ai s')) = 4).
  { apply distance_of_square; [lra|]. rewrite Hpx, Hax, Hpy', Hay'.
    unfold holderY. destruct (Rules.possession (GameScene.rules s)); cbn; lra. }
  split; [rewrite Hpx, Hpy'; reflexivity|].
  split; [rewrite Hax, Hay'; reflexivity|].
  split.
  { rewrite Hpx, Hpy'. unfold insideCourt, holderY.
    destruct (Rules.possession (GameScene.rules s)); cbn; autounfold with config; lra. }
  split.
  { rewrite Hax, Hay'. unfold insideCourt, holderY.
    destruct (Rules.possession (GameScene.rules s)); cbn; autounfold with config; lra. }
  split; [exact Hdist|].
  split.
  { unfold GameScene.collidePlayers.
    destruct (Physics.checkPlayerCollision (GameScene.player s') (GameScene.ai s'))
      eqn:Hcol; [|reflexivity].
    apply checkPlayerCollision_true in Hcol. rewrite Hdist in Hcol.
    autounfold with config in Hcol. lra. }
  split.
  { rewrite Hbx, Hby, Hbz. f_equal. f_equal. autounfold with config. lra. }
  split; [exact Hbv|].
  unfold Ball.rimY. autounfold with config. lra.
Qed.

(** ** How often the AI decides (AIController.update) *)

Lemma makeDecision_keeps (rnd : AIController.Random) (ball : Ball.t)
    (opponent : Player.t) (shotClock : xnum) (p : Player.t) (c : AIController.t) :
  let c' := AIController.makeDecision rnd ball opponent shotClock p c in
  AIController.params c' = AIController.params c /\
  AIController.stateTime c' = AIController.stateTime c /\
  AIController.decisionTimer c' = AIController.decisionTimer c.
Proof.
  unfold AIController.makeDecision, AIController.decideOffense,
    AIController.decideDefense, AIController.chooseProbeTarget; cbv zeta.
  split_tests; repeat split; reflexivity.
Qed.

Lemma executeState_keeps (dt : R) (ball : Ball.t) (p : Player.t)
    (c : AIController.t) :
  let c' := fst (fst (AIController.executeState dt ball p c)) in
  AIController.params c' = AIController.params c /\
  AIController.stateTime c' = AIController.stateTime c /\
  AIController.decisionTimer c' = AIController.decisionTimer c /\
  (AIController.state c' = AIController.state c \/
   AIController.state c' = AIController.idle) /\
  (AIController.state c <> AIController.layup ->
   AIController.targetX c' = AIController.targetX c /\
   AIController.targetY c' = AIController.targetY c).
Proof.
  unfold AIController.executeState.
  destruct (AIController.state c) eqn:Hst; cbn [fst snd];
    try (repeat split; auto; fail).
  - unfold AIController.executeShoot; cbv zeta.
    destruct (negb (Player.hasBall p)); cbn [fst snd];
      [repeat split; cbn; rewrite ?Hst; auto|].
    destruct (_ <=? _); cbn [fst snd]; [|repeat split; cbn; rewrite ?Hst; auto].
    destruct (Player.executeShot _) as [[shot|] p']; cbn [fst snd];
      repeat split; cbn; rewrite ?Hst; auto.
  - unfold AIController.executeLayup; cbv zeta.
    destruct (negb (Player.hasBall p)); cbn [fst snd];
      [repeat split; cbn; rewrite ?Hst; auto; try (intros Hn; contradiction Hn; reflexivity);
        try (exfalso; match goal with Hn : ?a <> ?a |- _ => apply Hn; reflexivity end)|].
    destruct (_ <? _); cbn [fst snd].
    + destruct (Player.executeShot _) as [[shot|] p']; cbn [fst snd];
        repeat split; cbn; rewrite ?Hst; auto; try (intros Hn; contradiction Hn; reflexivity);
        try (exfalso; match goal with Hn : ?a <> ?a |- _ => apply Hn; reflexivity end).
    + repeat split; cbn; rewrite ?Hst; auto; try (intros Hn; contradiction Hn; reflexivity);
        try (exfalso; match goal with Hn : ?a <> ?a |- _ => apply Hn; reflexivity end).
Qed.

(** X30. The controller reconsiders only when its timer has run out.
    While [decisionTimer - dt] is still positive, [update] runs the
    current behaviour without deciding: the timer goes down by [dt], the
    behaviour stays what it was or turns [idle] (after a release or
    without the ball), and the target moves only in [layup].  When the
    timer has run out a decision is taken and the timer restarts at the
    difficulty's [DECISION_DELAY].  In both cases [stateTime] grows by
    [dt]: it is never reset, whatever the behaviour. *)
Theorem AIController_decision_throttle (dt : R) (rnd : AIController.Random)
    (ball : Ball.t) (opponent : Player.t) (shotClock : xnum)
    (p : Player.t) (c : AIController.t) :
  let c' := fst (fst (AIController.update dt rnd ball opponent shotClock p c)) in
  AIController.stateTime c' = AIController.stateTime c + dt /\
  AIController.params c' = AIController.params c /\
  (0 < AIController.decisionTimer c - dt ->
   AIController.decisionTimer c' = AIController.decisionTimer c - dt /\
   (AIController.state c' = AIController.state c \/
    AIController.state c' = AIController.idle) /\
   (AIController.state c <> AIController.layup ->
    AIController.targetX c' = AIController.targetX c /\
    AIController.targetY c' = AIController.targetY c)) /\
  (AIController.decisionTimer c - dt <= 0 ->
   AIController.decisionTimer c' = CONFIG.DECISION_DELAY (AIController.params c)).
Proof.
  intros c'. unfold c', AIController.update; cbv zeta. cbn [AIController.decisionTimer
    AIController.set_decisionTimer AIController.set_stateTime].
  destruct (AIController.decisionTimer c - dt <=? 0) eqn:Hdue.
  - apply Rleb_true in Hdue.
    match goal with
    | |- context [AIController.makeDecision rnd ball opponent shotClock p ?c0] =>
        destruct (makeDecision_keeps rnd ball opponent shotClock p c0) as (Mp & Mt & _);
        generalize dependent (AIController.makeDecision rnd ball opponent shotClock p c0)
    end.
    intros c1 Mp Mt. cbn in Mp, Mt.
    destruct (executeState_keeps dt ball p
                (AIController.set_decisionTimer
                   (CONFIG.DECISION_DELAY (AIController.params c1)) c1))
      as (Ep & Et & Ed & _).
    cbv zeta in Ep, Et, Ed. rewrite Ep, Et, Ed. cbn. rewrite Mp, Mt.
    split; [reflexivity|]. split; [reflexivity|].
    split; [intros Hpos; lra | intros _; reflexivity].
  - apply Rleb_false in Hdue.
    destruct (executeState_keeps dt ball p
                (AIController.set_decisionTimer (AIController.decisionTimer c - dt)
                   (AIController.set_stateTime (AIController.stateTime c + dt) c)))
      as (Ep & Et & Ed & Es & Etg).
    cbv zeta in Ep, Et, Ed, Es, Etg. rewrite Ep, Et, Ed. cbn.
    split; [reflexivity|]. split; [reflexivity|].
    split; [|intros Hle; lra].
    intros _. split; [reflexivity|]. split; [exact Es | exact Etg].
Qed.

Lemma AIController_decision_throttle_witness :
  let p := Player.new Side.ai Side.ai 7 4 in
  let c := AIController.new p CONFIG.AI.DEFAULT_DIFFICULTY in
  AIController.decisionTimer
    (fst (fst (AIController.update (1 / 60) (AIController.mkRandom (1 / 2) (1 / 2))
                 Ball.new (Player.new Side.player Side.player 7 10) (Fin 24) p c)))
  = 2 / 10.
Proof.
  intros p c.
  destruct (AIController_decision_throttle (1 / 60)
              (AIController.mkRandom (1 / 2) (1 / 2)) Ball.new
              (Player.new Side.player Side.player 7 10) (Fin 24) p c)
    as (_ & _ & _ & Hdue).
  rewrite Hdue; [reflexivity | cbn; lra].
Defined.
